(** * weather-or-not: the PCA forecaster and the weather classifier

    A shallow embedding of [src/data_fetching.py] (class [WeatherPredictor]),
    of [classify_weather], [get_weather_emoji], [get_activity_suggestions]
    and [get_clothing_recommendations] from [src/weather_predictor.py], and
    of [get_weather_icon] from [src/app.py].

    Conventions.
    - Python exceptions are values of [exn]; a function that can raise
      returns an [outcome].
    - The numeric pipeline of [data_fetching.py] uses [exp], [sqrt], an
      eigen-solver and Gaussian draws; it is modelled in exact real
      arithmetic ([R]).  A NaN cell of an array is [None].  Where binary64
      leaves the reals in kind ([exp] underflowing to 0, a division by a
      zero sum, the square root of a negative number, a comparison decided
      by the last bit) the definition says so, and the theorems keep to
      inputs away from it by hypothesis.
    - [classify_weather] and the functions that advise on its result only
      compare their inputs with literals, so they are modelled on binary64
      floats ([PrimFloat]), as Python evaluates them.
    - numpy arrays are lists (matrices are lists of rows); xarray datasets
      are records with one shared coordinate per dimension. *)

From Stdlib Require Import Reals Lra Lia ZArith.
From Stdlib Require Floats.PrimFloat Floats.FloatOps Floats.FloatAxioms
  Floats.SpecFloat.
From stdpp Require Import base option list gmap strings sorting.

(** ** Python exceptions *)

Module Py.

Inductive exn : Type :=
| KeyError (key : string)
| TypeError
| ValueError
| IndexError
| AttributeError
| ZeroDivisionError
| LinAlgError
| OverflowError
| RuntimeError (msg : string).

Inductive outcome (A : Type) : Type :=
| Ok (a : A)
| Raise (e : exn).
Global Arguments Ok {A} a.
Global Arguments Raise {A} e.

Global Instance outcome_ret : MRet outcome := fun A a => Ok a.

Global Instance outcome_bind : MBind outcome := fun A B k m =>
  match m with
  | Ok a => k a
  | Raise e => Raise e
  end.

Definition returns {A : Type} (m : outcome A) : Prop := exists a, m = Ok a.

Definition raises {A : Type} (m : outcome A) : Prop := exists e, m = Raise e.

(** [d[k]] on a dict with string keys. *)
Definition getitem {V : Type} (d : gmap string V) (k : string) : outcome V :=
  match d !! k with
  | Some v => Ok v
  | None => Raise (KeyError k)
  end.

(** [d.get(k, default)]. *)
Definition get {V : Type} (d : gmap string V) (k : string) (default : V) : V :=
  match d !! k with
  | Some v => v
  | None => default
  end.

End Py.

Import Py.

(** ** [weather_predictor.py]: [classify_weather] *)

Module Classifier.

Import PrimFloat.
Local Open Scope string_scope.
Local Set Warnings "-inexact-float".

(** A value stored in a statistics dict: a number ([mean], [p5], ...) or a
    string ([unit]). *)
Inductive pyval : Type :=
| VNum (x : float)
| VStr (s : string).

Abbreviation stats := (gmap string pyval).
Abbreviation predictions := (gmap string (gmap string pyval)).

(** Using a value in [<] or [>] against a number: a string raises. *)
Definition as_num (v : pyval) : outcome float :=
  match v with
  | VNum x => Ok x
  | VStr _ => Raise TypeError
  end.

(** Python's [a < b] and [a > b] on floats; both are false on NaN. *)
Definition lt (a b : float) : bool := PrimFloat.ltb a b.
Definition gt (a b : float) : bool := PrimFloat.ltb b a.

Definition lower_ascii (c : Ascii.ascii) : Ascii.ascii :=
  let n := Ascii.nat_of_ascii c in
  if (65 <=? n)%nat && (n <=? 90)%nat then Ascii.ascii_of_nat (n + 32) else c.

(** [str.lower()], on the ASCII strings this function builds. *)
Fixpoint lower (s : string) : string :=
  match s with
  | EmptyString => EmptyString
  | String c s' => String (lower_ascii c) (lower s')
  end.

(** Python's short-circuit [a and b] when evaluating [b] may raise. *)
Definition and_then (a : bool) (b : outcome bool) : outcome bool :=
  if a then b else Ok false.

Definition classify_weather (p : predictions) : outcome (string * string) :=
  (* Extract mean values *)
  temperature ← getitem p "temperature";
  temp_v ← getitem temperature "mean";
  precipitation ← getitem p "precipitation";
  precip_v ← getitem precipitation "mean";
  precipitation' ← getitem p "precipitation";
  let precip_prob_v := get precipitation' "probability" (VNum 0) in
  cloud_cover ← getitem p "cloud_cover";
  clouds_v ← getitem cloud_cover "mean";
  wind_speed ← getitem p "wind_speed";
  wind_v ← getitem wind_speed "mean";
  humidity_d ← getitem p "humidity";
  humidity_v ← getitem humidity_d "mean";
  (* Temperature categories *)
  temp ← as_num temp_v;
  let temp_category :=
    if lt temp 0 then "freezing"
    else if lt temp 10 then "cold"
    else if lt temp 20 then "cool"
    else if lt temp 28 then "comfortable"
    else if lt temp 35 then "warm"
    else "hot" in
  (* Primary weather determination *)
  precip ← as_num precip_v;
  heavy ← and_then (gt precip 5) (pp ← as_num precip_prob_v; Ok (gt pp 0.5));
  '(classification, short_desc) ←
    (if (heavy : bool) then
       if lt temp 0 then Ok ("snowy", "Expect snowfall")
       else if gt precip 20 then Ok ("heavy_rain", "Heavy rainfall expected")
       else Ok ("rainy", "Rainy conditions")
     else
       light ← and_then (gt precip 0.5) (pp ← as_num precip_prob_v; Ok (gt pp 0.3));
       if (light : bool) then Ok ("light_rain", "Light rain possible")
       else
         clouds ← as_num clouds_v;
         if gt clouds 80 then Ok ("overcast", "Overcast skies")
         else if gt clouds 50 then Ok ("cloudy", "Mostly cloudy")
         else if gt clouds 20 then Ok ("partly_cloudy", "Partly cloudy")
         else if gt temp 30 then Ok ("hot", "Hot and sunny")
         else Ok ("clear", "Clear skies")) : outcome (string * string);
  (* Wind modifier *)
  wind ← as_num wind_v;
  let '(classification, short_desc) :=
    if gt wind 15
    then ("windy_" +:+ classification, "Windy with " +:+ lower short_desc)
    else (classification, short_desc) in
  (* Special conditions *)
  humidity ← as_num humidity_v;
  let short_desc :=
    if gt humidity 85 && gt temp 25 then short_desc +:+ " and humid"
    else if lt humidity 30 then short_desc +:+ " and dry"
    else short_desc in
  Ok (classification, short_desc).

(** The dictionary of the module's own self-test. *)
Definition sample_predictions : predictions :=
  {[ "temperature" := {[ "mean" := VNum 25.5; "p5" := VNum 23.0; "p95" := VNum 28.0 ]};
     "precipitation" := {[ "mean" := VNum 2.5; "probability" := VNum 0.6 ]};
     "cloud_cover" := {[ "mean" := VNum 60.0 ]};
     "wind_speed" := {[ "mean" := VNum 8.5 ]};
     "humidity" := {[ "mean" := VNum 70.0 ]} ]}.

(** The closed vocabulary of base classifications. *)
Definition base_classes : list string :=
  ["snowy"; "heavy_rain"; "rainy"; "light_rain"; "overcast"; "cloudy";
   "partly_cloudy"; "hot"; "clear"].

(** The five means (and the optional probability) the classifier reads. *)
Definition has_means (p : predictions)
    (temp precip clouds wind humidity : float) (prob : option float) : Prop :=
  (exists d, p !! "temperature" = Some d /\ d !! "mean" = Some (VNum temp)) /\
  (exists d, p !! "precipitation" = Some d /\ d !! "mean" = Some (VNum precip) /\
             d !! "probability" = VNum <$> prob) /\
  (exists d, p !! "cloud_cover" = Some d /\ d !! "mean" = Some (VNum clouds)) /\
  (exists d, p !! "wind_speed" = Some d /\ d !! "mean" = Some (VNum wind)) /\
  (exists d, p !! "humidity" = Some d /\ d !! "mean" = Some (VNum humidity)).

End Classifier.

(** ** [weather_predictor.py] and [app.py]: what is shown for a classification *)

Module Advice.

Import PrimFloat Classifier.
Local Open Scope string_scope.

(** Python's [key in s] on strings: [key] occurs somewhere in [s]. *)
Fixpoint contains (key s : string) : bool :=
  if String.prefix key s then true
  else match s with
       | EmptyString => false
       | String _ s' => contains key s'
       end.

(** Python's [a <= b] on floats, false on NaN. *)
Definition le (a b : float) : bool := PrimFloat.leb a b.

(** The dict of [get_weather_emoji], in its insertion order, which is the
    order the loop visits the keys in. *)
Definition emoji_map : list (string * string) :=
  [ ("clear", "☀️"); ("sunny", "☀️"); ("partly_cloudy", "⛅");
    ("cloudy", "☁️"); ("overcast", "☁️"); ("light_rain", "🌦️");
    ("rainy", "🌧️"); ("heavy_rain", "🌧️"); ("thunderstorm", "⛈️");
    ("snowy", "❄️"); ("light_snow", "🌨️"); ("heavy_snow", "❄️");
    ("foggy", "🌫️"); ("windy", "💨"); ("hot", "🔥"); ("cold", "🥶") ].

Definition default_emoji : string := "🌤️".

Definition get_weather_emoji (classification : string) : string :=
  (* Check for compound classifications (e.g., 'windy_rainy') *)
  match List.find (fun entry => contains entry.1 classification) emoji_map with
  | Some (_, emoji) => emoji
  | None => default_emoji  (* Default *)
  end.

(** [app.py]: the icon is looked up under the whole classification. *)
Definition icon_map : gmap string string :=
  list_to_map
    [ ("sunny", "☀️"); ("clear", "☀️"); ("partly_cloudy", "⛅");
      ("cloudy", "☁️"); ("overcast", "☁️"); ("rainy", "🌧️");
      ("light_rain", "🌦️"); ("heavy_rain", "🌧️"); ("stormy", "⛈️");
      ("thunderstorm", "⛈️"); ("snowy", "❄️"); ("light_snow", "🌨️");
      ("heavy_snow", "❄️"); ("foggy", "🌫️"); ("windy", "💨");
      ("hot", "🔥"); ("cold", "🥶") ].

Definition get_weather_icon (classification : string) : string :=
  get icon_map (lower classification) default_emoji.

(** The lists [get_activity_suggestions] extends its result with. *)
Definition walk_activities : list string :=
  [ "🚶 Perfect for a walk or jog";
    "🚴 Great cycling weather";
    "🧺 Ideal for a picnic" ].

Definition heat_activities : list string :=
  [ "🏊 Swimming or water activities";
    "🌳 Seek shade for outdoor activities";
    "🍦 Great weather for ice cream!" ].

Definition crisp_activities : list string :=
  [ "🥾 Hiking with warm clothing";
    "☕ Outdoor coffee with a jacket";
    "📸 Photography in crisp air" ].

Definition rain_activities : list string :=
  [ "📚 Perfect reading weather";
    "🎬 Movie marathon day";
    "🍲 Cook your favorite comfort food";
    "☂️ Puddle jumping for the adventurous!" ].

Definition snow_activities : list string :=
  [ "⛷️ Skiing or snowboarding";
    "⛸️ Ice skating";
    "☃️ Build a snowman";
    "🔥 Cozy up by the fireplace" ].

Definition wind_activities : list string :=
  [ "🪁 Kite flying";
    "🏠 Indoor activities recommended";
    "🌳 Avoid tall trees and structures" ].

Definition indoor_activity : string := "🏠 Indoor activities recommended".

Definition get_activity_suggestions (p : predictions) (classification : string)
    : outcome (list string) :=
  temperature ← getitem p "temperature";
  temp_v ← getitem temperature "mean";
  precipitation ← getitem p "precipitation";
  precip_v ← getitem precipitation "mean";
  wind_speed ← getitem p "wind_speed";
  wind_v ← getitem wind_speed "mean";
  precip ← as_num precip_v;
  mild ← and_then (lt precip 1)
           (temp ← as_num temp_v;
            and_then (le 18 temp && le temp 28)
              (wind ← as_num wind_v; Ok (lt wind 10)));
  suggestions ←
    (if (mild : bool) then Ok walk_activities
     else
       hot ← and_then (lt precip 1) (temp ← as_num temp_v; Ok (gt temp 28));
       if (hot : bool) then Ok heat_activities
       else
         cold ← and_then (lt precip 1) (temp ← as_num temp_v; Ok (lt temp 15));
         if (cold : bool) then Ok crisp_activities
         else if contains "rain" classification then Ok rain_activities
         else if contains "snow" classification then Ok snow_activities
         else if contains "windy" classification then Ok wind_activities
         else Ok []) : outcome (list string);
  Ok (match suggestions with
      | [] => [indoor_activity]
      | _ => suggestions
      end).

Definition umbrella : string := "☂️ Umbrella or raincoat".
Definition footwear : string := "👢 Waterproof footwear".
Definition windbreaker : string := "🧥 Windbreaker recommended".
Definition sunglasses : string := "🕶️ Sunglasses".
Definition sunscreen : string := "🧴 Sunscreen".

Definition get_clothing_recommendations (p : predictions)
    (classification : string) : outcome (list string) :=
  temperature ← getitem p "temperature";
  temp_v ← getitem temperature "mean";
  precipitation ← getitem p "precipitation";
  precip_v ← getitem precipitation "mean";
  wind_speed ← getitem p "wind_speed";
  wind_v ← getitem wind_speed "mean";
  (* Base layer *)
  temp ← as_num temp_v;
  let recommendations :=
    if lt temp 10 then ["🧥 Heavy jacket or coat"; "🧣 Scarf and gloves"]
    else if lt temp 18 then ["🧥 Light jacket or sweater"]
    else if lt temp 28 then ["👕 T-shirt or light shirt"]
    else ["👕 Light, breathable clothing"; "🧢 Hat for sun protection"] in
  (* Rain gear *)
  precip ← as_num precip_v;
  let recommendations :=
    if gt precip 1
    then (recommendations ++ [umbrella]
            ++ (if gt precip 10 then [footwear] else []))%list
    else recommendations in
  (* Wind protection *)
  wind ← as_num wind_v;
  let recommendations :=
    if gt wind 10 then (recommendations ++ [windbreaker])%list
    else recommendations in
  (* Sun protection *)
  let recommendations :=
    if contains "clear" classification || contains "sunny" classification
    then (recommendations ++ [sunglasses; sunscreen])%list
    else recommendations in
  Ok recommendations.

End Advice.

(** Two more dictionaries: a wet day whose precipitation block has no
    [probability], and a dict of NaN means. *)
Module Samples.

Import PrimFloat Classifier.
Local Open Scope string_scope.
Local Set Warnings "-inexact-float".

Definition predictions_without_probability : predictions :=
  {[ "temperature" := {[ "mean" := VNum 12.0 ]};
     "precipitation" := {[ "mean" := VNum 30.0 ]};
     "cloud_cover" := {[ "mean" := VNum 90.0 ]};
     "wind_speed" := {[ "mean" := VNum 20.0 ]};
     "humidity" := {[ "mean" := VNum 70.0 ]} ]}.

Definition nan_predictions : predictions :=
  {[ "temperature" := {[ "mean" := VNum nan ]};
     "precipitation" := {[ "mean" := VNum nan; "probability" := VNum nan ]};
     "cloud_cover" := {[ "mean" := VNum nan ]};
     "wind_speed" := {[ "mean" := VNum nan ]};
     "humidity" := {[ "mean" := VNum nan ]} ]}.

(** A downpour in a gale at 2 degrees, with a probability. *)
Definition storm_predictions : predictions :=
  {[ "temperature" := {[ "mean" := VNum 2.0 ]};
     "precipitation" := {[ "mean" := VNum 30.0; "probability" := VNum 0.9 ]};
     "cloud_cover" := {[ "mean" := VNum 90.0 ]};
     "wind_speed" := {[ "mean" := VNum 20.0 ]};
     "humidity" := {[ "mean" := VNum 70.0 ]} ]}.

End Samples.

(** ** numpy on lists, in exact arithmetic *)

Module Np.

Local Open Scope R_scope.

Abbreviation vector := (list R).
Abbreviation matrix := (list (list R)).

(** A three-dimensional array together with its [shape]. *)
Record ndarray3 (A : Type) : Type := NdArray3 {
  shape : nat * nat * nat;
  data : list (list (list A))
}.
Global Arguments NdArray3 {A} shape data.
Global Arguments shape {A} _.
Global Arguments data {A} _.

(** The cells agree with the shape (true of every numpy array). *)
Definition well_shaped {A : Type} (X : ndarray3 A) : Prop :=
  let '(n0, n1, n2) := shape X in
  length (data X) = n0 /\
  Forall (fun plane => length plane = n1 /\
                       Forall (fun row => length row = n2) plane) (data X).

Definition is_matrix (n_rows n_cols : nat) (M : matrix) : Prop :=
  length M = n_rows /\ Forall (fun row => length row = n_cols) M.

(** [np.sum], [np.mean] (nan on an empty array) and [np.cumsum]. *)
Definition sum (v : vector) : R := foldr Rplus 0 v.

Definition mean (v : vector) : option R :=
  match v with
  | [] => None
  | _ => Some (sum v / INR (length v))
  end.

Fixpoint cumsum_from (acc : R) (v : vector) : vector :=
  match v with
  | [] => []
  | x :: v' => (acc + x) :: cumsum_from (acc + x) v'
  end.

Definition cumsum (v : vector) : vector := cumsum_from 0 v.

(** Element-wise operations and broadcasting against a scalar. *)
Definition vadd (u v : vector) : vector := zip_with Rplus u v.
Definition vsub (u v : vector) : vector := zip_with Rminus u v.
Definition scale (c : R) (v : vector) : vector := map (Rmult c) v.
Definition div_scalar (v : vector) (c : R) : vector := map (fun x => x / c) v.
Definition maximum (v : vector) (c : R) : vector := map (fun x => Rmax x c) v.
Definition minimum (v : vector) (c : R) : vector := map (fun x => Rmin x c) v.

Definition dot (u v : vector) : R := sum (zip_with Rmult u v).

(** Column [j] of a matrix, [M[:, j]]. *)
Definition col (j : nat) (M : matrix) : vector := map (fun row => nth j row 0) M.

(** [M.T] for a matrix with [n_cols] columns. *)
Definition transpose (n_cols : nat) (M : matrix) : matrix :=
  map (fun j => col j M) (seq 0 n_cols).

(** [A @ B] where [B] has [n_cols] columns. *)
Definition matmul (n_cols : nat) (A B : matrix) : matrix :=
  map (fun a => map (fun j => dot a (col j B)) (seq 0 n_cols)) A.

Definition madd (A B : matrix) : matrix := zip_with vadd A B.
Definition mscale (c : R) (A : matrix) : matrix := map (scale c) A.

(** [np.outer] and [ravel]. *)
Definition outer (u v : vector) : matrix := map (fun x => map (Rmult x) v) u.
Definition ravel {A : Type} (M : list (list A)) : list A := concat M.

(** Fancy indexing [v[idx]]. *)
Definition take_idx (v : vector) (idx : list nat) : vector :=
  map (fun i => nth i v 0) idx.

Global Instance Rle_decision (x y : R) : Decision (x <= y) := Rle_dec x y.
Global Instance Rlt_decision (x y : R) : Decision (x < y) := Rlt_dec x y.
Global Instance Req_decision (x y : R) : Decision (x = y) := Req_dec_T x y.

(** Monotone sequences. *)
Definition nondecreasing (v : vector) : Prop := StronglySorted Rle v.
Definition nonincreasing (v : vector) : Prop := StronglySorted (flip Rle) v.

(** [np.argsort]: the indices that sort [v] in ascending order. *)
Definition argsort (v : vector) : list nat :=
  merge_sort (fun i j => nth i v 0 <= nth j v 0) (seq 0 (length v)).

(** The bisection of [np.searchsorted(a, v)] ([side='left']):
    [lo] and [hi] close in on the insertion point. *)
Fixpoint bisect_left (fuel : nat) (a : vector) (v : R) (lo hi : nat) : nat :=
  match fuel with
  | O => lo
  | S fuel' =>
      if (lo <? hi)%nat then
        let mid := (lo + (hi - lo) / 2)%nat in
        if decide (nth mid a 0 < v)
        then bisect_left fuel' a v (S mid) hi
        else bisect_left fuel' a v lo mid
      else lo
  end.

Definition searchsorted (a : vector) (v : R) : nat :=
  bisect_left (S (length a)) a v 0 (length a).

(** [np.average(X, axis=0, weights=w)]: the weights must match the rows
    and must not sum to zero. *)
Definition weighted_mean (X : matrix) (n_cols : nat) (w : vector) : vector :=
  map (fun j => dot (col j X) w / sum w) (seq 0 n_cols).

Definition average_axis0 (X : matrix) (n_cols : nat) (w : vector) : outcome vector :=
  if decide (length w = length X) then
    let scl := sum w in
    if decide (scl = 0) then Raise ZeroDivisionError
    else Ok (weighted_mean X n_cols w)
  else Raise ValueError.

(** What [np.linalg.eigh] promises for a symmetric [d] x [d] matrix [S]:
    [d] eigenvalues in ascending order and a matrix whose column [j] is a
    unit eigenvector for eigenvalue [j]. *)
Definition matvec (M : matrix) (v : vector) : vector := map (fun row => dot row v) M.

Definition eigh_spec (d : nat) (S : matrix) (res : vector * matrix) : Prop :=
  let '(vals, vecs) := res in
  length vals = d /\ is_matrix d d vecs /\
  Sorted Rle vals /\
  forall j, (j < d)%nat ->
    matvec S (col j vecs) = scale (nth j vals 0) (col j vecs) /\
    dot (col j vecs) (col j vecs) = 1.

End Np.

(** ** xarray datasets of point data *)

Module Xr.

Import Np.
Local Open Scope R_scope.

(** An entry of a [time] coordinate; [dt.dayofyear] and [dt.hour] read off
    the last two fields. *)
Record timestamp : Type := Timestamp {
  ts_year : Z;
  ts_dayofyear : Z;
  ts_hour : Z
}.

Global Instance timestamp_eq_dec : EqDecision timestamp.
Proof. solve_decision. Defined.

(** What one request to the POWER service returns: hourly values of each
    variable along one [time] coordinate ([None] is NaN).  The [lat] and
    [lon] dimensions have length one and are left out. *)
Record hourly : Type := Hourly {
  h_time : list timestamp;
  h_vars : gmap string (list (option R))
}.

(** A dataset with dimensions [(year, time)]: every variable is an array
    [var[year][time]] over the two shared coordinates. *)
Record dataset : Type := Dataset {
  ds_year : list Z;
  ds_time : list timestamp;
  ds_vars : gmap string (list (list (option R)))
}.

(** Reading variable [v] of one response at time [t]: NaN where the
    response has no such time. *)
Definition value_at (h : hourly) (v : string) (t : timestamp) : option R :=
  match list_find (fun t' => t' = t) (h_time h) with
  | Some (i, _) => mjoin (h_vars h !! v ≫= (.!! i))
  | None => None
  end.

(** [xr.concat(all_years_ds, dim="year")] of the responses, each expanded
    with its own [year]: the other coordinate, [time], is the union of the
    responses' times ([join="outer"]), and a year has NaN at the times of
    the other years.  A variable that only some responses carry is NaN for
    the others; an empty list of responses is refused. *)
Definition concat_var (years_ds : list (Z * hourly)) (times : list timestamp)
    (v : string) : list (list (option R)) :=
  map (fun yh => map (value_at yh.2 v) times) years_ds.

Definition concat (names : list string) (years_ds : list (Z * hourly))
    : outcome dataset :=
  if decide (years_ds = []) then Raise ValueError
  else
    let times := remove_dups (mjoin (map (fun yh => h_time yh.2) years_ds)) in
    let vars :=
      foldr (fun v vars =>
               let have := filter (fun yh => is_Some (h_vars yh.2 !! v)) years_ds in
               if decide (have = []) then vars
               else <[v := concat_var years_ds times v]> vars)
            ∅ names in
    Ok (Dataset (map fst years_ds) times vars).

(** [np.nanmean]: the mean of the values that are not NaN. *)
Definition nanmean (l : list (option R)) : option R :=
  mean (omap (fun x : option R => x) l).

(** [groupby('time.dayofyear').mean(dim='time')] of one year's row, read
    at day-of-year [g]. *)
Definition daily_mean (times : list timestamp) (row : list (option R)) (g : Z)
    : option R :=
  nanmean (map snd (filter (fun tr => ts_dayofyear tr.1 = g) (zip times row))).

End Xr.

(** ** Summary statistics of a column *)

Module Stats.

Import Np.
Local Open Scope R_scope.

(** On an empty column [np.mean], [np.median] and [np.std] are nan
    ([None]) and [np.percentile] raises [IndexError]: [predict] raises
    there before any statistic is stored, so [percentile] is only read on
    columns with at least one sample, and the statements below are about
    such columns. *)
Definition sorted (l : vector) : vector := merge_sort Rle l.

(** [np.median] *)
Definition median (l : vector) : option R :=
  let s := sorted l in
  let n := length s in
  match s with
  | [] => None
  | _ => if Nat.odd n then Some (nth (n / 2) s 0)
         else Some ((nth (n / 2 - 1) s 0 + nth (n / 2) s 0) / 2)
  end.

(** [np.std] (population standard deviation) *)
Definition std (l : vector) : option R :=
  match mean l with
  | Some m => option_map sqrt (mean (map (fun x => (x - m) * (x - m)) l))
  | None => None
  end.

(** [np.percentile(l, q)] for a whole number [q], linear interpolation,
    on a column that is not empty. *)
Definition percentile (l : vector) (q : nat) : option R :=
  let s := sorted l in
  let n := length s in
  match s with
  | [] => None
  | _ =>
      let h := ((n - 1) * q)%nat in
      let lo := (h / 100)%nat in
      let hi := Nat.min (lo + 1) (n - 1) in
      let gamma := INR (h mod 100) / 100 in
      Some (nth lo s 0 + gamma * (nth hi s 0 - nth lo s 0))
  end.

End Stats.

(** ** [data_fetching.py]: the numeric stages of [WeatherPredictor] *)

Module WeatherPredictor.

Import Np.
Local Open Scope R_scope.

(** [self.parameters] *)
Definition parameters : list string :=
  ["PRECTOTCORR"; "T2M"; "RH2M"; "CLOUD_AMT"; "WS10M"; "ALLSKY_SFC_SW_DWN";
   "T2MDEW"]%string.

(** *** [build_state_vectors] *)

(** [X_state[y_idx, j, :] = flat] *)
Definition set_row {A : Type} (y_idx j : nat) (flat : list A)
    (X : list (list (list A))) : list (list (list A)) :=
  alter (fun plane => <[j := flat]> plane) y_idx X.

(** [X_raw[y_idx, lo:hi, :].flatten()] *)
Definition window_slice {A : Type} (X : list (list (list A)))
    (y_idx lo hi : nat) : list A :=
  match X !! y_idx with
  | Some plane => concat (take (hi - lo) (drop lo plane))
  | None => []
  end.

(** The inner loop, [for d_idx in range(days_window, days_window + n)],
    for one year. *)
Definition fill_year {A : Type} (X_raw : list (list (list A)))
    (days_window y_idx n : nat) (X_state : list (list (list A)))
    : list (list (list A)) :=
  foldl (fun X_state d_idx =>
           let window := window_slice X_raw y_idx
                           (d_idx - days_window) (d_idx + days_window + 1) in
           set_row y_idx (d_idx - days_window) window X_state)
        X_state (seq days_window n).

Definition build_state_vectors {A : Type} (zero : A)
    (X_raw : ndarray3 A) (days_window : nat) : outcome (ndarray3 A) :=
  let '(n_years, n_days, n_vars) := shape X_raw in
  (* np.zeros refuses a negative dimension *)
  if (n_days <? 2 * days_window)%nat then Raise ValueError
  else
    let n_valid_days := (n_days - 2 * days_window)%nat in
    let state_dim := ((2 * days_window + 1) * n_vars)%nat in
    let X_state :=
      replicate n_years (replicate n_valid_days (replicate state_dim zero)) in
    let X_state :=
      foldl (fun X_state y_idx =>
               fill_year (data X_raw) days_window y_idx
                         (n_days - days_window - days_window) X_state)
            X_state (seq 0 n_years) in
    Ok (NdArray3 (n_years, n_valid_days, state_dim) X_state).

(** The state vector whose window starts at day [j] of one year: the
    [2W+1] daily aggregates [plane[j .. j+2W]], concatenated. *)
Definition window_at {A : Type} (days_window : nat) (plane : list (list A))
    (j : nat) : list A :=
  concat (take (2 * days_window + 1) (drop j plane)).

(** *** [compute_weights] *)

(** [W = np.exp(-alpha * dist); W /= W.sum()] in exact arithmetic, where
    every [exp] is positive.  In binary64 [exp] underflows to 0 below
    about -745 (and overflows above 709): weights of years all that far
    from the target would be [0/0], nan.  The statements about weights
    keep every exponent within [-700, 0]. *)
Definition decay_weights (alpha : R) (xs : list Z) (target : Z) : vector :=
  let dist := map (fun x => Z.abs (x - target)) xs in
  let W := map (fun d => exp (- alpha * IZR d)) dist in
  div_scalar W (sum W).

Definition compute_weights (years : list Z) (target_year : Z)
    (doys : list Z) (target_doy : Z) (alpha_year alpha_day : R)
    : vector * vector * matrix :=
  let W_year := decay_weights alpha_year years target_year in
  let W_day := decay_weights alpha_day doys target_doy in
  let W_combined := outer W_year W_day in
  (W_year, W_day, W_combined).

Definition alpha_year_default : R := 0.5.
Definition alpha_day_default : R := 0.2.

(** *** [weighted_pca] *)

Section WeightedPca.

(** [np.linalg.eigh], the symmetric eigen-solver. *)
Variable eigh : matrix -> vector * matrix.

(** The local variables of [weighted_pca], in the order they are computed. *)
Definition pca_w (weights : vector) : vector := div_scalar weights (sum weights).

Definition pca_center (X : matrix) (mu : vector) : matrix :=
  map (fun row => vsub row mu) X.

(** [Xc * w[:, None]] *)
Definition weighted_rows (Xc : matrix) (w : vector) : matrix :=
  zip_with (fun row wi => map (fun x => x * wi) row) Xc w.

Definition pca_sigma (n_features : nat) (Xc : matrix) (w : vector) : matrix :=
  let Xc_w := weighted_rows Xc w in
  let Sigma := matmul n_features (transpose n_features Xc) Xc_w in
  mscale 0.5 (madd Sigma (transpose n_features Sigma)).

(** Entry [(a, b)] of [Xc.T @ Xc_w], and the quadratic form of a [d] x [d]
    matrix given by its entries. *)
Definition sigma_entry (Xc : matrix) (w : vector) (a b : nat) : R :=
  dot (col a Xc) (col b (weighted_rows Xc w)).

Definition quad_form (d : nat) (E : nat -> nat -> R) (V : nat -> R) : R :=
  sum (map (fun a => V a * sum (map (fun b => E a b * V b) (seq 0 d))) (seq 0 d)).

Definition pca_sorted (Sigma : matrix) : vector * matrix :=
  let '(eigvals, eigvecs) := eigh Sigma in
  let idx := rev (argsort eigvals) in
  (take_idx eigvals idx, map (fun row => take_idx row idx) eigvecs).

Definition pca_cumvar (eigvals : vector) : vector :=
  let total_var := sum eigvals in
  let explained_ratio := div_scalar eigvals (total_var + 1e-16) in
  cumsum explained_ratio.

(** The search compares exact ratios; in binary64 a ratio that differs
    from the threshold by a rounding error can fall on the other side
    ([total_var + 1e-16] is [total_var] itself from about 1 on).  The
    statement about the count keeps the ratios 1e-9 away from the
    threshold. *)
Definition pca_k (n_features : nat) (cumvar : vector) (var_threshold : R) : nat :=
  let k := (searchsorted cumvar var_threshold + 1)%nat in
  Nat.max 1 (Nat.min k n_features).

Definition pca_eps_reg (total_var : R) : R :=
  if decide (0 < total_var) then 1e-8 * total_var else 1e-8.

(** Where [weights] is not empty and sums to zero numpy divides by zero and
    carries nan on, to the mean and the eigenvalues it returns; here
    [x / 0] is 0 and [np.average] raises.  Every statement below is about
    weights of non-zero sum, or about no weights at all (whose sum is an
    exact 0.0, which [np.average] does refuse). *)
Definition weighted_pca (X : matrix) (weights : vector) (var_threshold : R)
    : outcome (vector * matrix * vector * nat) :=
  let n_features := length (hd [] X) in
  let w := pca_w weights in
  mu ← average_axis0 X n_features w;
  let Xc := pca_center X mu in
  let Sigma := pca_sigma n_features Xc w in
  let '(eigvals, eigvecs) := pca_sorted Sigma in
  let cumvar := pca_cumvar eigvals in
  let k := pca_k n_features cumvar var_threshold in
  let eigvals_k := take k eigvals in
  let eigvecs_k := map (take k) eigvecs in
  let eps_reg := pca_eps_reg (sum eigvals) in
  let eigvals_k := maximum eigvals_k eps_reg in
  Ok (eigvals_k, eigvecs_k, mu, k).

End WeightedPca.

Definition var_threshold_default : R := 0.95.

(** The symmetrised weighted covariance [weighted_pca] hands to the
    eigen-solver. *)
Definition pca_covariance (X : matrix) (weights : vector) : matrix :=
  let n_features := length (hd [] X) in
  let w := pca_w weights in
  let mu := weighted_mean X n_features w in
  pca_sigma n_features (pca_center X mu) w.

(** An eigen-solver for 1 x 1 matrices. *)
Definition eigh_1x1 (S : matrix) : vector * matrix :=
  ([nth 0 (nth 0 S []) 0], [[1]]).

(** *** [apply_constraints] and [generate_ensemble] *)

Definition clip_dict : list (nat * (option R * option R)) :=
  [ (0%nat, (Some 0, None));          (* PRECTOTCORR *)
    (1%nat, (Some (-80), Some 60));   (* T2M *)
    (2%nat, (Some 0, Some 100));      (* RH2M *)
    (3%nat, (Some 0, Some 100));      (* CLOUD_AMT *)
    (4%nat, (Some 0, None));          (* WS10M *)
    (5%nat, (Some 0, None));          (* ALLSKY_SFC_SW_DWN *)
    (6%nat, (Some (-80), Some 60)) ]. (* T2MDEW *)

(** [samples[:, vi] = f(samples[:, vi])] on an array with [n_cols] columns. *)
Definition update_col (n_cols vi : nat) (f : R -> R) (samples : matrix)
    : outcome matrix :=
  if (vi <? n_cols)%nat then Ok (map (alter f vi) samples)
  else Raise IndexError.

Definition apply_constraints (n_cols : nat) (samples : matrix) : outcome matrix :=
  foldl (fun acc '(vi, (lo, hi)) =>
    samples ← acc;
    samples ← match lo with
               | Some lo => update_col n_cols vi (fun x => Rmax x lo) samples
               | None => Ok samples
               end;
    match hi with
    | Some hi => update_col n_cols vi (fun x => Rmin x hi) samples
    | None => Ok samples
    end) (Ok samples) clip_dict.

(** What the loop of [apply_constraints] does to the value in column [vi]. *)
Definition clip (lo hi : option R) (x : R) : R :=
  let x := match lo with Some lo => Rmax x lo | None => x end in
  match hi with Some hi => Rmin x hi | None => x end.

Definition clip_value (vi : nat) (x : R) : R :=
  match List.find (fun e => (e.1 =? vi)%nat) clip_dict with
  | Some (_, (lo, hi)) => clip lo hi x
  | None => x
  end.

(** A value already inside the range of its column. *)
Definition within_bounds (vi : nat) (x : R) : Prop :=
  match List.find (fun e => (e.1 =? vi)%nat) clip_dict with
  | Some (_, (lo, hi)) =>
      match lo with Some lo => lo <= x | None => True end /\
      match hi with Some hi => x <= hi | None => True end
  | None => True
  end.

(** The documented physical bounds of one sample, in the order of
    [parameters]. *)
Definition physical_bounds (s : vector) : Prop :=
  0 <= nth 0 s 0 /\                       (* precipitation *)
  -80 <= nth 1 s 0 <= 60 /\               (* temperature *)
  0 <= nth 2 s 0 <= 100 /\                (* humidity *)
  0 <= nth 3 s 0 <= 100 /\                (* cloud fraction *)
  0 <= nth 4 s 0 /\                       (* wind speed *)
  0 <= nth 5 s 0 /\                       (* irradiance *)
  -80 <= nth 6 s 0 <= 60.                 (* dew point *)

(** The state vector [mu + V_k z] and its centre-day slice
    [[W*n_vars, (W+1)*n_vars)]. *)
Definition reconstruct (mu : vector) (eigvecs_k : matrix) (z : vector) : vector :=
  vadd (map (fun v_row => dot z v_row) eigvecs_k) mu.

Definition center_slice (days_window n_vars : nat) (x : vector) : vector :=
  take n_vars (drop (days_window * n_vars) x).

Section Ensemble.

(** numpy's global generator: its state, [np.random.seed] and one
    standard normal deviate. *)
Variable rng_state : Type.
Variable seed_state : Z -> rng_state.
Variable gauss : rng_state -> R * rng_state.

(** One row of [np.random.normal(loc=0.0, scale=pc_std[None, :])]. *)
Fixpoint normal_row (pc_std : vector) (st : rng_state) : vector * rng_state :=
  match pc_std with
  | [] => ([], st)
  | s :: pc_std' =>
      let '(g, st) := gauss st in
      let '(row, st) := normal_row pc_std' st in
      ((0 + s * g) :: row, st)
  end.

Fixpoint normal_rows (N_mc : nat) (pc_std : vector) (st : rng_state)
    : matrix * rng_state :=
  match N_mc with
  | O => ([], st)
  | S n =>
      let '(row, st) := normal_row pc_std st in
      let '(rows, st) := normal_rows n pc_std st in
      (row :: rows, st)
  end.

(** [np.sqrt] of a negative eigenvalue is nan, and nan passes through the
    clipping; here [sqrt] of a negative number is 0.  [weighted_pca]
    returns eigenvalues of at least [eps_reg], and the statements about the
    samples are about eigenvalues that are not negative. *)
Definition generate_ensemble (eigvals_k : vector) (eigvecs_k : matrix)
    (mu : vector) (n_vars days_window N_mc : nat) (st : rng_state)
    : outcome matrix * rng_state :=
  let n_components := length eigvals_k in
  let pc_std := map sqrt eigvals_k in
  let '(pc_samples, st) := normal_rows N_mc pc_std st in
  let X_centered_samples :=
    matmul (length eigvecs_k) pc_samples (transpose n_components eigvecs_k) in
  let X_samples := map (fun row => vadd row mu) X_centered_samples in
  (* Extract center day *)
  let center_slot := days_window in
  let start_idx := (center_slot * n_vars)%nat in
  let end_idx := (start_idx + n_vars)%nat in
  let center_samples :=
    map (fun row => take (end_idx - start_idx) (drop start_idx row)) X_samples in
  (* Apply physical constraints *)
  let n_cols := length (take (end_idx - start_idx) (drop start_idx mu)) in
  (apply_constraints n_cols center_samples, st).

End Ensemble.

(** *** [prepare_daily_data] *)

(** The rows (one per variable of [parameters]) of the year at position
    [i]: [combined_ds.sel(year=y)[self.parameters]].  The year labels come
    from a range and are distinct, so the label selects its position. *)
Definition sel_year (ds : Xr.dataset) (i : nat) (v : string)
    : outcome (list (option R)) :=
  match Xr.ds_vars ds !! v with
  | Some arr => Ok (default [] (arr !! i))
  | None => Raise (KeyError v)
  end.

(** [set(np.unique(ds_y['time.dayofyear'].values))]: read from the [time]
    coordinate, which the selection of a year leaves as it is. *)
Definition doys_in_year (ds : Xr.dataset) (y : Z) : gset Z :=
  list_to_set (map Xr.ts_dayofyear (Xr.ds_time ds)).

(** [set.intersection] unpacked over [doys_per_year]; with no argument
    it is a type error. *)
Definition set_intersection (sets : list (gset Z)) : outcome (gset Z) :=
  match sets with
  | [] => Raise TypeError
  | s :: rest => Ok (foldl (∩) s rest)
  end.

(** [np.nan_to_num(var_data, nan=var_mean)] on one cell. *)
Definition nan_to_num (var_mean cell : option R) : option R :=
  match cell with
  | Some x => Some x
  | None => var_mean
  end.

Definition prepare_daily_data (combined_ds : Xr.dataset) (days_window : nat)
    : outcome (ndarray3 (option R) * list Z * list Z) :=
  (* squeeze(drop=True) removes a dimension of length one together with
     its coordinate: [combined_ds.time] and [combined_ds['year']] fail *)
  if decide (length (Xr.ds_time combined_ds) = 1%nat) then Raise AttributeError
  else if decide (length (Xr.ds_year combined_ds) = 1%nat) then Raise (KeyError "year")
  else
    let years := Xr.ds_year combined_ds in
    let times := Xr.ds_time combined_ds in
    (* Find common days across all years *)
    let doys_per_year := map (doys_in_year combined_ds) years in
    common_doys ← set_intersection doys_per_year;
    let common_doys := merge_sort Z.le (elements common_doys) in
    (* Aggregate to daily; groupby refuses an empty coordinate *)
    if decide (times = []) then Raise ValueError
    else
      daily_per_year ← mapM (fun i =>
          rows ← mapM (sel_year combined_ds i) parameters;
          Ok (map (fun g => map (fun row => Xr.daily_mean times row g) rows)
                  common_doys))
        (seq 0 (length years));
      (* Convert to numpy array *)
      let n_years := length years in
      let n_days := length common_doys in
      let n_vars := length parameters in
      (* Impute NaNs *)
      let var_means :=
        map (fun vi => Xr.nanmean
               (mjoin (map (map (fun cells => mjoin (cells !! vi))) daily_per_year)))
            (seq 0 n_vars) in
      let X_raw := map (map (fun cells => zip_with nan_to_num var_means cells))
                       daily_per_year in
      Ok (NdArray3 (n_years, n_days, n_vars) X_raw, common_doys, years).

(** A year has an observation on day-of-year [g] when one of its hourly
    values at a time of that day is not NaN. *)
Definition observed (ds : Xr.dataset) (i : nat) (g : Z) : Prop :=
  exists v arr row t x,
    Xr.ds_vars ds !! v = Some arr /\ arr !! i = Some row /\
    (t, Some x) ∈ zip (Xr.ds_time ds) row /\ Xr.ts_dayofyear t = g.

(** *** Calendar dates ([datetime]) *)

Record date : Type := Date { year : Z; month : Z; day : Z }.

Definition is_leap (y : Z) : bool :=
  ((y mod 4 =? 0) && negb (y mod 100 =? 0) || (y mod 400 =? 0))%Z.

Definition days_in_month (y m : Z) : Z :=
  if (m =? 2)%Z then (if is_leap y then 29 else 28)%Z
  else if ((m =? 4) || (m =? 6) || (m =? 9) || (m =? 11))%Z then 30%Z
  else 31%Z.

(** [datetime(year, month, day)] raises on an impossible date. *)
Definition datetime (y m d : Z) : outcome date :=
  if ((1 <=? y) && (y <=? 9999) && (1 <=? m) && (m <=? 12)
      && (1 <=? d) && (d <=? days_in_month y m))%Z
  then Ok (Date y m d) else Raise ValueError.

(** [timetuple().tm_yday] *)
Definition tm_yday (dt : date) : Z :=
  (foldr Z.add 0 (map (fun i => days_in_month (year dt) (Z.of_nat i))
                      (seq 1 (Z.to_nat (month dt) - 1))) + day dt)%Z.

(** [toordinal()]: the number of the day, 1 for 0001-01-01. *)
Definition days_before_year (y : Z) : Z :=
  let y := (y - 1)%Z in (y * 365 + y / 4 - y / 100 + y / 400)%Z.

Definition toordinal (dt : date) : Z := (days_before_year (year dt) + tm_yday dt)%Z.

(** [datetime.max] is 9999-12-31. *)
Definition max_ordinal : Z := 3652059.

(** [base_date + timedelta(days=n)], as the number of the day reached:
    [timedelta] refuses more than 999999999 days and the sum a day outside
    [datetime.min .. datetime.max], both with [OverflowError]. *)
Definition in_calendar (dt : date) (n : Z) : Prop :=
  (Z.abs n <= 999999999)%Z /\ (1 <= toordinal dt + n <= max_ordinal)%Z.

Global Instance in_calendar_dec (dt : date) (n : Z) : Decision (in_calendar dt n).
Proof. unfold in_calendar. apply _. Defined.

Definition add_days (dt : date) (n : Z) : outcome Z :=
  if decide (in_calendar dt n) then Ok (toordinal dt + n)%Z
  else Raise OverflowError.

(** The request for year [y] can be made: the date exists and both ends
    of its window are dates. *)
Definition window_ok (y m d : Z) (days_window : nat) : Prop :=
  datetime y m d = Ok (Date y m d) /\
  in_calendar (Date y m d) (- Z.of_nat days_window) /\
  in_calendar (Date y m d) (Z.of_nat days_window).

(** *** Results *)

Inductive pyvalue : Type :=
| PNum (x : option R)      (* a float; [None] is nan *)
| PStr (s : string).

Record metadata : Type := Metadata {
  location : R * R;
  target_date : date;
  n_ensemble : nat;
  n_components : nat
}.

Record results : Type := Results {
  meta : metadata;
  predictions : gmap string (gmap string pyvalue)
}.

Definition var_mapping : gmap string string :=
  {[ "PRECTOTCORR" := "precipitation"; "T2M" := "temperature";
     "RH2M" := "humidity"; "CLOUD_AMT" := "cloud_cover";
     "WS10M" := "wind_speed"; "ALLSKY_SFC_SW_DWN" := "solar_radiation";
     "T2MDEW" := "dew_point" ]}%string.

Definition get_unit (var_name : string) : string :=
  let units : gmap string string :=
    {[ "PRECTOTCORR" := "mm"; "T2M" := "°C"; "RH2M" := "%";
       "CLOUD_AMT" := "%"; "WS10M" := "m/s"; "ALLSKY_SFC_SW_DWN" := "W/m²";
       "T2MDEW" := "°C" ]}%string in
  Py.get units var_name ""%string.

(** [np.mean(center_samples[:, precip_idx] > 0.1)] *)
Definition exceeds (threshold : R) (x : R) : bool := bool_decide (threshold < x).

Definition count_true (bs : list bool) : nat := length (filter (fun b => b = true) bs).

Definition mean_bool (bs : list bool) : option R :=
  mean (map (fun b : bool => if b then 1 else 0) bs).

Definition rain_probability (center_samples : matrix) : option R :=
  match list_find (fun p => p = "PRECTOTCORR"%string) parameters with
  | Some (precip_idx, _) =>
      mean_bool (map (exceeds 0.1) (col precip_idx center_samples))
  | None => None
  end.

(** The statistics block of [predict]. *)
Definition summarize (lat lon : R) (target : date) (N_mc n_components : nat)
    (center_samples : matrix) : results :=
  let preds :=
    foldl (fun preds '(vi, var_name) =>
             let readable_name := Py.get var_mapping var_name var_name in
             let column := col vi center_samples in
             <[readable_name :=
                 {[ "mean" := PNum (mean column);
                    "median" := PNum (Stats.median column);
                    "std" := PNum (Stats.std column);
                    "p5" := PNum (Stats.percentile column 5);
                    "p95" := PNum (Stats.percentile column 95);
                    "unit" := PStr (get_unit var_name) ]}%string]> preds)
          ∅ (zip (seq 0 (length parameters)) parameters) in
  (* Add precipitation probability *)
  let p_rain := rain_probability center_samples in
  let preds :=
    alter (fun d => <["probability"%string := PNum p_rain]> d) "precipitation"%string preds in
  Results (Metadata (lat, lon) target N_mc n_components) preds.

(** *** [fetch_multi_year_data] and [predict] *)

Section Predict.

Variable eigh : matrix -> vector * matrix.
Variable rng_state : Type.
Variable seed_state : Z -> rng_state.
Variable gauss : rng_state -> R * rng_state.

(** [fetch_power_point]: the response of the POWER service for the window
    of [days_window] days around a base date, or [None] when the request
    fails (every exception is caught there).  The two ends of the window
    are computed by the caller and determined by these two arguments. *)
Variable fetch_power_point : R -> R -> date -> nat -> option Xr.hourly.

Definition year_range (end_year years_back : Z) : list Z :=
  map (fun i => (end_year - years_back + 1 + Z.of_nat i)%Z)
      (seq 0 (Z.to_nat years_back)).

Definition fetch_multi_year_data (lat lon : R) (month day end_year years_back : Z)
    (days_window : nat) : outcome (option Xr.dataset) :=
  tasks ← mapM (fun year =>
                  base_date ← datetime year month day;
                  start_dt ← add_days base_date (- Z.of_nat days_window);
                  end_dt ← add_days base_date (Z.of_nat days_window);
                  Ok (year, fetch_power_point lat lon base_date days_window))
               (year_range end_year years_back);
  let all_years_ds :=
    omap (fun '(year, ds) => (fun h => (year, h)) <$> ds) tasks in
  match all_years_ds with
  | [] => Ok None
  | _ => combined ← Xr.concat parameters all_years_ds; Ok (Some combined)
  end.

(** [common_doys[days_window : -days_window]] *)
Definition valid_slice (days_window : nat) (common_doys : list Z) : list Z :=
  match days_window with
  | O => []
  | _ => take (length common_doys - days_window - days_window)
              (drop days_window common_doys)
  end.

(** The sample matrix as the eigen-solver needs it: free of NaN. *)
Definition all_finite (X : list (list (option R))) : option matrix :=
  mapM (mapM (fun x : option R => x)) X.

(** [predict] up to the ensemble: the samples and the component count. *)
Definition predict_ensemble (lat lon : R) (target : date)
    (years_back : Z) (days_window N_mc : nat) (random_seed : Z)
    (include_current_year : bool) (global : rng_state)
    : outcome (matrix * nat) * rng_state :=
  (* np.random.seed(random_seed) *)
  if decide (0 <= random_seed < 2 ^ 32)%Z then
    let st := seed_state random_seed in
    let target_month := month target in
    let target_day := day target in
    let target_year := year target in
    let target_doy := tm_yday target in
    let end_year := if include_current_year then target_year
                    else (target_year - 1)%Z in
    let staged :=
      (* Fetch data *)
      combined_ds ← fetch_multi_year_data lat lon target_month target_day
                      end_year years_back days_window;
      combined_ds ← match combined_ds with
                     | None => Raise (RuntimeError "Failed to fetch data")
                     | Some ds => Ok ds
                     end;
      (* Prepare daily data *)
      '(X_raw, common_doys, years) ← prepare_daily_data combined_ds days_window;
      (* Build state vectors *)
      X_state ← build_state_vectors (Some 0) X_raw days_window;
      let valid_doys := valid_slice days_window common_doys in
      (* Compute weights *)
      let '(_, _, W_combined) :=
        compute_weights years target_year valid_doys target_doy
                        alpha_year_default alpha_day_default in
      (* Weighted PCA *)
      let X_all := mjoin (data X_state) in
      let w_all := ravel W_combined in
      match all_finite X_all with
      | Some X_all => weighted_pca eigh X_all w_all var_threshold_default
      | None =>
          (* [np.average] still checks the weights; the solver then meets
             a NaN and reports that it did not converge *)
          _ ← average_axis0 (map (fun _ => []) X_all) 0 (pca_w w_all);
          Raise LinAlgError
      end in
    match staged with
    | Ok (eigvals_k, eigvecs_k, mu, n_components) =>
        (* Generate ensemble *)
        let '(center_samples, st) :=
          generate_ensemble rng_state gauss eigvals_k eigvecs_k mu
                            (length parameters) days_window N_mc st in
        (center_samples ≫= fun samples => Ok (samples, n_components), st)
    | Raise e => (Raise e, st)
    end
  else (Raise ValueError, global).

Definition predict (lat lon : R) (target : date)
    (years_back : Z) (days_window N_mc : nat) (random_seed : Z)
    (include_current_year : bool) (global : rng_state)
    : outcome results * rng_state :=
  let '(ensemble, st) :=
    predict_ensemble lat lon target years_back days_window N_mc random_seed
                     include_current_year global in
  (ensemble ≫= fun '(center_samples, n_components) =>
     (* Compute statistics: np.percentile refuses a column without samples *)
     match center_samples with
     | [] => Raise IndexError
     | _ => Ok (summarize lat lon target N_mc n_components center_samples)
     end, st).

End Predict.

End WeatherPredictor.

(** ** Sample data *)

Module Examples.

Import Np Xr WeatherPredictor.
Local Open Scope R_scope.

(** Two yearly responses with one reading per day: 2023 covers days 1 and
    2 of the year, 2024 only day 1. *)
Definition reading (y doy : Z) : timestamp := Timestamp y doy 0.

Definition all_vars {V : Type} (x : V) : gmap string V :=
  list_to_map (map (fun v => (v, x)) parameters).

Definition response_2023 : hourly :=
  Hourly [reading 2023 1; reading 2023 2] (all_vars [Some 1; Some 2]).

Definition response_2024 : hourly :=
  Hourly [reading 2024 1] (all_vars [Some 3]).

(** Their concatenation along [year]. *)
Definition combined_2023_2024 : dataset :=
  Dataset [2023; 2024]%Z
          [reading 2023 1; reading 2023 2; reading 2024 1]
          (all_vars [[Some 1; Some 2; None]; [None; None; Some 3]]).

(** A [2, 4, 2] tensor of daily aggregates, two variables a day. *)
Definition tensor_2_4_2 : ndarray3 Z :=
  NdArray3 (2, 4, 2)%nat
    [ [[1; 2]; [3; 4]; [5; 6]; [7; 8]];
      [[11; 12]; [13; 14]; [15; 16]; [17; 18]] ]%Z.

(** A generator that counts: the n-th deviate is [n]. *)
Definition counting_gauss (n : nat) : R * nat := (INR n, S n).

(** A data service that holds the 10th to the 12th day of every year from
    2023 on, one reading a day, and nothing before. *)
Definition response_of_year (y : Z) : hourly :=
  Hourly [reading y 10; reading y 11; reading y 12]
         (all_vars [Some 1; Some 2; Some 3]).

Definition power_service (lat lon : R) (base_date : date) (days_window : nat)
    : option hourly :=
  if (2023 <=? year base_date)%Z then Some (response_of_year (year base_date))
  else None.

(** A stand-in for the eigen-solver, right on diagonal matrices: the
    diagonal and the unit vectors. *)
Definition eigh_diagonal (S : matrix) : vector * matrix :=
  (map (fun i => nth i (nth i S []) 0) (seq 0 (length S)),
   map (fun i => map (fun j => if (i =? j)%nat then 1 else 0)
                     (seq 0 (length S)))
       (seq 0 (length S))).

(** Seeding the counting generator. *)
Definition seed_counter (seed : Z) : nat := Z.to_nat seed.

(** An eigen-solver for diagonal 2 x 2 matrices: the two diagonal entries
    in ascending order, each with its unit vector as a column. *)
Definition eigh_diag2 (S : matrix) : vector * matrix :=
  let a := nth 0 (nth 0 S []) 0 in
  let b := nth 1 (nth 1 S []) 0 in
  if decide (a <= b) then ([a; b], [[1; 0]; [0; 1]])
  else ([b; a], [[0; 1]; [1; 0]]).

(** Four samples of two features, the first spread widely and the second
    narrowly; and a constant history of two features. *)
Definition spread_samples : matrix := [[10; 0]; [-10; 0]; [0; 1]; [0; -1]].


(** A mean state vector over a window of three days, whose centre day
    lies at or beyond several bounds, and a basis of one component that
    loads every entry alike. *)
Definition window_mean : vector :=
  [1; 2; 3; 4; 5; 6; 7] ++ [-1; 59; 99; 50; -1; 5; 0]
    ++ [8; 9; 10; 11; 12; 13; 14].

Definition unit_loadings : matrix := replicate 21 [1].

(** A data service that answers for the year 2024 only. *)
Definition single_year_service (lat lon : R) (base_date : date)
    (days_window : nat) : option hourly :=
  if (year base_date =? 2024)%Z then Some (response_of_year 2024) else None.

(** A data service that holds the 10th and the 11th day of every year. *)
Definition two_day_response (y : Z) : hourly :=
  Hourly [reading y 10; reading y 11] (all_vars [Some 1; Some 2]).

Definition two_day_service (lat lon : R) (base_date : date)
    (days_window : nat) : option hourly :=
  Some (two_day_response (year base_date)).

End Examples.

(** * Theorems *)

(** Distances of concrete years and days, evaluated. *)
Ltac near_target :=
  repeat (constructor;
          [cbn beta;
           match goal with
           | |- (_ * IZR ?z <= _)%R =>
               let v := eval vm_compute in z in change z with v
           end; lra|]);
  constructor.

(** Equal lists of reals, entry by entry. *)
Ltac vec_eq :=
  repeat match goal with
         | |- _ :: _ = _ :: _ => apply (f_equal2 cons)
         | |- [] = [] => reflexivity
         end.

(** ** The classifier *)

Section ClassifierFacts.
Import PrimFloat Classifier.
Local Open Scope string_scope.
Local Set Warnings "-inexact-float".

Ltac read_means H :=
  destruct H as ((?d & ?Hd & ?Hm) & (?d & ?Hd & ?Hm & ?Hp) &
                 (?d & ?Hd & ?Hm) & (?d & ?Hd & ?Hm) & (?d & ?Hd & ?Hm)).

Ltac run_lookups :=
  unfold classify_weather, getitem, get;
  repeat (match goal with
          | H : _ !! _ = _ |- _ => rewrite !H
          end;
          cbn [mbind outcome_bind as_num]).

Lemma classify_weather_only_reads_means (p p' : predictions)
    (temp precip clouds wind humidity : float) (prob : option float) :
  has_means p temp precip clouds wind humidity prob ->
  has_means p' temp precip clouds wind humidity prob ->
  classify_weather p' = classify_weather p.
Proof.
  intros H H'. read_means H. read_means H'.
  run_lookups. reflexivity.
Qed.

Lemma classify_weather_vocabulary_aux (p : predictions)
    (temp precip clouds wind humidity : float) (prob : option float) :
  has_means p temp precip clouds wind humidity prob ->
  exists base desc,
    classify_weather p =
      Ok (if gt wind 15 then "windy_" +:+ base else base, desc) /\
    base ∈ base_classes.
Proof.
  intros H. read_means H. run_lookups. unfold and_then.
  destruct (gt wind 15), prob as [pr|];
    cbn [fmap option_fmap option_map mbind outcome_bind as_num];
    repeat (match goal with
            | |- context [mbind _ (if ?b then _ else _)] => destruct b
            end;
            cbn [mbind outcome_bind as_num]);
    (eexists _, _; split; [reflexivity|]);
    apply list_elem_of_In; simpl; tauto.
Qed.

(** C10: a predictions dict that holds the five means (probability optional,
    read as 0 when absent) is always classified: the call returns, the
    classification is a word of the closed vocabulary, prefixed with
    [windy_] exactly when the wind mean exceeds 15 (so it is never empty),
    and the result depends on nothing but those values. *)
Theorem classify_weather_closed_vocabulary (p : predictions)
    (temp precip clouds wind humidity : float) (prob : option float) :
  has_means p temp precip clouds wind humidity prob ->
  exists base desc,
    classify_weather p =
      Ok (if gt wind 15 then "windy_" +:+ base else base, desc) /\
    base ∈ base_classes /\
    (if gt wind 15 then "windy_" +:+ base else base) <> "" /\
    String.prefix "windy_" (if gt wind 15 then "windy_" +:+ base else base)
      = gt wind 15 /\
    forall p', has_means p' temp precip clouds wind humidity prob ->
               classify_weather p' = classify_weather p.
Proof.
  intros H.
  destruct (classify_weather_vocabulary_aux p _ _ _ _ _ _ H)
    as (base & desc & Hrun & Hbase).
  exists base, desc. split; [exact Hrun|]. split; [exact Hbase|].
  split; [|split].
  - apply list_elem_of_In in Hbase. simpl in Hbase.
    destruct (gt wind 15); [discriminate|].
    intuition (subst; discriminate).
  - apply list_elem_of_In in Hbase. simpl in Hbase.
    destruct (gt wind 15); [destruct base; reflexivity|].
    intuition (subst; reflexivity).
  - intros p' H'. exact (classify_weather_only_reads_means p p' _ _ _ _ _ _ H H').
Qed.

Lemma classify_weather_closed_vocabulary_witness :
  exists base desc,
    classify_weather sample_predictions =
      Ok (if gt 8.5 15 then "windy_" +:+ base else base, desc) /\
    base ∈ base_classes /\
    (if gt 8.5 15 then "windy_" +:+ base else base) <> "" /\
    String.prefix "windy_" (if gt 8.5 15 then "windy_" +:+ base else base)
      = gt 8.5 15 /\
    forall p', has_means p' 25.5 2.5 60 8.5 70 (Some 0.6%float) ->
               classify_weather p' = classify_weather sample_predictions.
Proof.
  apply (classify_weather_closed_vocabulary
           sample_predictions 25.5 2.5 60 8.5 70 (Some 0.6%float)).
  unfold has_means, sample_predictions.
  repeat split; eexists; repeat split; vm_compute; reflexivity.
Defined.

Example classify_weather_sample :
  classify_weather sample_predictions = Ok ("light_rain", "Light rain possible").
Proof. vm_compute. reflexivity. Qed.

End ClassifierFacts.

(** ** Sums over lists *)

Section NpFacts.
Import Np.
Local Open Scope R_scope.

Lemma sum_cons (x : R) (v : vector) : sum (x :: v) = x + sum v.
Proof. reflexivity. Qed.

Lemma sum_app (u v : vector) : sum (u ++ v) = sum u + sum v.
Proof.
  induction u as [|x u IH]; cbn [app]; rewrite ?sum_cons; [unfold sum; simpl; lra|].
  rewrite IH. lra.
Qed.

Lemma sum_scale (c : R) (v : vector) : sum (map (Rmult c) v) = c * sum v.
Proof.
  induction v as [|x v IH]; cbn [map]; rewrite ?sum_cons; [unfold sum; simpl; lra|].
  rewrite IH. lra.
Qed.

Lemma sum_div_scalar (v : vector) (c : R) : sum (div_scalar v c) = sum v / c.
Proof.
  unfold div_scalar.
  induction v as [|x v IH]; cbn [map]; rewrite ?sum_cons; [unfold sum; simpl; lra|].
  rewrite IH. lra.
Qed.

Lemma sum_nonneg (v : vector) : Forall (fun x => 0 <= x) v -> 0 <= sum v.
Proof.
  induction 1 as [|x v Hx _ IH]; [unfold sum; simpl; lra|].
  rewrite sum_cons. lra.
Qed.

Lemma sum_pos (v : vector) : v <> [] -> Forall (fun x => 0 < x) v -> 0 < sum v.
Proof.
  intros Hne Hall. destruct Hall as [|x v Hx Hall]; [done|].
  rewrite sum_cons.
  assert (0 <= sum v).
  { apply sum_nonneg. eapply Forall_impl; [exact Hall|]. intros; simpl in *; lra. }
  lra.
Qed.

Lemma sum_ravel_outer (u v : vector) : sum (ravel (outer u v)) = sum u * sum v.
Proof.
  unfold ravel, outer.
  induction u as [|x u IH]; cbn [map concat]; [unfold sum; simpl; lra|].
  rewrite sum_app, sum_scale, IH, sum_cons. lra.
Qed.

End NpFacts.

(** ** [compute_weights] *)

Section WeightFacts.
Import Np WeatherPredictor.
Local Open Scope R_scope.

Lemma decay_weights_length (alpha : R) (xs : list Z) (target : Z) :
  length (decay_weights alpha xs target) = length xs.
Proof. unfold decay_weights, div_scalar. by rewrite !length_map. Qed.

Lemma decay_weights_positive (alpha : R) (xs : list Z) (target : Z) :
  xs <> [] ->
  Forall (fun w => 0 < w) (decay_weights alpha xs target) /\
  sum (decay_weights alpha xs target) = 1.
Proof.
  intros Hne. unfold decay_weights.
  set (W := map _ (map _ xs)).
  assert (HW : Forall (fun w => 0 < w) W).
  { subst W. rewrite !Forall_map. apply Forall_true. intros x. apply exp_pos. }
  assert (HWne : W <> []).
  { subst W. destruct xs; [done|discriminate]. }
  pose proof (sum_pos W HWne HW) as Hs.
  split.
  - unfold div_scalar. rewrite Forall_map.
    eapply Forall_impl; [exact HW|]. intros w Hw. simpl.
    apply Rdiv_lt_0_compat; assumption.
  - rewrite sum_div_scalar. field. lra.
Qed.

Lemma outer_nonneg (u v : vector) :
  Forall (fun x => 0 < x) u -> Forall (fun x => 0 < x) v ->
  Forall (Forall (fun x => 0 <= x)) (outer u v).
Proof.
  intros Hu Hv. unfold outer. rewrite Forall_map.
  eapply Forall_impl; [exact Hu|]. intros x Hx. simpl.
  rewrite Forall_map. eapply Forall_impl; [exact Hv|].
  intros y Hy. simpl. apply Rlt_le, Rmult_lt_0_compat; assumption.
Qed.

Lemma exp_le (x y : R) : x <= y -> exp x <= exp y.
Proof.
  intros [Hlt| ->]; [|lra]. apply Rlt_le, exp_increasing, Hlt.
Qed.

Lemma sum_le_length (v : vector) :
  Forall (fun x => x <= 1) v -> sum v <= INR (length v).
Proof.
  induction 1 as [|x v Hx _ IH]; [unfold sum; simpl; lra|].
  rewrite sum_cons. cbn [length]. rewrite S_INR. lra.
Qed.

(** Decay weights stay away from 0 as long as no exponent goes below
    -700 (so that, in binary64 too, no [exp] underflows). *)
Lemma decay_weights_floor (alpha : R) (xs : list Z) (target : Z) :
  0 <= alpha ->
  Forall (fun x => alpha * IZR (Z.abs (x - target)) <= 700) xs ->
  Forall (fun w => exp (- 700) / INR (length xs) <= w)
         (decay_weights alpha xs target).
Proof.
  intros Halpha Hxs. unfold decay_weights.
  set (W := map _ (map _ xs)).
  destruct xs as [|x0 xs']; [constructor|].
  set (xs := x0 :: xs') in *.
  assert (Hlen : length W = length xs) by (subst W; by rewrite !length_map).
  assert (Hpos : Forall (fun w => 0 < w) W).
  { subst W. rewrite !Forall_map. apply Forall_true. intros x. apply exp_pos. }
  assert (Hle : Forall (fun w => w <= 1) W).
  { subst W. rewrite !Forall_map. apply Forall_true. intros x. cbn beta.
    rewrite <- exp_0. apply exp_le.
    pose proof (IZR_le 0 (Z.abs (x - target)) (Z.abs_nonneg _)). nra. }
  assert (Hge : Forall (fun w => exp (- 700) <= w) W).
  { subst W. rewrite !Forall_map. eapply Forall_impl; [exact Hxs|].
    intros x Hx. cbn beta in Hx |- *. apply exp_le. lra. }
  assert (Hsum : 0 < sum W) by (apply sum_pos; [by subst W|exact Hpos]).
  pose proof (sum_le_length W Hle) as Hbound. rewrite Hlen in Hbound.
  assert (Hn : 0 < INR (length xs)) by lra.
  unfold div_scalar. rewrite Forall_map.
  eapply Forall_impl; [exact Hge|]. intros w Hw. cbn beta in Hw |- *.
  pose proof (exp_pos (- 700)) as He.
  apply Rmult_le_reg_r with (INR (length xs)); [exact Hn|].
  unfold Rdiv at 1. rewrite Rmult_assoc, Rinv_l by lra.
  apply Rmult_le_reg_r with (sum W); [exact Hsum|].
  replace (w / sum W * INR (length xs) * sum W) with (w * INR (length xs))
    by (field; lra).
  nra.
Qed.

(** C6: for non-empty years and day-of-year offsets, non-negative decay
    rates and distances for which no exponent goes below -700 (so that no
    [exp] underflows), the year weights and the day weights are positive,
    each at least [exp(-700) / n], and each sums to 1; the combined weights
    are their outer product, non-negative, and sum to 1. *)
Theorem compute_weights_normalised (years : list Z) (target_year : Z)
    (doys : list Z) (target_doy : Z) (alpha_year alpha_day : R) :
  years <> [] -> doys <> [] ->
  0 <= alpha_year -> 0 <= alpha_day ->
  Forall (fun y => alpha_year * IZR (Z.abs (y - target_year)) <= 700) years ->
  Forall (fun d => alpha_day * IZR (Z.abs (d - target_doy)) <= 700) doys ->
  exists W_year W_day W_combined,
    compute_weights years target_year doys target_doy alpha_year alpha_day
      = (W_year, W_day, W_combined) /\
    length W_year = length years /\ length W_day = length doys /\
    Forall (fun w => 0 < w) W_year /\ sum W_year = 1 /\
    Forall (fun w => 0 < w) W_day /\ sum W_day = 1 /\
    Forall (fun w => exp (- 700) / INR (length years) <= w) W_year /\
    Forall (fun w => exp (- 700) / INR (length doys) <= w) W_day /\
    W_combined = outer W_year W_day /\
    Forall (Forall (fun w => 0 <= w)) W_combined /\
    sum (ravel W_combined) = 1.
Proof.
  intros Hy Hd Hay Had Hyears Hdoys. unfold compute_weights.
  destruct (decay_weights_positive alpha_year years target_year Hy) as [Hyp Hys].
  destruct (decay_weights_positive alpha_day doys target_doy Hd) as [Hdp Hds].
  pose proof (decay_weights_floor alpha_year years target_year Hay Hyears).
  pose proof (decay_weights_floor alpha_day doys target_doy Had Hdoys).
  eexists _, _, _. split; [reflexivity|].
  rewrite !decay_weights_length, sum_ravel_outer, Hys, Hds.
  repeat split; try assumption; try reflexivity.
  - by apply outer_nonneg.
  - lra.
Qed.

Lemma sample_years_near :
  Forall (fun y => alpha_year_default * IZR (Z.abs (y - 2025)) <= 700)
         [2022; 2023; 2024]%Z.
Proof. unfold alpha_year_default. near_target. Qed.

Lemma sample_days_near :
  Forall (fun d => alpha_day_default * IZR (Z.abs (d - 278)) <= 700)
         [277; 278; 279]%Z.
Proof. unfold alpha_day_default. near_target. Qed.

Lemma default_rates_nonneg : 0 <= alpha_year_default /\ 0 <= alpha_day_default.
Proof. unfold alpha_year_default, alpha_day_default. lra. Qed.

Lemma compute_weights_normalised_witness :
  exists W_year W_day W_combined,
    compute_weights [2022; 2023; 2024]%Z 2025 [277; 278; 279]%Z 278
      alpha_year_default alpha_day_default
      = (W_year, W_day, W_combined) /\
    length W_year = 3%nat /\ length W_day = 3%nat /\
    Forall (fun w => 0 < w) W_year /\ sum W_year = 1 /\
    Forall (fun w => 0 < w) W_day /\ sum W_day = 1 /\
    Forall (fun w => exp (- 700) / INR 3 <= w) W_year /\
    Forall (fun w => exp (- 700) / INR 3 <= w) W_day /\
    W_combined = outer W_year W_day /\
    Forall (Forall (fun w => 0 <= w)) W_combined /\
    sum (ravel W_combined) = 1.
Proof.
  apply (compute_weights_normalised [2022; 2023; 2024]%Z 2025
           [277; 278; 279]%Z 278 alpha_year_default alpha_day_default);
    [discriminate|discriminate|exact (proj1 default_rates_nonneg)
    |exact (proj2 default_rates_nonneg)|exact sample_years_near
    |exact sample_days_near].
Defined.

End WeightFacts.

(** ** [build_state_vectors] *)

Section StateVectorFacts.
Import Np WeatherPredictor.
Context {A : Type}.
Implicit Types (X : list (list (list A))) (plane : list (list A)).

Lemma length_concat_uniform (m : nat) (l : list (list A)) :
  Forall (fun row => length row = m) l -> length (concat l) = length l * m.
Proof.
  induction 1 as [|row l Hrow _ IH]; [done|].
  cbn [concat length]. rewrite length_app, Hrow, IH. lia.
Qed.

Lemma fill_year_S X_raw W y n X :
  fill_year X_raw W y (S n) X
  = set_row y n (window_slice X_raw y n (n + (2 * W + 1)))
      (fill_year X_raw W y n X).
Proof.
  unfold fill_year. rewrite seq_S, foldl_snoc. cbv zeta.
  replace (W + n - W) with n by lia.
  replace (W + n + W + 1) with (n + (2 * W + 1)) by lia.
  reflexivity.
Qed.

Lemma fill_year_spec X_raw W y plane n X rows :
  X_raw !! y = Some plane -> X !! y = Some rows -> n <= length rows ->
  length (fill_year X_raw W y n X) = length X /\
  (forall y', y' <> y -> fill_year X_raw W y n X !! y' = X !! y') /\
  exists rows',
    fill_year X_raw W y n X !! y = Some rows' /\ length rows' = length rows /\
    (forall j, j < n -> rows' !! j = Some (window_at W plane j)) /\
    (forall j, n <= j -> rows' !! j = rows !! j).
Proof.
  intros Hplane Hrows.
  induction n as [|n IH]; intros Hn.
  - cbn. split; [done|]. split; [done|].
    exists rows. repeat split; auto. intros; lia.
  - rewrite fill_year_S.
    destruct (IH ltac:(lia)) as (Hlen & Hother & rows' & Hy & Hlen' & Hdone & Hrest).
    unfold set_row. split; [|split].
    + by rewrite length_alter.
    + intros y' Hy'. rewrite list_lookup_alter_ne by done. by apply Hother.
    + exists (<[n := window_slice X_raw y n (n + (2 * W + 1))]> rows').
      rewrite list_lookup_alter_eq, Hy. split; [done|].
      split; [by rewrite length_insert|]. split.
      * intros j Hj. destruct (decide (j = n)) as [->|Hne].
        -- rewrite list_lookup_insert_eq by lia.
           unfold window_slice, window_at. rewrite Hplane.
           do 3 f_equal. lia.
        -- rewrite list_lookup_insert_ne by done. apply Hdone. lia.
      * intros j Hj. rewrite list_lookup_insert_ne by lia. apply Hrest. lia.
Qed.

Lemma fill_year_full X_raw W y plane X rows :
  X_raw !! y = Some plane -> X !! y = Some rows ->
  length (fill_year X_raw W y (length rows) X) = length X /\
  (forall y', y' <> y -> fill_year X_raw W y (length rows) X !! y' = X !! y') /\
  fill_year X_raw W y (length rows) X !! y
    = Some (map (window_at W plane) (seq 0 (length rows))).
Proof.
  intros Hplane Hrows.
  destruct (fill_year_spec X_raw W y plane (length rows) X rows
              Hplane Hrows ltac:(lia))
    as (Hlen & Hother & rows' & Hy & Hlen' & Hdone & _).
  split; [done|]. split; [done|]. rewrite Hy. f_equal.
  apply list_eq. intros j. rewrite list_lookup_fmap.
  destruct (decide (j < length rows)) as [Hj|Hj].
  - rewrite Hdone by done. by rewrite lookup_seq_lt.
  - rewrite lookup_seq_ge by lia. apply lookup_ge_None. lia.
Qed.

Lemma fill_all_spec X_raw W n_valid (zero_row : list A) m :
  m <= length X_raw ->
  let X0 := replicate (length X_raw) (replicate n_valid zero_row) in
  let X' := foldl (fun X_state y_idx => fill_year X_raw W y_idx n_valid X_state)
                  X0 (seq 0 m) in
  length X' = length X_raw /\
  (forall y plane, y < m -> X_raw !! y = Some plane ->
     X' !! y = Some (map (window_at W plane) (seq 0 n_valid))) /\
  (forall y, m <= y -> X' !! y = X0 !! y).
Proof.
  intros Hm X0. induction m as [|m IH]; intros X'.
  - subst X' X0. simpl. rewrite length_replicate.
    repeat split; auto; intros; lia.
  - subst X'. rewrite seq_S, foldl_snoc. cbn [plus].
    destruct (IH ltac:(lia)) as (Hlen & Hdone & Hrest).
    set (X1 := foldl _ X0 (seq 0 m)) in *.
    destruct (lookup_lt_is_Some_2 X_raw m) as [plane Hplane]; [lia|].
    assert (Hrow : X1 !! m = Some (replicate n_valid zero_row)).
    { rewrite Hrest by lia. subst X0. apply lookup_replicate_2. lia. }
    destruct (fill_year_full X_raw W m plane X1 _ Hplane Hrow)
      as (Hlen1 & Hother1 & Hm1).
    rewrite length_replicate in Hlen1, Hother1, Hm1.
    split; [congruence|]. split.
    + intros y plane' Hy Hplane'. destruct (decide (y = m)) as [->|Hne].
      * congruence.
      * rewrite Hother1 by done. apply Hdone; [lia|done].
    + intros y Hy. rewrite Hother1 by lia. apply Hrest. lia.
Qed.

(** C4: on a well-shaped [n_years, n_days, n_vars] tensor with
    [n_days >= 2W+1], [build_state_vectors] returns a well-shaped
    [n_years, n_days - 2W, (2W+1)*n_vars] tensor; row [j] of year [y] is the
    concatenation of the daily aggregates [X_raw[y, j .. j+2W]], days in
    order and variables in order within a day.  Only the [n_days - 2W]
    centres [W .. n_days-W-1] get a row. *)
Theorem build_state_vectors_windows (zero : A) (X_raw : ndarray3 A)
    (n_years n_days n_vars days_window : nat) :
  well_shaped X_raw ->
  shape X_raw = (n_years, n_days, n_vars) ->
  2 * days_window + 1 <= n_days ->
  exists X_state,
    build_state_vectors zero X_raw days_window = Ok X_state /\
    shape X_state
      = (n_years, n_days - 2 * days_window, (2 * days_window + 1) * n_vars) /\
    well_shaped X_state /\
    data X_state
      = map (fun plane => map (window_at days_window plane)
                              (seq 0 (n_days - 2 * days_window)))
            (data X_raw) /\
    forall y j plane, data X_raw !! y = Some plane ->
      j < n_days - 2 * days_window ->
      data X_state !! y ≫= (.!! j)
        = Some (concat (take (2 * days_window + 1) (drop j plane))).
Proof.
  intros Hwf Hshape Hdays. unfold build_state_vectors.
  unfold well_shaped in Hwf. rewrite Hshape in Hwf |- *.
  destruct Hwf as [Hlen Hplanes].
  destruct (Nat.ltb_spec n_days (2 * days_window)) as [?|_]; [lia|].
  eexists. split; [reflexivity|]. cbn [shape data].
  replace (n_days - days_window - days_window) with (n_days - 2 * days_window) by lia.
  pose proof (fill_all_spec (data X_raw) days_window (n_days - 2 * days_window)
                (replicate ((2 * days_window + 1) * n_vars) zero) n_years
                ltac:(lia)) as Hfill.
  cbv zeta in Hfill. rewrite Hlen in Hfill.
  set (X' := foldl _ _ (seq 0 n_years)) in *.
  destruct Hfill as (Hlen' & Hdone & _).
  assert (Hdata : X' = map (fun plane => map (window_at days_window plane)
                              (seq 0 (n_days - 2 * days_window))) (data X_raw)).
  { apply list_eq. intros y. rewrite list_lookup_fmap.
    destruct (data X_raw !! y) as [plane|] eqn:Hplane; simpl.
    - apply Hdone; [|done]. apply lookup_lt_Some in Hplane. lia.
    - apply lookup_ge_None. apply lookup_ge_None in Hplane. lia. }
  split; [reflexivity|]. split; [|split; [exact Hdata|]].
  - unfold well_shaped. cbn [shape data]. split; [lia|].
    rewrite Hdata, Forall_map.
    eapply Forall_impl; [exact Hplanes|]. intros plane [Hpl Hrows]. simpl.
    rewrite length_map, length_seq. split; [done|].
    rewrite Forall_map. apply Forall_seq. intros j Hj. simpl.
    unfold window_at.
    rewrite (length_concat_uniform n_vars)
      by apply Forall_take, Forall_drop, Hrows.
    rewrite length_take, length_drop. f_equal. lia.
  - intros y j plane Hplane Hj. rewrite Hdata, list_lookup_fmap, Hplane. simpl.
    rewrite list_lookup_fmap, lookup_seq_lt by done. reflexivity.
Qed.

End StateVectorFacts.

(** ** Sorting, cumulative sums and bisection *)

Section SearchFacts.
Import Np.
Local Open Scope R_scope.

Lemma nondecreasing_nth (a : vector) (i j : nat) :
  nondecreasing a -> (i <= j)%nat -> (j < length a)%nat ->
  nth i a 0 <= nth j a 0.
Proof.
  intros Ha. revert i j. induction Ha as [|x a _ IH Hx]; intros i j Hij Hj.
  - simpl in Hj. lia.
  - destruct i as [|i], j as [|j]; simpl in *; try lia; try lra.
    + rewrite Forall_forall in Hx. apply Hx.
      apply list_elem_of_In, nth_In. lia.
    + apply IH; lia.
Qed.

Lemma nonincreasing_nth (a : vector) (i j : nat) :
  nonincreasing a -> (i <= j)%nat -> (j < length a)%nat ->
  nth j a 0 <= nth i a 0.
Proof.
  intros Ha. revert i j. induction Ha as [|x a _ IH Hx]; intros i j Hij Hj.
  - simpl in Hj. lia.
  - destruct i as [|i], j as [|j]; simpl in *; try lia; try lra.
    + rewrite Forall_forall in Hx. apply Hx.
      apply list_elem_of_In, nth_In. lia.
    + apply IH; lia.
Qed.

Lemma bisect_left_spec (a : vector) (v : R) :
  nondecreasing a ->
  forall fuel lo hi,
    (lo <= hi <= length a)%nat -> (hi - lo < fuel)%nat ->
    (forall i, (i < lo)%nat -> nth i a 0 < v) ->
    (forall i, (hi <= i < length a)%nat -> v <= nth i a 0) ->
    (lo <= bisect_left fuel a v lo hi <= hi)%nat /\
    (forall i, (i < bisect_left fuel a v lo hi)%nat -> nth i a 0 < v) /\
    (forall i, (bisect_left fuel a v lo hi <= i < length a)%nat -> v <= nth i a 0).
Proof.
  intros Ha. induction fuel as [|fuel IH]; intros lo hi Hb Hfuel Hlo Hhi; [lia|].
  cbn [bisect_left].
  destruct (Nat.ltb_spec lo hi) as [Hlt|Hge].
  - set (mid := (lo + (hi - lo) / 2)%nat).
    assert (Hmid : (lo <= mid < hi)%nat).
    { subst mid. pose proof (Nat.div_lt (hi - lo) 2). lia. }
    destruct (decide (nth mid a 0 < v)) as [Hm|Hm].
    + assert (Hlo' : forall i, (i < S mid)%nat -> nth i a 0 < v).
      { intros i Hi.
        pose proof (nondecreasing_nth a i mid Ha ltac:(lia) ltac:(lia)). lra. }
      destruct (IH (S mid) hi ltac:(lia) ltac:(lia) Hlo' Hhi)
        as (Hr & Hbelow & Habove).
      split; [lia|done].
    + assert (Hhi' : forall i, (mid <= i < length a)%nat -> v <= nth i a 0).
      { intros i Hi.
        pose proof (nondecreasing_nth a mid i Ha ltac:(lia) ltac:(lia)). lra. }
      destruct (IH lo mid ltac:(lia) ltac:(lia) Hlo Hhi')
        as (Hr & Hbelow & Habove).
      split; [lia|done].
  - assert (lo = hi) by lia. subst hi. split; [lia|]. split; [done|done].
Qed.

(** [np.searchsorted] on a sorted array: everything before the returned
    index is below [v], everything from it on is at least [v]. *)
Lemma searchsorted_spec (a : vector) (v : R) :
  nondecreasing a ->
  (searchsorted a v <= length a)%nat /\
  (forall i, (i < searchsorted a v)%nat -> nth i a 0 < v) /\
  (forall i, (searchsorted a v <= i < length a)%nat -> v <= nth i a 0).
Proof.
  intros Ha. unfold searchsorted.
  destruct (bisect_left_spec a v Ha (S (length a)) 0 (length a)
              ltac:(lia) ltac:(lia) ltac:(intros; lia) ltac:(intros; lia))
    as (Hr & Hbelow & Habove).
  split; [lia|done].
Qed.

Lemma cumsum_from_length (acc : R) (v : vector) :
  length (cumsum_from acc v) = length v.
Proof. revert acc. induction v as [|x v IH]; intros acc; simpl; [done|]. by rewrite IH. Qed.

Lemma cumsum_from_nondecreasing (acc : R) (v : vector) :
  Forall (fun x => 0 <= x) v ->
  nondecreasing (cumsum_from acc v) /\ Forall (Rle acc) (cumsum_from acc v).
Proof.
  intros Hv. revert acc. induction Hv as [|x v Hx _ IH]; intros acc; simpl.
  - split; constructor.
  - destruct (IH (acc + x)) as [Hs Hb]. split.
    + constructor; assumption.
    + constructor; [lra|]. eapply Forall_impl; [exact Hb|]. intros; simpl in *; lra.
Qed.

Lemma take_idx_seq (v : vector) : take_idx v (seq 0 (length v)) = v.
Proof.
  unfold take_idx. apply list_eq. intros i. rewrite list_lookup_fmap.
  destruct (v !! i) as [x|] eqn:Hi.
  - rewrite lookup_seq_lt by (by eapply lookup_lt_Some). simpl.
    f_equal. by apply nth_lookup_Some.
  - rewrite lookup_seq_ge; [done|]. by apply lookup_ge_None.
Qed.

Lemma argsort_Permutation (v : vector) : argsort v ≡ₚ seq 0 (length v).
Proof. unfold argsort. apply merge_sort_Permutation. Qed.

Lemma take_idx_argsort_Permutation (v : vector) : take_idx v (argsort v) ≡ₚ v.
Proof.
  rewrite <- (take_idx_seq v) at 3. unfold take_idx.
  apply fmap_Permutation, argsort_Permutation.
Qed.

Lemma take_idx_argsort_sorted (v : vector) :
  nondecreasing (take_idx v (argsort v)).
Proof.
  unfold nondecreasing, take_idx, argsort.
  apply (StronglySorted_fmap _ (fun i j => nth i v 0 <= nth j v 0) Rle).
  - intros i j Hij. exact Hij.
  - apply StronglySorted_merge_sort.
    + intros i j k. apply Rle_trans.
    + intros i j. destruct (Rle_or_lt (nth i v 0) (nth j v 0)); [by left|right; lra].
Qed.

Lemma nonincreasing_rev (v : vector) : nondecreasing v -> nonincreasing (rev v).
Proof.
  unfold nondecreasing, nonincreasing.
  induction 1 as [|x v _ IH Hx]; simpl; [constructor|].
  apply StronglySorted_app. split; [|split; [done|repeat constructor]].
  intros y z Hy Hz. apply list_elem_of_singleton in Hz as ->.
  apply list_elem_of_In in Hy. apply List.in_rev in Hy.
  rewrite Forall_forall in Hx. by apply Hx, list_elem_of_In.
Qed.

(** The eigenvalues after [eigvals[np.argsort(eigvals)[::-1]]]. *)
Lemma sorted_descending (v : vector) :
  nonincreasing (take_idx v (rev (argsort v))) /\
  take_idx v (rev (argsort v)) ≡ₚ v.
Proof.
  unfold take_idx. rewrite map_rev. split.
  - apply nonincreasing_rev, take_idx_argsort_sorted.
  - rewrite <- Permutation_rev. apply take_idx_argsort_Permutation.
Qed.

End SearchFacts.

(** ** The weighted covariance is positive semi-definite *)

Section CovarianceFacts.
Import Np WeatherPredictor.
Local Open Scope R_scope.

Lemma sum_map_ext {I : Type} (F G : I -> R) (l : list I) :
  (forall i, F i = G i) -> sum (map F l) = sum (map G l).
Proof. intros H. f_equal. apply map_ext. exact H. Qed.

Lemma sum_map_add {I : Type} (F G : I -> R) (l : list I) :
  sum (map (fun i => F i + G i) l) = sum (map F l) + sum (map G l).
Proof.
  induction l as [|i l IH]; cbn [map]; rewrite ?sum_cons; [unfold sum; simpl; lra|].
  rewrite IH. lra.
Qed.

Lemma sum_map_scal {I : Type} (c : R) (F : I -> R) (l : list I) :
  sum (map (fun i => c * F i) l) = c * sum (map F l).
Proof.
  induction l as [|i l IH]; cbn [map]; rewrite ?sum_cons; [unfold sum; simpl; lra|].
  rewrite IH. lra.
Qed.

Lemma dot_cons (x y : R) (u v : vector) : dot (x :: u) (y :: v) = x * y + dot u v.
Proof. reflexivity. Qed.

Lemma dot_map_map {I : Type} (F G : I -> R) (l : list I) :
  dot (map F l) (map G l) = sum (map (fun i => F i * G i) l).
Proof.
  induction l as [|i l IH]; [reflexivity|].
  cbn [map]. rewrite dot_cons, sum_cons, IH. reflexivity.
Qed.

Lemma dot_scale_r (c : R) (u v : vector) : dot u (scale c v) = c * dot u v.
Proof.
  unfold scale. revert v. induction u as [|x u IH]; intros [|y v]; cbn [map];
    rewrite ?dot_cons; try (unfold dot, sum; simpl; lra).
  rewrite IH. lra.
Qed.

Lemma nth_map_mul (c : R) (l : vector) (b : nat) :
  nth b (map (fun x => x * c) l) 0 = nth b l 0 * c.
Proof.
  revert b. induction l as [|x l IH]; intros [|b]; simpl; try lra. apply IH.
Qed.

Lemma nth_map_seq (F : nat -> R) (d b : nat) :
  (b < d)%nat -> nth b (map F (seq 0 d)) 0 = F b.
Proof.
  intros Hb. erewrite nth_lookup_Some; [reflexivity|].
  rewrite list_lookup_fmap, lookup_seq_lt by done. reflexivity.
Qed.

Lemma map_seq_ext {B : Type} (F G : nat -> B) (d : nat) :
  (forall a, (a < d)%nat -> F a = G a) -> map F (seq 0 d) = map G (seq 0 d).
Proof.
  intros H. apply map_ext_in. intros a Ha. apply in_seq in Ha. apply H. lia.
Qed.

Lemma sigma_entry_nil_r (Xc : matrix) (a b : nat) : sigma_entry Xc [] a b = 0.
Proof.
  unfold sigma_entry, weighted_rows. destruct Xc; cbn; reflexivity.
Qed.

Lemma sigma_entry_cons (x : vector) (Xc : matrix) (wi : R) (w : vector) (a b : nat) :
  sigma_entry (x :: Xc) (wi :: w) a b
  = nth a x 0 * (nth b x 0 * wi) + sigma_entry Xc w a b.
Proof.
  unfold sigma_entry, weighted_rows, col. cbn [zip_with map].
  rewrite dot_cons, nth_map_mul. reflexivity.
Qed.

Lemma sigma_entry_sym (Xc : matrix) (w : vector) (a b : nat) :
  sigma_entry Xc w a b = sigma_entry Xc w b a.
Proof.
  revert w. induction Xc as [|x Xc IH]; intros [|wi w];
    rewrite ?sigma_entry_nil_r; try reflexivity.
  rewrite !sigma_entry_cons, IH. lra.
Qed.

(** The symmetrised [Sigma], entry by entry. *)
Lemma pca_sigma_entries (d : nat) (Xc : matrix) (w : vector) :
  pca_sigma d Xc w
  = map (fun a => map (fun b => sigma_entry Xc w a b) (seq 0 d)) (seq 0 d).
Proof.
  unfold pca_sigma. cbv zeta.
  set (E := sigma_entry Xc w).
  assert (HS : matmul d (transpose d Xc) (weighted_rows Xc w)
               = map (fun a => map (E a) (seq 0 d)) (seq 0 d)).
  { unfold matmul, transpose. rewrite map_map. reflexivity. }
  rewrite HS.
  assert (HT : transpose d (map (fun a => map (E a) (seq 0 d)) (seq 0 d))
               = map (fun b => map (fun a => E a b) (seq 0 d)) (seq 0 d)).
  { unfold transpose. apply map_seq_ext. intros b Hb.
    unfold col. rewrite map_map. apply map_ext. intros a.
    by apply nth_map_seq. }
  rewrite HT. unfold mscale, madd.
  rewrite zip_with_fmap_l, zip_with_fmap_r, zip_with_diag.
  change (map (scale 0.5) ((fun a => vadd (map (E a) (seq 0 d)) (map (fun a0 => E a0 a) (seq 0 d))) <$> seq 0 d))
    with (map (scale 0.5) (map (fun a => vadd (map (E a) (seq 0 d)) (map (fun a0 => E a0 a) (seq 0 d))) (seq 0 d))).
  rewrite map_map. apply map_ext. intros a.
  unfold vadd, scale.
  rewrite zip_with_fmap_l, zip_with_fmap_r, zip_with_diag.
  change (map (Rmult 0.5) ((fun b => E a b + E b a) <$> seq 0 d))
    with (map (Rmult 0.5) (map (fun b => E a b + E b a) (seq 0 d))).
  rewrite map_map. apply map_ext. intros b.
  subst E. cbv beta. rewrite (sigma_entry_sym Xc w b a). lra.
Qed.

Lemma quad_form_zero (d : nat) (E : nat -> nat -> R) (V : nat -> R) :
  (forall a b, E a b = 0) -> quad_form d E V = 0.
Proof.
  intros HE. unfold quad_form.
  rewrite (sum_map_ext _ (fun a => 0 * V a)); [rewrite sum_map_scal; lra|].
  intros a. rewrite (sum_map_ext _ (fun b => 0 * V b)).
  - rewrite sum_map_scal. lra.
  - intros b. by rewrite HE.
Qed.

Lemma quad_form_sigma_nonneg (d : nat) (Xc : matrix) (w : vector) (V : nat -> R) :
  Forall (fun x => 0 <= x) w -> 0 <= quad_form d (sigma_entry Xc w) V.
Proof.
  intros Hw. revert Xc. induction Hw as [|wi w Hwi _ IH]; intros Xc.
  - rewrite quad_form_zero; [lra|]. intros a b. apply sigma_entry_nil_r.
  - destruct Xc as [|x Xc].
    + rewrite quad_form_zero; [lra|]. intros a b. reflexivity.
    + set (P := sum (map (fun b => nth b x 0 * V b) (seq 0 d))).
      assert (Hq : quad_form d (sigma_entry (x :: Xc) (wi :: w)) V
                   = wi * (P * P) + quad_form d (sigma_entry Xc w) V).
      { unfold quad_form.
        rewrite (sum_map_ext _
                   (fun a => (wi * P) * (nth a x 0 * V a)
                             + V a * sum (map (fun b => sigma_entry Xc w a b * V b) (seq 0 d)))).
        - rewrite sum_map_add, sum_map_scal. fold P. lra.
        - intros a.
          rewrite (sum_map_ext _
                     (fun b => (nth a x 0 * wi) * (nth b x 0 * V b)
                               + sigma_entry Xc w a b * V b)).
          + rewrite sum_map_add, sum_map_scal. fold P. lra.
          + intros b. rewrite sigma_entry_cons. lra. }
      rewrite Hq. specialize (IH Xc).
      assert (0 <= P * P) by nra. nra.
Qed.

(** [v . (Sigma v)] is the quadratic form of the entries of [Sigma]. *)
Lemma dot_matvec_sigma (d : nat) (Xc : matrix) (w : vector) (V : nat -> R) :
  dot (map V (seq 0 d)) (matvec (pca_sigma d Xc w) (map V (seq 0 d)))
  = quad_form d (sigma_entry Xc w) V.
Proof.
  rewrite pca_sigma_entries. unfold matvec, quad_form.
  rewrite map_map, dot_map_map. apply sum_map_ext. intros a.
  by rewrite dot_map_map.
Qed.

Lemma col_length (j : nat) (M : matrix) : length (col j M) = length M.
Proof. unfold col. by rewrite length_map. Qed.

(** An eigenvalue of [Sigma] (with any non-zero eigenvector) is
    non-negative when the weights are. *)
Lemma covariance_eigenvalue_nonneg (d : nat) (Xc : matrix) (w v : vector) (lam : R) :
  Forall (fun x => 0 <= x) w ->
  length v = d -> 0 < dot v v ->
  matvec (pca_sigma d Xc w) v = scale lam v ->
  0 <= lam.
Proof.
  intros Hw Hlen Hnorm Hev.
  assert (Hv : map (fun a => nth a v 0) (seq 0 d) = v).
  { transitivity (take_idx v (seq 0 (length v))); [|apply take_idx_seq].
    unfold take_idx. by rewrite Hlen. }
  pose proof (dot_matvec_sigma d Xc w (fun a => nth a v 0)) as HQ.
  rewrite Hv, Hev, dot_scale_r in HQ.
  pose proof (quad_form_sigma_nonneg d Xc w (fun a => nth a v 0) Hw).
  nra.
Qed.

(** Every eigenvalue the solver returns for [Sigma] is non-negative. *)
Lemma eigh_nonneg (d : nat) (Xc : matrix) (w : vector) (vals : vector) (vecs : matrix) :
  Forall (fun x => 0 <= x) w ->
  eigh_spec d (pca_sigma d Xc w) (vals, vecs) ->
  Forall (fun x => 0 <= x) vals.
Proof.
  intros Hw (Hlen & [Hrows _] & _ & Heig).
  apply Forall_lookup. intros j lam Hj.
  assert (Hjd : (j < d)%nat) by (apply lookup_lt_Some in Hj; lia).
  destruct (Heig j Hjd) as [Hev Hunit].
  rewrite (nth_lookup_Some _ _ _ _ Hj) in Hev.
  apply (covariance_eigenvalue_nonneg d Xc w (col j vecs) lam Hw);
    [by rewrite col_length|lra|exact Hev].
Qed.

End CovarianceFacts.

(** ** [weighted_pca] *)

Section PcaFacts.
Import Np WeatherPredictor.
Local Open Scope R_scope.

Variable eigh : matrix -> vector * matrix.

Lemma pca_w_nonneg (weights : vector) :
  Forall (fun x => 0 <= x) weights -> Forall (fun x => 0 <= x) (pca_w weights).
Proof.
  intros Hw. unfold pca_w, div_scalar. rewrite Forall_map.
  pose proof (sum_nonneg weights Hw) as Hs.
  eapply Forall_impl; [exact Hw|]. intros x Hx. simpl.
  destruct (decide (sum weights = 0)) as [->|Hne].
  - unfold Rdiv. rewrite Rinv_0. lra.
  - unfold Rdiv. apply Rmult_le_pos; [lra|].
    apply Rlt_le, Rinv_0_lt_compat. lra.
Qed.

Lemma pca_w_sum (weights : vector) : sum weights <> 0 -> sum (pca_w weights) = 1.
Proof. intros Hs. unfold pca_w. rewrite sum_div_scalar. by field. Qed.

Lemma pca_w_length (weights : vector) : length (pca_w weights) = length weights.
Proof. unfold pca_w, div_scalar. by rewrite length_map. Qed.

(** With matching weights of non-zero sum the call gets past [np.average]
    and returns; its result is built from the sorted spectrum. *)
Lemma weighted_pca_run (X : matrix) (weights : vector) (thr : R) :
  length weights = length X -> sum weights <> 0 ->
  let d := length (hd [] X) in
  let mu := weighted_mean X d (pca_w weights) in
  let sorted := pca_sorted eigh (pca_covariance X weights) in
  let k := pca_k d (pca_cumvar sorted.1) thr in
  weighted_pca eigh X weights thr
  = Ok (maximum (take k sorted.1) (pca_eps_reg (sum sorted.1)),
        map (take k) sorted.2, mu, k).
Proof.
  intros Hlen Hsum d mu sorted k. unfold weighted_pca, average_axis0.
  rewrite pca_w_length.
  destruct (decide (length weights = length X)) as [_|]; [|done].
  rewrite pca_w_sum by done.
  destruct (decide (1 = 0)) as [|_]; [lra|].
  cbn [mbind outcome_bind].
  fold d. fold mu. change (pca_sigma d (pca_center X mu) (pca_w weights))
    with (pca_covariance X weights).
  fold sorted. destruct sorted as [eigvals eigvecs] eqn:Hsorted.
  reflexivity.
Qed.

(** Conversely, a call that returns has passed the checks of
    [np.average], and its result is the one above. *)
Lemma weighted_pca_inv (X : matrix) (weights : vector) (thr : R)
    (res : vector * matrix * vector * nat) :
  weighted_pca eigh X weights thr = Ok res ->
  let d := length (hd [] X) in
  let sorted := pca_sorted eigh (pca_covariance X weights) in
  let k := pca_k d (pca_cumvar sorted.1) thr in
  length weights = length X /\ sum (pca_w weights) <> 0 /\
  res = (maximum (take k sorted.1) (pca_eps_reg (sum sorted.1)),
         map (take k) sorted.2, weighted_mean X d (pca_w weights), k).
Proof.
  intros Hres d sorted k. revert Hres. unfold weighted_pca, average_axis0.
  rewrite pca_w_length.
  destruct (decide (length weights = length X)) as [Hlen|]; [|discriminate].
  destruct (decide (sum (pca_w weights) = 0)) as [|Hsum]; [discriminate|].
  cbn [mbind outcome_bind]. fold d.
  change (pca_sigma d (pca_center X (weighted_mean X d (pca_w weights)))
            (pca_w weights)) with (pca_covariance X weights).
  fold sorted. destruct sorted as [eigvals eigvecs] eqn:Hsorted.
  intros [= <-]. done.
Qed.

(** The spectrum after sorting, when the solver keeps its contract on the
    covariance of non-negative weights. *)
Lemma sorted_spectrum (X : matrix) (weights : vector) :
  let d := length (hd [] X) in
  let Sigma := pca_covariance X weights in
  Forall (fun x => 0 <= x) weights ->
  eigh_spec d Sigma (eigh Sigma) ->
  let eigvals := (pca_sorted eigh Sigma).1 in
  Forall (fun x => 0 <= x) (eigh Sigma).1 /\
  eigvals ≡ₚ (eigh Sigma).1 /\
  length eigvals = d /\
  Forall (fun x => 0 <= x) eigvals /\
  nonincreasing eigvals /\
  nondecreasing (pca_cumvar eigvals) /\
  length (pca_cumvar eigvals) = d.
Proof.
  intros d Sigma Hw Hspec eigvals.
  subst eigvals. unfold pca_sorted.
  destruct (eigh Sigma) as [vals vecs] eqn:Heigh. cbn [fst].
  assert (Hvals : Forall (fun x => 0 <= x) vals).
  { eapply (eigh_nonneg d _ (pca_w weights) vals vecs);
      [by apply pca_w_nonneg|exact Hspec]. }
  destruct (sorted_descending vals) as [Hdesc Hperm].
  assert (Hnn : Forall (fun x => 0 <= x) (take_idx vals (rev (argsort vals)))).
  { by rewrite Hperm. }
  assert (Hlen : length (take_idx vals (rev (argsort vals))) = d).
  { rewrite Hperm. by destruct Hspec as [? _]. }
  split; [done|]. split; [done|]. split; [done|]. split; [done|].
  split; [done|].
  unfold pca_cumvar, cumsum. rewrite cumsum_from_length. split.
  - apply cumsum_from_nondecreasing.
    unfold div_scalar. rewrite Forall_map.
    pose proof (sum_nonneg _ Hnn) as Hs.
    eapply Forall_impl; [exact Hnn|]. intros x Hx. simpl.
    unfold Rdiv. apply Rmult_le_pos; [lra|].
    apply Rlt_le, Rinv_0_lt_compat. lra.
  - unfold div_scalar. by rewrite length_map.
Qed.

(** The component count chosen from a sorted cumulative ratio. *)
Lemma pca_k_spec (d : nat) (cumvar : vector) (thr : R) :
  (1 <= d)%nat -> length cumvar = d -> nondecreasing cumvar ->
  let k := pca_k d cumvar thr in
  (1 <= k <= d)%nat /\
  ((exists j, (j < d)%nat /\ thr <= nth j cumvar 0) ->
   thr <= nth (k - 1) cumvar 0 /\
   forall j, (j < k - 1)%nat -> nth j cumvar 0 < thr) /\
  ((forall j, (j < d)%nat -> nth j cumvar 0 < thr) -> k = d).
Proof.
  intros Hd Hlen Hsorted k. subst k. unfold pca_k.
  destruct (searchsorted_spec cumvar thr Hsorted) as (Hr & Hbelow & Habove).
  rewrite Hlen in Hr, Habove.
  set (r := searchsorted cumvar thr) in *.
  split; [lia|]. split.
  - intros (j & Hj & Hreach).
    assert (Hrj : (r <= j)%nat).
    { destruct (decide (r <= j)%nat) as [|Hn]; [done|].
      specialize (Hbelow j ltac:(lia)). lra. }
    replace (Nat.max 1 (Nat.min (r + 1) d) - 1)%nat with r by lia.
    split; [apply Habove; lia|exact Hbelow].
  - intros Hnone.
    assert (r = d) as ->.
    { destruct (decide (r = d)) as [|Hn]; [done|].
      specialize (Habove r ltac:(lia)). specialize (Hnone r ltac:(lia)). lra. }
    lia.
Qed.

End PcaFacts.

Section PcaTheorems.
Import Np WeatherPredictor Examples.
Local Open Scope R_scope.

Lemma eigh_1x1_spec (s : R) : eigh_spec 1 [[s]] (eigh_1x1 [[s]]).
Proof.
  unfold eigh_spec, eigh_1x1. cbn [nth].
  split; [reflexivity|]. split; [split; [reflexivity|by repeat constructor]|].
  split; [repeat constructor|].
  intros j Hj. assert (j = 0%nat) as -> by lia.
  unfold matvec, col, scale, dot, sum. cbn [map zip_with foldr nth].
  split; [f_equal; lra|lra].
Qed.

Lemma pca_covariance_1x1 (X : matrix) (weights : vector) :
  length (hd [] X) = 1%nat ->
  exists s, pca_covariance X weights = [[s]].
Proof.
  intros Hd. unfold pca_covariance. rewrite Hd, pca_sigma_entries.
  cbn [seq map]. eauto.
Qed.

Lemma eigh_1x1_covariance (X : matrix) (weights : vector) :
  length (hd [] X) = 1%nat ->
  eigh_spec (length (hd [] X)) (pca_covariance X weights)
            (eigh_1x1 (pca_covariance X weights)).
Proof.
  intros Hd. destruct (pca_covariance_1x1 X weights Hd) as [s ->].
  rewrite Hd. apply eigh_1x1_spec.
Qed.

(** The solver for diagonal 2 x 2 matrices keeps the contract of
    [np.linalg.eigh]. *)
Lemma eigh_diag2_spec (a b : R) :
  eigh_spec 2 [[a; 0]; [0; b]] (eigh_diag2 [[a; 0]; [0; b]]).
Proof.
  unfold eigh_diag2. cbn [nth].
  destruct (decide (a <= b)) as [Hab|Hab]; unfold eigh_spec;
    (split; [reflexivity|]);
    (split; [split; [reflexivity|by repeat constructor]|]);
    (split; [repeat first [apply Sorted_cons | apply Sorted_nil
                          | apply HdRel_cons | apply HdRel_nil]; lra|]);
    intros j Hj; destruct j as [|[|j]]; try lia;
    unfold matvec, col, scale, dot, sum; cbn [map zip_with foldr nth];
    (split; [vec_eq; lra|lra]).
Qed.

Lemma argsort_pair (a b : R) :
  argsort [a; b] = if decide (a <= b) then [0; 1]%nat else [1; 0]%nat.
Proof. unfold argsort. cbn. by destruct (decide (a <= b)). Qed.






(** C7: in [weighted_pca], for weights that match the rows, are
    non-negative and have a positive sum, every eigenvalue of the
    symmetrised weighted covariance is non-negative (whatever the
    eigenvector); the eigenvalues the solver returns are, after sorting, a
    non-increasing rearrangement of themselves; and the cumulative
    explained-variance ratio is non-decreasing.  [weighted_pca] returns on
    such weights, and that ratio is the one it searches for its component
    count (as long as no ratio is within 1e-9 of the threshold, where
    rounding could decide the search). *)
Theorem weighted_pca_spectrum_monotone (eigh : matrix -> vector * matrix)
    (X : matrix) (weights : vector) (var_threshold : R) :
  let d := length (hd [] X) in
  let Sigma := pca_covariance X weights in
  length weights = length X ->
  Forall (fun x => 0 <= x) weights -> 0 < sum weights ->
  eigh_spec d Sigma (eigh Sigma) ->
  let eigvals := (pca_sorted eigh Sigma).1 in
  let cumvar := pca_cumvar eigvals in
  (forall v lam, length v = d -> 0 < dot v v ->
                 matvec Sigma v = scale lam v -> 0 <= lam) /\
  Forall (fun x => 0 <= x) (eigh Sigma).1 /\
  eigvals ≡ₚ (eigh Sigma).1 /\
  Forall (fun x => 0 <= x) eigvals /\
  nonincreasing eigvals /\
  nondecreasing cumvar /\
  exists eigvals_k eigvecs_k mu k,
    weighted_pca eigh X weights var_threshold = Ok (eigvals_k, eigvecs_k, mu, k) /\
    (Forall (fun c => 1e-9 <= Rabs (c - var_threshold)) cumvar ->
     k = pca_k d cumvar var_threshold).
Proof.
  intros d Sigma Hlen Hw Hsum Hspec eigvals cumvar.
  destruct (sorted_spectrum eigh X weights Hw Hspec)
    as (Hraw & Hperm & _ & Hnn & Hdesc & Hcum & _).
  split.
  { intros v lam Hv Hnorm Hev.
    eapply (covariance_eigenvalue_nonneg d);
      [apply (pca_w_nonneg weights Hw)|exact Hv|exact Hnorm|exact Hev]. }
  repeat (split; [assumption|]).
  eexists _, _, _, _. split.
  - apply (weighted_pca_run eigh X weights var_threshold Hlen). lra.
  - reflexivity.
Qed.


(** Two features, the first spread widely and the second narrowly: the
    covariance is diagonal, with variances 50 and 1/2. *)
Lemma spread_covariance :
  pca_covariance spread_samples [1; 1; 1; 1] = [[50; 0]; [0; 1 / 2]].
Proof.
  unfold pca_covariance, spread_samples. cbn [hd length].
  rewrite pca_sigma_entries.
  unfold pca_w, div_scalar, weighted_mean, pca_center, sigma_entry,
    weighted_rows, col, dot, vsub, sum.
  cbn [seq map zip_with foldr nth]. vec_eq; lra.
Qed.

Lemma spread_weights_ok :
  length [1; 1; 1; 1] = length spread_samples /\
  Forall (fun x => 0 <= x) [1; 1; 1; 1] /\ 0 < sum [1; 1; 1; 1].
Proof.
  split; [reflexivity|]. split; [repeat constructor; lra|].
  unfold sum. cbn [foldr]. lra.
Qed.

Lemma spread_eigh_spec :
  eigh_spec (length (hd [] spread_samples))
    (pca_covariance spread_samples [1; 1; 1; 1])
    (eigh_diag2 (pca_covariance spread_samples [1; 1; 1; 1])).
Proof. rewrite spread_covariance. apply eigh_diag2_spec. Qed.

(** The solver returns the variances in ascending order; sorting reverses
    them, and the eigenvector columns with them. *)
Lemma spread_sorted :
  pca_sorted eigh_diag2 (pca_covariance spread_samples [1; 1; 1; 1])
  = ([50; 1 / 2], [[1; 0]; [0; 1]]).
Proof.
  rewrite spread_covariance. unfold pca_sorted, eigh_diag2. cbn [nth].
  destruct (decide (50 <= 1 / 2)) as [?|_]; [lra|].
  rewrite argsort_pair. destruct (decide (1 / 2 <= 50)) as [_|?]; [|lra].
  reflexivity.
Qed.

Lemma spread_cumvar :
  pca_cumvar [50; 1 / 2]
  = [0 + 50 / (50 + (1 / 2 + 0) + 1e-16);
     0 + 50 / (50 + (1 / 2 + 0) + 1e-16) + 1 / 2 / (50 + (1 / 2 + 0) + 1e-16)].
Proof. reflexivity. Qed.


Lemma spread_first_ratio : 0.96 <= 50 / (50 + (1 / 2 + 0) + 1e-16).
Proof.
  apply Rmult_le_reg_r with (50 + (1 / 2 + 0) + 1e-16); [lra|].
  unfold Rdiv. rewrite Rmult_assoc, Rinv_l by lra. lra.
Qed.

(** On these samples one component already explains 99% of the variance:
    [weighted_pca] returns the larger variance, 50, with its eigenvector
    [(1, 0)], and leaves the other pair out. *)
Example weighted_pca_spread_samples :
  exists mu,
    weighted_pca eigh_diag2 spread_samples [1; 1; 1; 1] 0.95
    = Ok ([50], [[1]; [0]], mu, 1%nat).
Proof.
  destruct spread_weights_ok as (Hlen & Hw & Hsum).
  pose proof (sorted_spectrum eigh_diag2 spread_samples [1; 1; 1; 1] Hw
                spread_eigh_spec) as Hsorted.
  cbv zeta in Hsorted. destruct Hsorted as (_ & _ & _ & _ & _ & Hcum & Hclen).
  eexists.
  rewrite (weighted_pca_run eigh_diag2 spread_samples [1; 1; 1; 1] 0.95 Hlen)
    by lra.
  rewrite spread_sorted in *. cbn [fst snd hd length spread_samples] in *.
  destruct (pca_k_spec 2 (pca_cumvar [50; 1 / 2]) 0.95 ltac:(lia) Hclen Hcum)
    as (Hk & Hreach & _).
  assert (Hone : pca_k 2 (pca_cumvar [50; 1 / 2]) 0.95 = 1%nat).
  { destruct Hreach as [_ Hbelow].
    - exists 0%nat. split; [lia|]. rewrite spread_cumvar. cbn [nth].
      pose proof spread_first_ratio. lra.
    - destruct (decide (pca_k 2 (pca_cumvar [50; 1 / 2]) 0.95 = 1%nat))
        as [|Hne]; [done|].
      specialize (Hbelow 0%nat ltac:(lia)). rewrite spread_cumvar in Hbelow.
      cbn [nth] in Hbelow. pose proof spread_first_ratio. lra. }
  rewrite Hone. cbn [take map]. unfold maximum, pca_eps_reg, sum.
  cbn [map foldr].
  destruct (decide (0 < 50 + (1 / 2 + 0))) as [_|?]; [|lra].
  rewrite Rmax_left by lra. reflexivity.
Qed.

Lemma weighted_pca_spectrum_monotone_witness :
  let Sigma := pca_covariance spread_samples [1; 1; 1; 1] in
  let eigvals := (pca_sorted eigh_diag2 Sigma).1 in
  let cumvar := pca_cumvar eigvals in
  (forall v lam, length v = 2%nat -> 0 < dot v v ->
                 matvec Sigma v = scale lam v -> 0 <= lam) /\
  Forall (fun x => 0 <= x) (eigh_diag2 Sigma).1 /\
  eigvals ≡ₚ (eigh_diag2 Sigma).1 /\
  Forall (fun x => 0 <= x) eigvals /\
  nonincreasing eigvals /\
  nondecreasing cumvar /\
  exists eigvals_k eigvecs_k mu k,
    weighted_pca eigh_diag2 spread_samples [1; 1; 1; 1] 0.95
    = Ok (eigvals_k, eigvecs_k, mu, k) /\
    (Forall (fun c => 1e-9 <= Rabs (c - 0.95)) cumvar ->
     k = pca_k 2 cumvar 0.95).
Proof.
  exact (weighted_pca_spectrum_monotone eigh_diag2 spread_samples [1; 1; 1; 1] 0.95
           (proj1 spread_weights_ok) (proj1 (proj2 spread_weights_ok))
           (proj2 (proj2 spread_weights_ok)) spread_eigh_spec).
Defined.







End PcaTheorems.

(** ** [apply_constraints] and [generate_ensemble] *)

Section EnsembleFacts.
Import Np WeatherPredictor.
Local Open Scope R_scope.

Lemma clip_row_imap (row : vector) :
  alter (fun x => Rmin x 60) 6%nat
    (alter (fun x => Rmax x (-80)) 6%nat
       (alter (fun x => Rmax x 0) 5%nat
          (alter (fun x => Rmax x 0) 4%nat
             (alter (fun x => Rmin x 100) 3%nat
                (alter (fun x => Rmax x 0) 3%nat
                   (alter (fun x => Rmin x 100) 2%nat
                      (alter (fun x => Rmax x 0) 2%nat
                         (alter (fun x => Rmin x 60) 1%nat
                            (alter (fun x => Rmax x (-80)) 1%nat
                               (alter (fun x => Rmax x 0) 0%nat row))))))))))
  = imap clip_value row.
Proof.
  apply list_eq. intros j. rewrite list_lookup_imap.
  do 7 (destruct j as [|j];
        [repeat (rewrite list_lookup_alter_eq
                 || rewrite list_lookup_alter_ne by lia);
         destruct (row !! _); reflexivity|]).
  rewrite !list_lookup_alter_ne by lia.
  destruct (row !! _); reflexivity.
Qed.

(** The column loop clips every row, provided all seven columns exist. *)
Lemma apply_constraints_spec (n_cols : nat) (samples : matrix) :
  apply_constraints n_cols samples
  = if (7 <=? n_cols)%nat then Ok (map (imap clip_value) samples)
    else Raise IndexError.
Proof.
  unfold apply_constraints, clip_dict, update_col. cbn [foldl].
  destruct (Nat.leb_spec 7 n_cols) as [Hn|Hn].
  - repeat match goal with
           | |- context [(?vi <? n_cols)%nat] =>
               replace (vi <? n_cols)%nat with true
                 by (symmetry; apply Nat.ltb_lt; lia)
           end.
    cbn [mbind outcome_bind]. f_equal.
    rewrite !map_map. apply map_ext. intros row. apply clip_row_imap.
  - do 7 (destruct n_cols as [|n_cols]; [reflexivity|]). lia.
Qed.

Lemma clip_value_within (vi : nat) (x : R) : within_bounds vi x -> clip_value vi x = x.
Proof.
  unfold within_bounds, clip_value.
  destruct (List.find _ clip_dict) as [[? [[lo|] [hi|]]]|]; unfold clip;
    intros H; try (destruct H);
    rewrite ?Rmax_left, ?Rmin_left by lra; reflexivity.
Qed.

Lemma clip_value_bounds (s : vector) : physical_bounds (imap clip_value s).
Proof.
  assert (Hnth : forall vi, nth vi (imap clip_value s) 0
                            = match s !! vi with
                              | Some x => clip_value vi x
                              | None => 0
                              end).
  { intros vi. rewrite nth_lookup, list_lookup_imap. by destruct (s !! vi). }
  unfold physical_bounds. rewrite !Hnth.
  repeat split;
    match goal with
    | |- context [s !! ?vi] => destruct (s !! vi) as [x|]; [|lra]
    end;
    unfold clip_value, clip; cbn [List.find clip_dict fst Nat.eqb];
    unfold Rmax, Rmin; repeat destruct (Rle_dec _ _); lra.
Qed.

Lemma nth_nth_col (M : matrix) (j c : nat) :
  nth j (col c M) 0 = nth c (nth j M []) 0.
Proof.
  unfold col. rewrite !nth_lookup, list_lookup_fmap.
  destruct (M !! j) as [row|]; simpl; [by rewrite nth_lookup|].
  by destruct c.
Qed.

(** [pc_samples @ eigvecs_k.T]: each row is [V_k z]. *)
Lemma matmul_transpose (d k : nat) (pc M : matrix) :
  is_matrix d k M ->
  matmul d pc (transpose k M) = map (fun z => map (fun v_row => dot z v_row) M) pc.
Proof.
  intros [Hlen Hrows]. unfold matmul. apply map_ext. intros z.
  transitivity (map (fun j => dot z (nth j M [])) (seq 0 d)).
  - apply map_seq_ext. intros j Hj. f_equal.
    unfold transpose, col at 1. rewrite map_map.
    erewrite map_ext; [|intros c; apply nth_nth_col].
    assert (Hk : length (nth j M []) = k).
    { rewrite Forall_forall in Hrows. apply Hrows.
      apply list_elem_of_In, nth_In. lia. }
    rewrite <- Hk. apply take_idx_seq.
  - rewrite <- Hlen. clear. induction M as [|row M IH]; [reflexivity|].
    cbn [length seq map nth]. f_equal. rewrite <- seq_shift, map_map. exact IH.
Qed.

Section WithGenerator.

Context {rng_state : Type} (gauss : rng_state -> R * rng_state).

Lemma normal_rows_length (N_mc : nat) (pc_std : vector) (st : rng_state) :
  length (normal_rows rng_state gauss N_mc pc_std st).1 = N_mc.
Proof.
  revert st. induction N_mc as [|n IH]; intros st; cbn [normal_rows]; [done|].
  destruct (normal_row _ _ _ _) as [row st1].
  specialize (IH st1). destruct (normal_rows _ _ _ _ _) as [rows st2].
  cbn in *. by rewrite IH.
Qed.

(** C5: for eigenvalues that are not negative (their square roots scale
    the draws), every sample of a returned ensemble satisfies the physical
    bounds; it is the centre-day slice of [mu + V_k z], each value clipped
    to the range of its column, and a value already in range is left as it
    is.  The call returns whenever the slice has the seven clipped
    columns. *)
Theorem generate_ensemble_clipped (eigvals_k : vector) (eigvecs_k : matrix)
    (mu : vector) (n_vars days_window N_mc : nat) (st : rng_state) :
  Forall (fun x => 0 <= x) eigvals_k ->
  is_matrix (length mu) (length eigvals_k) eigvecs_k ->
  let run := generate_ensemble rng_state gauss eigvals_k eigvecs_k mu
               n_vars days_window N_mc st in
  let pc_samples := (normal_rows rng_state gauss N_mc (map sqrt eigvals_k) st).1 in
  ((7 <= n_vars)%nat -> ((days_window + 1) * n_vars <= length mu)%nat ->
   exists samples, run.1 = Ok samples) /\
  (forall samples, run.1 = Ok samples ->
     samples = map (fun z => imap clip_value
                               (center_slice days_window n_vars
                                  (reconstruct mu eigvecs_k z)))
                   pc_samples /\
     length samples = N_mc /\
     Forall physical_bounds samples) /\
  (forall vi x, within_bounds vi x -> clip_value vi x = x).
Proof.
  intros _ Hshape run pc_samples.
  assert (Hrun : run.1
            = if (7 <=? length (center_slice days_window n_vars mu))%nat
              then Ok (map (fun z => imap clip_value
                                       (center_slice days_window n_vars
                                          (reconstruct mu eigvecs_k z)))
                           pc_samples)
              else Raise IndexError).
  { subst run pc_samples. unfold generate_ensemble.
    destruct (normal_rows _ _ _ _ _) as [pc st']. cbn [fst].
    rewrite apply_constraints_spec.
    replace (days_window * n_vars + n_vars - days_window * n_vars)%nat
      with n_vars by lia.
    fold (center_slice days_window n_vars mu).
    rewrite (proj1 Hshape), (matmul_transpose _ _ _ _ Hshape), !map_map.
    reflexivity. }
  split; [|split].
  - intros Hvars Hfit. rewrite Hrun.
    unfold center_slice. rewrite length_take, length_drop.
    destruct (Nat.leb_spec 7 (n_vars `min` (length mu - days_window * n_vars)));
      [eauto|lia].
  - intros samples Hok. rewrite Hrun in Hok.
    destruct (7 <=? _)%nat; [|discriminate]. injection Hok as <-.
    split; [reflexivity|]. split.
    + rewrite length_map. apply normal_rows_length.
    + rewrite Forall_map. apply Forall_true. intros z. apply clip_value_bounds.
  - apply clip_value_within.
Qed.

End WithGenerator.

End EnsembleFacts.

(** ** The statistics block and [predict] *)

Section PredictFacts.
Import Np WeatherPredictor.
Local Open Scope R_scope.

Lemma sum_indicator (bs : list bool) :
  sum (map (fun b : bool => if b then 1 else 0) bs) = INR (count_true bs).
Proof.
  unfold count_true. induction bs as [|b bs IH]; [unfold sum; simpl; lra|].
  cbn [map]. rewrite sum_cons, IH, filter_cons.
  destruct b; case_decide; try done; cbn [length]; rewrite ?S_INR; lra.
Qed.

Lemma count_true_le (bs : list bool) : (count_true bs <= length bs)%nat.
Proof. unfold count_true. apply length_filter. Qed.

Lemma mean_bool_fraction (bs : list bool) :
  match mean_bool bs with
  | Some p => p = INR (count_true bs) / INR (length bs) /\ 0 <= p <= 1
  | None => bs = []
  end.
Proof.
  unfold mean_bool, mean. destruct bs as [|b bs]; [done|].
  set (l := b :: bs). cbn [map]. fold (map (fun b : bool => if b then 1 else 0) l).
  rewrite sum_indicator, length_map. split; [reflexivity|].
  pose proof (count_true_le l) as Hle. apply le_INR in Hle.
  pose proof (pos_INR (count_true l)) as Hpos.
  assert (Hlen : 0 < INR (length l)) by (apply lt_0_INR; simpl; lia).
  split.
  - apply Rmult_le_pos; [lra|]. apply Rlt_le, Rinv_0_lt_compat. lra.
  - apply Rmult_le_reg_r with (INR (length l)); [lra|].
    unfold Rdiv. rewrite Rmult_assoc, Rinv_l by lra. lra.
Qed.

Lemma count_exceeds (threshold : R) (samples : matrix) (j : nat) :
  count_true (map (exceeds threshold) (col j samples))
  = length (filter (fun s => threshold < nth j s 0) samples).
Proof.
  unfold count_true, col. induction samples as [|s samples IH]; [done|].
  cbn [map]. rewrite !filter_cons.
  destruct (decide (threshold < nth j s 0)) as [Hlt|Hlt].
  - assert (He : exceeds threshold (nth j s 0) = true)
      by (by apply bool_decide_eq_true_2).
    rewrite He. case_decide; [|done]. cbn [length]. by rewrite IH.
  - assert (He : exceeds threshold (nth j s 0) = false)
      by (by apply bool_decide_eq_false_2).
    rewrite He. case_decide; [done|]. exact IH.
Qed.

Lemma rain_probability_unfold (center_samples : matrix) :
  rain_probability center_samples
  = mean_bool (map (exceeds 0.1) (col 0 center_samples)).
Proof. reflexivity. Qed.

Lemma summarize_probability (lat lon : R) (target : date) (N_mc k : nat)
    (center_samples : matrix) :
  predictions (summarize lat lon target N_mc k center_samples)
    !! "precipitation"%string ≫= (.!! "probability"%string)
  = Some (PNum (rain_probability center_samples)).
Proof.
  unfold summarize. cbn [predictions parameters length seq zip zip_with foldl].
  rewrite lookup_alter_eq.
  change (Py.get var_mapping "PRECTOTCORR" "PRECTOTCORR")%string with "precipitation"%string.
  change (Py.get var_mapping "T2M" "T2M")%string with "temperature"%string.
  change (Py.get var_mapping "RH2M" "RH2M")%string with "humidity"%string.
  change (Py.get var_mapping "CLOUD_AMT" "CLOUD_AMT")%string with "cloud_cover"%string.
  change (Py.get var_mapping "WS10M" "WS10M")%string with "wind_speed"%string.
  change (Py.get var_mapping "ALLSKY_SFC_SW_DWN" "ALLSKY_SFC_SW_DWN")%string
    with "solar_radiation"%string.
  change (Py.get var_mapping "T2MDEW" "T2MDEW")%string with "dew_point"%string.
  rewrite !lookup_insert_ne by done. rewrite lookup_insert_eq.
  cbn [fmap option_fmap option_map mbind option_bind].
  apply lookup_insert_eq.
Qed.

(** C8: the probability [predict] reports is [np.mean] of the indicator
    "precipitation > 0.1" over the ensemble: the number of such samples
    divided by the number of samples, a value in [0, 1].  (The ensemble has
    at least one sample: without samples there is no fraction, and numpy's
    mean of an empty array is nan.) *)
Theorem rain_probability_is_fraction (lat lon : R) (target : date)
    (N_mc k : nat) (center_samples : matrix) :
  center_samples <> [] ->
  let wet := filter (fun s => 0.1 < nth 0 s 0) center_samples in
  let p := INR (length wet) / INR (length center_samples) in
  predictions (summarize lat lon target N_mc k center_samples)
    !! "precipitation"%string ≫= (.!! "probability"%string)
  = Some (PNum (Some p)) /\
  rain_probability center_samples = Some p /\
  0 <= p <= 1.
Proof.
  intros Hne wet p. rewrite summarize_probability, rain_probability_unfold.
  pose proof (mean_bool_fraction (map (exceeds 0.1) (col 0 center_samples))) as H.
  destruct (mean_bool _) as [q|].
  - rewrite count_exceeds, length_map, col_length in H.
    destruct H as [-> Hq]. done.
  - destruct center_samples; [done|discriminate].
Qed.

Lemma rain_probability_is_fraction_witness :
  let samples := [[0.2; 10; 50; 50; 3; 100; 5]; [0; 12; 40; 20; 2; 150; 4]] in
  let wet := filter (fun s => 0.1 < nth 0 s 0) samples in
  let p := INR (length wet) / INR (length samples) in
  predictions (summarize 50 2 (Date 2025 10 5) 2 1 samples)
    !! "precipitation"%string ≫= (.!! "probability"%string)
  = Some (PNum (Some p)) /\
  rain_probability samples = Some p /\
  0 <= p <= 1.
Proof.
  apply (rain_probability_is_fraction 50 2 (Date 2025 10 5) 2 1
           [[0.2; 10; 50; 50; 3; 100; 5]; [0; 12; 40; 20; 2; 150; 4]]).
  discriminate.
Defined.

Section WithServices.

Context (eigh : matrix -> vector * matrix).
Context {rng_state : Type} (seed_state : Z -> rng_state)
        (gauss : rng_state -> R * rng_state).
Context (fetch_power_point : R -> R -> date -> nat -> option Xr.hourly).

(** C9: with the same arguments, the same responses of the data service
    and the same seed, [predict] computes the same ensemble and the same
    results from any two states of the global generator: [np.random.seed]
    replaces the state before anything is drawn. *)
Theorem predict_deterministic (lat lon : R) (target : date)
    (years_back : Z) (days_window N_mc : nat) (random_seed : Z)
    (include_current_year : bool) (global1 global2 : rng_state) :
  (predict_ensemble eigh rng_state seed_state gauss fetch_power_point
     lat lon target years_back days_window N_mc random_seed
     include_current_year global1).1
  = (predict_ensemble eigh rng_state seed_state gauss fetch_power_point
       lat lon target years_back days_window N_mc random_seed
       include_current_year global2).1 /\
  (predict eigh rng_state seed_state gauss fetch_power_point
     lat lon target years_back days_window N_mc random_seed
     include_current_year global1).1
  = (predict eigh rng_state seed_state gauss fetch_power_point
       lat lon target years_back days_window N_mc random_seed
       include_current_year global2).1.
Proof.
  assert (Hens :
    (predict_ensemble eigh rng_state seed_state gauss fetch_power_point
       lat lon target years_back days_window N_mc random_seed
       include_current_year global1).1
    = (predict_ensemble eigh rng_state seed_state gauss fetch_power_point
         lat lon target years_back days_window N_mc random_seed
         include_current_year global2).1).
  { unfold predict_ensemble.
    destruct (decide (0 <= random_seed < 2 ^ 32)%Z); reflexivity. }
  split; [exact Hens|].
  unfold predict.
  destruct (predict_ensemble _ _ _ _ _ _ _ _ _ _ _ _ _ global1) as [e1 s1].
  destruct (predict_ensemble _ _ _ _ _ _ _ _ _ _ _ _ _ global2) as [e2 s2].
  cbn [fst] in *. by rewrite Hens.
Qed.

(** After a valid seed the generator is left in the same state as well. *)
Lemma predict_final_state (lat lon : R) (target : date)
    (years_back : Z) (days_window N_mc : nat) (random_seed : Z)
    (include_current_year : bool) (global1 global2 : rng_state) :
  (0 <= random_seed < 2 ^ 32)%Z ->
  predict eigh rng_state seed_state gauss fetch_power_point
    lat lon target years_back days_window N_mc random_seed
    include_current_year global1
  = predict eigh rng_state seed_state gauss fetch_power_point
      lat lon target years_back days_window N_mc random_seed
      include_current_year global2.
Proof.
  intros Hseed. unfold predict, predict_ensemble.
  destruct (decide (0 <= random_seed < 2 ^ 32)%Z); [reflexivity|done].
Qed.

End WithServices.

End PredictFacts.

(** ** [prepare_daily_data] *)

Section AlignmentFacts.
Import Np Xr WeatherPredictor Examples.
Local Open Scope R_scope.

Example concat_2023_2024 :
  Xr.concat parameters [(2023%Z, response_2023); (2024%Z, response_2024)]
  = Ok combined_2023_2024.
Proof. vm_compute. reflexivity. Qed.

Lemma mapM_Ok_Forall2 {A B : Type} (f : A -> outcome B) (l : list A) (res : list B) :
  mapM f l = Ok res -> Forall2 (fun x y => f x = Ok y) l res.
Proof.
  revert res. induction l as [|x l IH]; intros res; cbn [mapM].
  - intros [= <-]. constructor.
  - destruct (f x) as [y|e] eqn:Hx; cbn [mbind outcome_bind]; [|discriminate].
    destruct (mapM f l) as [ys|e]; cbn [mbind outcome_bind]; [|discriminate].
    intros [= <-]. constructor; [exact Hx|]. by apply IH.
Qed.

Lemma foldl_intersection_same (s : gset Z) (n : nat) :
  foldl (∩) s (replicate n s) = s.
Proof.
  induction n as [|n IH]; [done|]. cbn [replicate foldl].
  replace (s ∩ s) with s; [exact IH|].
  apply set_eq. intros x. rewrite elem_of_intersection. tauto.
Qed.

(** The sets intersected by [prepare_daily_data] are one and the same set:
    each is read from the shared [time] coordinate. *)
Lemma common_doys_all_days (ds : dataset) :
  ds_year ds <> [] ->
  set_intersection (map (doys_in_year ds) (ds_year ds))
  = Ok (list_to_set (map ts_dayofyear (ds_time ds))).
Proof.
  intros Hne. destruct (ds_year ds) as [|y years]; [done|].
  cbn [map set_intersection]. f_equal.
  unfold doys_in_year.
  rewrite (const_fmap (fun _ => list_to_set (map ts_dayofyear (ds_time ds))) years
             (list_to_set (map ts_dayofyear (ds_time ds)))) by done.
  apply foldl_intersection_same.
Qed.

(** What a returning call has computed: the years as given, the sorted
    days of the year found anywhere on the [time] coordinate, and a
    rectangular tensor over them. *)
Lemma prepare_daily_data_inv (ds : dataset) (days_window : nat)
    (X_raw : ndarray3 (option R)) (common_doys years : list Z) :
  prepare_daily_data ds days_window = Ok (X_raw, common_doys, years) ->
  years = ds_year ds /\ (2 <= length years)%nat /\
  common_doys
    = merge_sort Z.le (elements (list_to_set (map ts_dayofyear (ds_time ds)) : gset Z)) /\
  shape X_raw = (length years, length common_doys, length parameters) /\
  well_shaped X_raw.
Proof.
  unfold prepare_daily_data.
  destruct (decide (length (ds_time ds) = 1%nat)); [discriminate|].
  destruct (decide (length (ds_year ds) = 1%nat)) as [|Hone]; [discriminate|].
  destruct (decide (ds_year ds = [])) as [Hnil|Hne].
  { rewrite Hnil. discriminate. }
  rewrite (common_doys_all_days ds Hne). cbn [mbind outcome_bind].
  destruct (decide (ds_time ds = [])); [discriminate|].
  set (common := merge_sort Z.le (elements _)).
  destruct (mapM _ (seq 0 (length (ds_year ds)))) as [daily|e] eqn:Hdaily;
    cbn [mbind outcome_bind]; [|discriminate].
  intros [= <- <- <-].
  split; [done|]. split.
  { destruct (ds_year ds) as [|? [|? ?]]; simpl in *; try done; lia. }
  split; [done|]. split; [done|].
  apply mapM_Ok_Forall2 in Hdaily.
  unfold well_shaped. cbn [shape data]. split.
  - rewrite length_map. apply Forall2_length in Hdaily.
    by rewrite length_seq in Hdaily.
  - rewrite Forall_map. eapply Forall2_Forall_r; [exact Hdaily|].
    apply Forall_true. intros i plane Hplane. cbn beta in *.
    destruct (mapM (sel_year ds i) parameters) as [rows|e] eqn:Hrows;
      cbn [mbind outcome_bind] in Hplane; [|discriminate].
    injection Hplane as <-.
    apply mapM_Ok_Forall2, Forall2_length in Hrows.
    rewrite !length_map. split; [done|].
    rewrite !Forall_map. apply Forall_true. intros g.
    change (length (zip_with nan_to_num
                      (map (fun vi => nanmean (mjoin (map (map (fun cells => mjoin (cells !! vi))) daily)))
                           (seq 0 (length parameters)))
                      (map (fun row => daily_mean (ds_time ds) row g) rows))
            = length parameters).
    rewrite length_zip_with, !length_map, length_seq. lia.
Qed.

(** A single surviving year does not reach the later stages: [squeeze]
    removes the [year] dimension and the lookup of the coordinate fails. *)
Lemma prepare_daily_data_single_year (ds : dataset) (days_window : nat) :
  length (ds_year ds) = 1%nat -> length (ds_time ds) <> 1%nat ->
  prepare_daily_data ds days_window = Raise (KeyError "year").
Proof.
  intros Hyear Htime. unfold prepare_daily_data.
  destruct (decide (length (ds_time ds) = 1%nat)); [done|].
  destruct (decide (length (ds_year ds) = 1%nat)); [reflexivity|done].
Qed.

(** So the "common" days are all the days of the year that occur on the
    [time] coordinate, whether or not a given year has data there. *)
Lemma prepare_daily_data_keeps_every_day (ds : dataset) (days_window : nat)
    (X_raw : ndarray3 (option R)) (common_doys years : list Z) :
  prepare_daily_data ds days_window = Ok (X_raw, common_doys, years) ->
  forall g, g ∈ common_doys <-> exists t, t ∈ ds_time ds /\ ts_dayofyear t = g.
Proof.
  intros Hrun g.
  destruct (prepare_daily_data_inv _ _ _ _ _ Hrun) as (_ & _ & -> & _).
  rewrite merge_sort_Permutation, elem_of_elements, elem_of_list_to_set.
  rewrite list_elem_of_fmap. split.
  - intros (t & -> & Ht). by exists t.
  - intros (t & Ht & <-). by exists t.
Qed.

(** C3 fails on the concatenation of a 2023 response with days 1 and 2 and
    a 2024 response with day 1 only: 2024 has no observation on day 2, yet
    day 2 is kept for both years (the 2024 cell is filled by imputation). *)
Theorem prepare_daily_data_keeps_unobserved_day :
  Xr.concat parameters [(2023%Z, response_2023); (2024%Z, response_2024)]
    = Ok combined_2023_2024 /\
  ~ observed combined_2023_2024 1 2 /\
  exists X_raw,
    prepare_daily_data combined_2023_2024 2
      = Ok (X_raw, [1; 2]%Z, [2023; 2024]%Z) /\
    shape X_raw = (2, 2, 7)%nat /\
    Forall (Forall (Forall is_Some)) (data X_raw).
Proof.
  split; [apply concat_2023_2024|]. split.
  - intros (v & arr & row & t & x & Hv & Hrow & Hin & Hdoy).
    unfold combined_2023_2024, all_vars in Hv. cbn [ds_vars] in Hv.
    apply elem_of_list_to_map_2, list_elem_of_fmap in Hv as (v' & [= -> ->] & _).
    cbn in Hrow. injection Hrow as <-.
    cbn in Hin.
    repeat (apply elem_of_cons in Hin as [Hin|Hin]; [try discriminate|]).
    + injection Hin as -> _. cbn in Hdoy. lia.
    + inversion Hin.
  - match eval vm_compute in (prepare_daily_data combined_2023_2024 2) with
    | Ok (?X, _, _) => exists X
    end.
    split; [vm_compute; reflexivity|]. split; [reflexivity|].
    repeat constructor; eexists; reflexivity.
Qed.

End AlignmentFacts.

(** ** Worked instances *)

Section Instances.
Import Np Xr WeatherPredictor Examples.
Local Open Scope R_scope.

Lemma tensor_2_4_2_well_shaped : well_shaped tensor_2_4_2.
Proof. unfold well_shaped. cbn. split; [done|]. repeat constructor. Qed.

(** Two years of four days with window 1: two state vectors a year. *)
Example build_state_vectors_2_4_2 :
  build_state_vectors 0%Z tensor_2_4_2 1
  = Ok (NdArray3 (2, 2, 6)%nat
          [ [[1; 2; 3; 4; 5; 6]; [3; 4; 5; 6; 7; 8]];
            [[11; 12; 13; 14; 15; 16]; [13; 14; 15; 16; 17; 18]] ]%Z).
Proof. vm_compute. reflexivity. Qed.

Lemma build_state_vectors_windows_witness :
  exists X_state,
    build_state_vectors 0%Z tensor_2_4_2 1 = Ok X_state /\
    shape X_state = (2, 4 - 2 * 1, (2 * 1 + 1) * 2)%nat /\
    well_shaped X_state /\
    data X_state
      = map (fun plane => map (window_at 1 plane) (seq 0 (4 - 2 * 1)))
            (data tensor_2_4_2) /\
    forall y j plane, data tensor_2_4_2 !! y = Some plane ->
      (j < 4 - 2 * 1)%nat ->
      data X_state !! y ≫= (.!! j)
        = Some (List.concat (take (2 * 1 + 1) (drop j plane))).
Proof.
  apply (build_state_vectors_windows 0%Z tensor_2_4_2 2 4 2 1
           tensor_2_4_2_well_shaped eq_refl).
  lia.
Defined.

Lemma unit_loadings_shape :
  is_matrix (length window_mean) (length [1]) unit_loadings.
Proof. split; [reflexivity|]. cbn. repeat constructor. Qed.

Lemma unit_variance_nonneg : Forall (fun x => 0 <= x) [1].
Proof. constructor; [lra|constructor]. Qed.

(** Three draws around a mean whose centre day lies at or beyond several
    bounds, with a window of one day: the first and the last day are cut
    off, precipitation and wind speed are raised to 0, temperature and
    humidity are lowered to 60 and 100. *)
Example generate_ensemble_window_samples :
  (generate_ensemble nat counting_gauss [1] unit_loadings window_mean 7 1 3 0%nat).1
  = Ok [[0; 59; 99; 50; 0; 5; 0]; [0; 60; 100; 51; 0; 6; 1];
        [1; 60; 100; 52; 1; 7; 2]].
Proof.
  unfold generate_ensemble. cbn [normal_rows normal_row map counting_gauss fst].
  rewrite apply_constraints_spec.
  cbn [length window_mean app take drop Nat.mul Nat.add Nat.sub Nat.leb].
  unfold matmul, transpose, unit_loadings, col, dot, vadd, sum, clip_value, clip.
  cbn [replicate length seq map zip_with foldr nth take drop imap List.find
       clip_dict fst snd Nat.eqb Nat.add compose].
  rewrite sqrt_1. cbn [INR].
  f_equal. vec_eq; unfold Rmax, Rmin; repeat destruct (Rle_dec _ _); lra.
Qed.

Lemma generate_ensemble_clipped_witness :
  let run := generate_ensemble nat counting_gauss [1] unit_loadings
               window_mean 7 1 3 0%nat in
  let pc_samples := (normal_rows nat counting_gauss 3 (map sqrt [1]) 0%nat).1 in
  ((7 <= 7)%nat -> ((1 + 1) * 7 <= length window_mean)%nat ->
   exists samples, run.1 = Ok samples) /\
  (forall samples, run.1 = Ok samples ->
     samples = map (fun z => imap clip_value
                               (center_slice 1 7
                                  (reconstruct window_mean unit_loadings z)))
                   pc_samples /\
     length samples = 3%nat /\
     Forall physical_bounds samples) /\
  (forall vi x, within_bounds vi x -> clip_value vi x = x).
Proof.
  exact (generate_ensemble_clipped counting_gauss [1] unit_loadings
           window_mean 7 1 3 0%nat unit_variance_nonneg unit_loadings_shape).
Defined.

End Instances.

(** * Further properties of the pipeline *)

(** ** State vectors and their centre day *)

Section StateVectorExtras.
Import Np WeatherPredictor.
Context {A : Type}.

(** The tensor [build_state_vectors] returns, for any [n_days >= 2W]. *)
Lemma build_state_vectors_eq (zero : A) (X_raw : ndarray3 A)
    (n_years n_days n_vars days_window : nat) :
  well_shaped X_raw ->
  shape X_raw = (n_years, n_days, n_vars) ->
  2 * days_window <= n_days ->
  build_state_vectors zero X_raw days_window
  = Ok (NdArray3 (n_years, n_days - 2 * days_window,
                  (2 * days_window + 1) * n_vars)
          (map (fun plane => map (window_at days_window plane)
                                 (seq 0 (n_days - 2 * days_window)))
               (data X_raw))).
Proof.
  intros Hwf Hshape Hdays. unfold build_state_vectors.
  unfold well_shaped in Hwf. rewrite Hshape in Hwf |- *.
  destruct Hwf as [Hlen Hplanes].
  destruct (Nat.ltb_spec n_days (2 * days_window)) as [?|_]; [lia|].
  do 2 f_equal.
  replace (n_days - days_window - days_window) with (n_days - 2 * days_window) by lia.
  pose proof (fill_all_spec (data X_raw) days_window (n_days - 2 * days_window)
                (replicate ((2 * days_window + 1) * n_vars) zero) n_years
                ltac:(lia)) as Hfill.
  cbv zeta in Hfill. rewrite Hlen in Hfill.
  set (X' := foldl _ _ (seq 0 n_years)) in *.
  destruct Hfill as (Hlen' & Hdone & _).
  apply list_eq. intros y. rewrite list_lookup_fmap.
  destruct (data X_raw !! y) as [plane|] eqn:Hplane; simpl.
  - apply Hdone; [|done]. apply lookup_lt_Some in Hplane. lia.
  - apply lookup_ge_None. apply lookup_ge_None in Hplane. lia.
Qed.

Lemma drop_concat_uniform (m k : nat) (l : list (list A)) :
  Forall (fun row => length row = m) l ->
  drop (k * m) (concat l) = concat (drop k l).
Proof.
  intros Hl. revert k. induction Hl as [|row l Hrow _ IH]; intros [|k]; try done.
  - cbn [concat drop]. by rewrite drop_nil.
  - cbn [concat drop Nat.mul].
    rewrite drop_app_ge by (rewrite Hrow; lia). rewrite Hrow.
    replace (m + k * m - m) with (k * m) by lia. apply IH.
Qed.

Lemma take_concat_uniform (m k : nat) (l : list (list A)) :
  Forall (fun row => length row = m) l ->
  take (k * m) (concat l) = concat (take k l).
Proof.
  intros Hl. revert k. induction Hl as [|row l Hrow _ IH]; intros [|k]; try done.
  - cbn [concat take]. by rewrite take_nil.
  - cbn [concat take Nat.mul].
    rewrite take_app_ge by (rewrite Hrow; lia). rewrite Hrow.
    replace (m + k * m - m) with (k * m) by lia. by rewrite IH.
Qed.

(** X1: the centre-day slice [[W*n_vars, (W+1)*n_vars)] that
    [generate_ensemble] cuts out of a state vector is, on the state vectors
    [build_state_vectors] builds, the daily aggregate of the centre day:
    the slice of state vector [j] of a year is that year's day [j + W]. *)
Theorem center_slice_of_state_vector (zero : A) (X_raw X_state : ndarray3 A)
    (n_years n_days n_vars days_window y j : nat) (plane : list (list A)) :
  well_shaped X_raw ->
  shape X_raw = (n_years, n_days, n_vars) ->
  build_state_vectors zero X_raw days_window = Ok X_state ->
  data X_raw !! y = Some plane ->
  j < n_days - 2 * days_window ->
  exists state,
    data X_state !! y ≫= (.!! j) = Some state /\
    plane !! (j + days_window)
      = Some (take n_vars (drop (days_window * n_vars) state)).
Proof.
  intros Hwf Hshape Hrun Hplane Hj.
  rewrite (build_state_vectors_eq zero X_raw _ _ _ _ Hwf Hshape) in Hrun by lia.
  injection Hrun as <-. cbn [data].
  exists (window_at days_window plane j). split.
  - rewrite list_lookup_fmap, Hplane. simpl.
    by rewrite list_lookup_fmap, lookup_seq_lt.
  - unfold well_shaped in Hwf. rewrite Hshape in Hwf. destruct Hwf as [_ Hplanes].
    rewrite Forall_forall in Hplanes.
    destruct (Hplanes plane) as [Hlen Hrows];
      [by eapply list_elem_of_lookup_2|].
    unfold window_at.
    assert (Hw : Forall (fun row => length row = n_vars)
                   (take (2 * days_window + 1) (drop j plane)))
      by apply Forall_take, Forall_drop, Hrows.
    rewrite (drop_concat_uniform n_vars _ _ Hw).
    rewrite skipn_firstn_comm, drop_drop.
    replace (2 * days_window + 1 - days_window) with (S days_window) by lia.
    destruct (lookup_lt_is_Some_2 plane (j + days_window)) as [row Hrow]; [lia|].
    rewrite (drop_S _ _ _ Hrow). cbn [take concat].
    rewrite take_app_length'; [done|].
    symmetry. apply (Forall_lookup_1 _ _ _ _ Hrows Hrow).
Qed.

(** X2: a history too short for one full window gives no state vector:
    with fewer than [2W] days [np.zeros] refuses the negative dimension
    ([ValueError]); with exactly [2W] days the call returns a tensor that
    holds no state vector for any year. *)
Theorem build_state_vectors_short_history (zero : A) (X_raw : ndarray3 A)
    (n_years n_days n_vars days_window : nat) :
  well_shaped X_raw ->
  shape X_raw = (n_years, n_days, n_vars) ->
  n_days <= 2 * days_window ->
  match build_state_vectors zero X_raw days_window with
  | Ok X_state =>
      n_days = 2 * days_window /\
      shape X_state = (n_years, 0, (2 * days_window + 1) * n_vars) /\
      data X_state = replicate n_years []
  | Raise e => n_days < 2 * days_window /\ e = ValueError
  end.
Proof.
  intros Hwf Hshape Hshort.
  destruct (decide (n_days = 2 * days_window)) as [Heq|Hne].
  - rewrite (build_state_vectors_eq zero X_raw _ _ _ _ Hwf Hshape) by lia.
    replace (n_days - 2 * days_window) with 0 by lia.
    split; [done|]. split; [done|]. cbn [data seq map].
    unfold well_shaped in Hwf. rewrite Hshape in Hwf. destruct Hwf as [Hlen _].
    rewrite <- Hlen. generalize (data X_raw). clear.
    induction l as [|plane l IH]; [done|]. cbn [map length replicate].
    by rewrite IH.
  - unfold build_state_vectors. rewrite Hshape.
    destruct (Nat.ltb_spec n_days (2 * days_window)) as [?|?]; [done|lia].
Qed.

(** X3: neighbouring state vectors overlap in all but one day: dropping
    the first day of state vector [j] leaves the first [2W] days of state
    vector [j + 1]. *)
Theorem state_vectors_overlap (zero : A) (X_raw X_state : ndarray3 A)
    (n_years n_days n_vars days_window y j : nat) (plane : list (list A)) :
  well_shaped X_raw ->
  shape X_raw = (n_years, n_days, n_vars) ->
  build_state_vectors zero X_raw days_window = Ok X_state ->
  data X_raw !! y = Some plane ->
  j + 1 < n_days - 2 * days_window ->
  exists state next,
    data X_state !! y ≫= (.!! j) = Some state /\
    data X_state !! y ≫= (.!! (j + 1)) = Some next /\
    drop n_vars state = take (2 * days_window * n_vars) next.
Proof.
  intros Hwf Hshape Hrun Hplane Hj.
  rewrite (build_state_vectors_eq zero X_raw _ _ _ _ Hwf Hshape) in Hrun by lia.
  injection Hrun as <-. cbn [data].
  exists (window_at days_window plane j), (window_at days_window plane (j + 1)).
  rewrite list_lookup_fmap, Hplane. cbn [fmap option_fmap option_map mbind option_bind].
  rewrite !list_lookup_fmap, !lookup_seq_lt by lia.
  split; [done|]. split; [done|].
  unfold well_shaped in Hwf. rewrite Hshape in Hwf. destruct Hwf as [_ Hplanes].
  rewrite Forall_forall in Hplanes.
  destruct (Hplanes plane) as [Hlen Hrows]; [by eapply list_elem_of_lookup_2|].
  unfold window_at.
  assert (Hw : forall i n, Forall (fun row => length row = n_vars)
                             (take n (drop i plane)))
    by (intros; apply Forall_take, Forall_drop, Hrows).
  rewrite <- (Nat.mul_1_l n_vars) at 1.
  rewrite (drop_concat_uniform n_vars _ _ (Hw _ _)).
  rewrite (take_concat_uniform n_vars _ _ (Hw _ _)).
  f_equal. rewrite skipn_firstn_comm, drop_drop, take_take.
  f_equal. lia.
Qed.

End StateVectorExtras.

(** ** Weights *)

Section WeightExtras.
Import Np WeatherPredictor.
Local Open Scope R_scope.

Lemma decay_weights_lookup (alpha : R) (xs : list Z) (target : Z) (i : nat) (x : Z) :
  xs !! i = Some x ->
  decay_weights alpha xs target !! i
  = Some (exp (- alpha * IZR (Z.abs (x - target)))
          / sum (map (fun d => exp (- alpha * IZR d))
                     (map (fun x => Z.abs (x - target)) xs))).
Proof.
  intros Hx. unfold decay_weights, div_scalar.
  rewrite !list_lookup_fmap, Hx. reflexivity.
Qed.

Lemma decay_weights_monotone (alpha : R) (xs : list Z) (target : Z)
    (i j : nat) (xi xj : Z) :
  0 <= alpha ->
  xs !! i = Some xi -> xs !! j = Some xj ->
  (Z.abs (xi - target) <= Z.abs (xj - target))%Z ->
  exists wi wj,
    decay_weights alpha xs target !! i = Some wi /\
    decay_weights alpha xs target !! j = Some wj /\
    wj <= wi.
Proof.
  intros Halpha Hi Hj Hdist.
  rewrite (decay_weights_lookup _ _ _ _ _ Hi), (decay_weights_lookup _ _ _ _ _ Hj).
  eexists _, _. split; [reflexivity|]. split; [reflexivity|].
  set (s := sum _).
  assert (Hs : 0 < s).
  { subst s. apply sum_pos.
    - destruct xs; [done|discriminate].
    - rewrite !Forall_map. apply Forall_true. intros x. apply exp_pos. }
  apply IZR_le in Hdist.
  unfold Rdiv. apply Rmult_le_compat_r.
  - apply Rlt_le, Rinv_0_lt_compat, Hs.
  - apply exp_le. nra.
Qed.

(** X4: with non-negative decay rates, and distances for which no exponent
    goes below -700 (so that no [exp] underflows), the weights fall with
    the distance from the target: of two years, the one at most as far from
    the target year has at least the weight of the other (so equal
    distances give equal weights), and likewise for days of the year, whose
    distance is the plain difference of the day numbers. *)
Theorem weights_decay_with_distance (years : list Z) (target_year : Z)
    (doys : list Z) (target_doy : Z) (alpha_year alpha_day : R)
    (W_year W_day : vector) (W_combined : matrix) :
  0 <= alpha_year -> 0 <= alpha_day ->
  Forall (fun y => alpha_year * IZR (Z.abs (y - target_year)) <= 700) years ->
  Forall (fun d => alpha_day * IZR (Z.abs (d - target_doy)) <= 700) doys ->
  compute_weights years target_year doys target_doy alpha_year alpha_day
    = (W_year, W_day, W_combined) ->
  (forall i j yi yj,
     years !! i = Some yi -> years !! j = Some yj ->
     (Z.abs (yi - target_year) <= Z.abs (yj - target_year))%Z ->
     exists wi wj, W_year !! i = Some wi /\ W_year !! j = Some wj /\ wj <= wi) /\
  (forall i j di dj,
     doys !! i = Some di -> doys !! j = Some dj ->
     (Z.abs (di - target_doy) <= Z.abs (dj - target_doy))%Z ->
     exists wi wj, W_day !! i = Some wi /\ W_day !! j = Some wj /\ wj <= wi).
Proof.
  intros Hay Had _ _ [= <- <- _]. split.
  - intros i j yi yj. by apply decay_weights_monotone.
  - intros i j di dj. by apply decay_weights_monotone.
Qed.

Lemma lookup_concat_uniform {A : Type} (m i j : nat) (l : list (list A))
    (row : list A) (x : A) :
  Forall (fun row => length row = m) l ->
  l !! i = Some row -> row !! j = Some x ->
  concat l !! (i * m + j)%nat = Some x.
Proof.
  intros Hl. revert i. induction Hl as [|r l Hr _ IH]; intros i Hi Hj; [done|].
  destruct i as [|i]; cbn [concat].
  - injection Hi as ->. cbn [Nat.mul Nat.add]. by apply lookup_app_l_Some.
  - cbn in Hi. rewrite lookup_app_r by (rewrite Hr; lia).
    rewrite Hr. replace (S i * m + j - m)%nat with (i * m + j)%nat by lia.
    by apply IH.
Qed.

(** X5: the flattened combined weights follow the row order of the
    flattened sample matrix: entry [i * n_days + j] of [W_combined.ravel()]
    is the weight of year [i] times the weight of day [j], and there are
    [n_years * n_days] entries. *)
Theorem combined_weights_flat_order (years : list Z) (target_year : Z)
    (doys : list Z) (target_doy : Z) (alpha_year alpha_day : R)
    (W_year W_day : vector) (W_combined : matrix) :
  compute_weights years target_year doys target_doy alpha_year alpha_day
    = (W_year, W_day, W_combined) ->
  length (ravel W_combined) = (length years * length doys)%nat /\
  forall i j wi wj,
    W_year !! i = Some wi -> W_day !! j = Some wj ->
    ravel W_combined !! (i * length doys + j)%nat = Some (wi * wj).
Proof.
  intros [= <- <- <-].
  set (Wy := decay_weights alpha_year years target_year).
  set (Wd := decay_weights alpha_day doys target_doy).
  assert (Hrows : Forall (fun row => length row = length doys) (outer Wy Wd)).
  { unfold outer. rewrite Forall_map. apply Forall_true. intros x.
    rewrite length_map. apply decay_weights_length. }
  split.
  - unfold ravel. rewrite (length_concat_uniform _ _ Hrows).
    unfold outer. rewrite length_map. subst Wy.
    by rewrite decay_weights_length.
  - intros i j wi wj Hi Hj. unfold ravel.
    apply (lookup_concat_uniform _ _ _ _ (map (Rmult wi) Wd) _ Hrows).
    + unfold outer. by rewrite list_lookup_fmap, Hi.
    + by rewrite list_lookup_fmap, Hj.
Qed.

End WeightExtras.

(** ** The eigenbasis *)

Section PcaExtras.
Import Np WeatherPredictor.
Local Open Scope R_scope.

Lemma pca_eps_reg_pos (total_var : R) : 0 < pca_eps_reg total_var.
Proof. unfold pca_eps_reg. case_decide; lra. Qed.


(** X7: the matrix handed to the symmetric eigen-solver is a square
    [n_features] x [n_features] matrix and is symmetric, entry by entry. *)
Theorem covariance_symmetric (X : matrix) (weights : vector) :
  let d := length (hd [] X) in
  let Sigma := pca_covariance X weights in
  is_matrix d d Sigma /\
  transpose d Sigma = Sigma /\
  forall a b, (a < d)%nat -> (b < d)%nat ->
    nth b (nth a Sigma []) 0 = nth a (nth b Sigma []) 0.
Proof.
  intros d Sigma. subst Sigma. unfold pca_covariance. fold d.
  rewrite pca_sigma_entries.
  set (E := sigma_entry _ _).
  assert (Hentry : forall a b, (a < d)%nat -> (b < d)%nat ->
            nth b (nth a (map (fun a => map (fun b => E a b) (seq 0 d)) (seq 0 d)) []) 0
            = E a b).
  { intros a b Ha Hb.
    erewrite (nth_lookup_Some _ a []);
      [|rewrite list_lookup_fmap, lookup_seq_lt by done; reflexivity].
    by apply nth_map_seq. }
  split; [|split].
  - split; [by rewrite length_map, length_seq|].
    rewrite Forall_map. apply Forall_true. intros a. cbn beta.
    by rewrite length_map, length_seq.
  - unfold transpose. apply map_seq_ext. intros b Hb.
    unfold col. rewrite map_map. apply map_seq_ext. intros a Ha.
    rewrite nth_map_seq by done. subst E. apply sigma_entry_sym.
  - intros a b Ha Hb. rewrite !Hentry by done. subst E. apply sigma_entry_sym.
Qed.

End PcaExtras.

(** ** The sampler and the clipping *)

Section SamplerExtras.
Import Np WeatherPredictor.
Local Open Scope R_scope.

Lemma clip_value_idempotent (vi : nat) (x : R) :
  clip_value vi (clip_value vi x) = clip_value vi x.
Proof.
  unfold clip_value.
  destruct (List.find _ clip_dict) as [[? [[lo|] [hi|]]]|]; unfold clip;
    try reflexivity;
    unfold Rmax, Rmin; repeat destruct (Rle_dec _ _); try reflexivity; lra.
Qed.

Lemma clip_value_beyond (vi : nat) (x : R) : (7 <= vi)%nat -> clip_value vi x = x.
Proof.
  intros Hvi. do 7 (destruct vi as [|vi]; [lia|]). reflexivity.
Qed.

(** X9: [apply_constraints] needs all seven columns, rows or no rows: with
    fewer it fails with [IndexError]; with seven or more it returns, keeps
    the number of rows and the length of every row, and leaves every column
    from the eighth on as it was. *)
Theorem apply_constraints_columns (n_cols : nat) (samples : matrix) :
  match apply_constraints n_cols samples with
  | Ok clipped =>
      (7 <= n_cols)%nat /\
      length clipped = length samples /\
      forall i row, samples !! i = Some row ->
        exists row', clipped !! i = Some row' /\
          length row' = length row /\
          forall vi, (7 <= vi)%nat -> row' !! vi = row !! vi
  | Raise e => (n_cols < 7)%nat /\ e = IndexError
  end.
Proof.
  rewrite apply_constraints_spec.
  destruct (Nat.leb_spec 7 n_cols) as [Hn|Hn]; [|done].
  split; [done|]. split; [by rewrite length_map|].
  intros i row Hrow. exists (imap clip_value row).
  rewrite list_lookup_fmap, Hrow. split; [done|].
  split; [by rewrite length_imap|].
  intros vi Hvi. rewrite list_lookup_imap.
  destruct (row !! vi) as [x|]; [|done]. cbn. by rewrite clip_value_beyond.
Qed.

(** X10: clipping is idempotent: applying [apply_constraints] to its own
    result changes nothing. *)
Theorem apply_constraints_idempotent (n_cols : nat) (samples clipped : matrix) :
  apply_constraints n_cols samples = Ok clipped ->
  apply_constraints n_cols clipped = Ok clipped.
Proof.
  rewrite !apply_constraints_spec.
  destruct (7 <=? n_cols)%nat; [|discriminate].
  intros [= <-]. f_equal. rewrite map_map. apply map_ext. intros row.
  apply list_eq. intros vi. rewrite !list_lookup_imap.
  destruct (row !! vi) as [x|]; [|done]. cbn. by rewrite clip_value_idempotent.
Qed.

Section WithGenerator.

Context {rng_state : Type} (gauss : rng_state -> R * rng_state).

(** The state after [n] draws. *)
Lemma normal_row_state (pc_std : vector) (st : rng_state) :
  (normal_row rng_state gauss pc_std st).2
  = Nat.iter (length pc_std) (fun s => (gauss s).2) st.
Proof.
  revert st. induction pc_std as [|s pc_std IH]; intros st; [reflexivity|].
  cbn [normal_row length]. destruct (gauss st) as [g st1] eqn:Hg.
  specialize (IH st1). destruct (normal_row _ _ _ st1) as [row st2].
  cbn [snd] in *. rewrite IH, Nat.iter_succ_r, Hg. reflexivity.
Qed.

Lemma normal_rows_state (N_mc : nat) (pc_std : vector) (st : rng_state) :
  (normal_rows rng_state gauss N_mc pc_std st).2
  = Nat.iter (N_mc * length pc_std) (fun s => (gauss s).2) st.
Proof.
  revert st. induction N_mc as [|n IH]; intros st; [reflexivity|].
  cbn [normal_rows]. pose proof (normal_row_state pc_std st) as Hrow.
  destruct (normal_row _ _ _ st) as [row st1].
  specialize (IH st1). destruct (normal_rows _ _ _ _ st1) as [rows st2].
  cbn [snd] in *. rewrite IH, Hrow.
  replace (S n * length pc_std)%nat with (n * length pc_std + length pc_std)%nat by lia.
  by rewrite Nat.iter_add.
Qed.

(** X11: [generate_ensemble] draws exactly [N_mc * n_components] normal
    deviates from the generator, also when the clipping then fails; a
    matrix of draws has [N_mc] rows of [n_components] values. *)
Theorem generate_ensemble_draws (eigvals_k : vector) (eigvecs_k : matrix)
    (mu : vector) (n_vars days_window N_mc : nat) (st : rng_state) :
  (generate_ensemble rng_state gauss eigvals_k eigvecs_k mu
     n_vars days_window N_mc st).2
  = Nat.iter (N_mc * length eigvals_k) (fun s => (gauss s).2) st /\
  is_matrix N_mc (length eigvals_k)
    (normal_rows rng_state gauss N_mc (map sqrt eigvals_k) st).1.
Proof.
  split.
  - unfold generate_ensemble.
    pose proof (normal_rows_state N_mc (map sqrt eigvals_k) st) as Hst.
    destruct (normal_rows _ _ _ _ _) as [pc st']. cbn [snd] in *.
    by rewrite Hst, length_map.
  - split; [apply normal_rows_length|].
    generalize st. induction N_mc as [|n IH]; intros st0; cbn [normal_rows].
    + constructor.
    + assert (Hrow : forall pc_std s,
                length (normal_row rng_state gauss pc_std s).1 = length pc_std).
      { clear. induction pc_std as [|x pc_std IH]; intros s; [done|].
        cbn [normal_row]. destruct (gauss s) as [g s1].
        specialize (IH s1). destruct (normal_row _ _ _ s1) as [row s2].
        cbn in *. by rewrite IH. }
      specialize (Hrow (map sqrt eigvals_k) st0).
      destruct (normal_row _ _ _ st0) as [row st1].
      specialize (IH st1). destruct (normal_rows _ _ _ _ st1) as [rows st2].
      cbn [fst] in *. constructor; [by rewrite Hrow, length_map|exact IH].
Qed.

End WithGenerator.

End SamplerExtras.

(** ** Alignment and imputation *)

Section AlignmentExtras.
Import Np Xr WeatherPredictor.
Local Open Scope R_scope.

Lemma sorted_nodup_strict (l : list Z) :
  StronglySorted Z.le l -> NoDup l -> StronglySorted Z.lt l.
Proof.
  induction 1 as [|x l _ IH Hx]; intros Hnd; [constructor|].
  apply NoDup_cons in Hnd as [Hnotin Hnd].
  constructor; [by apply IH|].
  rewrite Forall_forall in Hx |- *. intros y Hy.
  specialize (Hx y Hy). assert (x <> y) by (intros ->; done). lia.
Qed.

(** X12: a returning [prepare_daily_data] hands back the year coordinate
    unchanged (at least two years), a strictly ascending list of days of the
    year, and a rectangular tensor with one plane per year, one row per
    listed day and one value per variable of [parameters]. *)
Theorem prepare_daily_data_rectangular (ds : dataset) (days_window : nat)
    (X_raw : ndarray3 (option R)) (common_doys years : list Z) :
  prepare_daily_data ds days_window = Ok (X_raw, common_doys, years) ->
  years = ds_year ds /\ (2 <= length years)%nat /\
  StronglySorted Z.lt common_doys /\
  shape X_raw = (length years, length common_doys, 7%nat) /\
  length (data X_raw) = length years /\
  Forall (fun plane => length plane = length common_doys /\
                       Forall (fun row => length row = 7%nat) plane)
         (data X_raw).
Proof.
  intros Hrun.
  destruct (prepare_daily_data_inv _ _ _ _ _ Hrun)
    as (Hyears & Htwo & Hcommon & Hshape & Hwf).
  unfold well_shaped in Hwf. rewrite Hshape in Hwf. destruct Hwf as [Hlen Hplanes].
  split; [done|]. split; [done|]. split; [|done].
  rewrite Hcommon. apply sorted_nodup_strict.
  - apply StronglySorted_merge_sort.
    + intros x y z. apply Z.le_trans.
    + intros x y. lia.
  - rewrite merge_sort_Permutation. apply NoDup_elements.
Qed.

Lemma nanmean_None (l : list (option R)) :
  nanmean l = None -> Forall (fun c => c = None) l.
Proof.
  unfold nanmean, mean. intros H.
  induction l as [|[x|] l IH]; [constructor| |].
  - cbn in H. destruct (omap _ l); discriminate.
  - constructor; [done|]. apply IH. exact H.
Qed.

(** What a returning call has put in the tensor: the daily means, NaN
    replaced by the mean of the variable. *)
Lemma prepare_daily_data_cells (ds : dataset) (days_window : nat)
    (X_raw : ndarray3 (option R)) (common_doys years : list Z) :
  prepare_daily_data ds days_window = Ok (X_raw, common_doys, years) ->
  exists daily : list (list (list (option R))),
    Forall (Forall (fun cells => length cells = length parameters)) daily /\
    data X_raw
    = map (map (fun cells =>
             zip_with nan_to_num
               (map (fun vi => nanmean
                       (mjoin (map (map (fun cells => mjoin (cells !! vi))) daily)))
                    (seq 0 (length parameters)))
               cells)) daily.
Proof.
  unfold prepare_daily_data.
  destruct (decide (length (ds_time ds) = 1%nat)); [discriminate|].
  destruct (decide (length (ds_year ds) = 1%nat)) as [|Hone]; [discriminate|].
  destruct (set_intersection _) as [common|e]; cbn [mbind outcome_bind];
    [|discriminate].
  destruct (decide (ds_time ds = [])); [discriminate|].
  destruct (mapM _ (seq 0 (length (ds_year ds)))) as [daily|e] eqn:Hdaily;
    cbn [mbind outcome_bind]; [|discriminate].
  intros [= <- <- <-]. exists daily. split; [|reflexivity].
  apply mapM_Ok_Forall2 in Hdaily.
  eapply Forall2_Forall_r; [exact Hdaily|].
  apply Forall_true. intros i plane Hplane. cbn beta in *.
  destruct (mapM (sel_year ds i) parameters) as [rows|e] eqn:Hrows;
    cbn [mbind outcome_bind] in Hplane; [|discriminate].
  injection Hplane as <-.
  apply mapM_Ok_Forall2, Forall2_length in Hrows.
  rewrite Forall_map. apply Forall_true. intros g. cbn beta.
  by rewrite length_map.
Qed.

(** X13: after the imputation a variable is NaN either nowhere or
    everywhere: if one cell of a variable is NaN in the returned tensor,
    every cell of that variable is (no daily mean of it was a number). *)
Theorem imputation_all_or_nothing (ds : dataset) (days_window : nat)
    (X_raw : ndarray3 (option R)) (common_doys years : list Z) (vi : nat) :
  prepare_daily_data ds days_window = Ok (X_raw, common_doys, years) ->
  (vi < 7)%nat ->
  Forall (Forall (fun row => exists x, row !! vi = Some (Some x))) (data X_raw) \/
  Forall (Forall (fun row => row !! vi = Some None)) (data X_raw).
Proof.
  intros Hrun Hvi.
  destruct (prepare_daily_data_cells _ _ _ _ _ Hrun) as (daily & Hlen & ->).
  set (column := fun vi => mjoin (map (map (fun cells : list (option R) =>
                                              mjoin (cells !! vi))) daily)).
  assert (Hcell : forall cells, length cells = length parameters ->
            zip_with nan_to_num
              (map (fun vi => nanmean (column vi)) (seq 0 (length parameters)))
              cells !! vi
            = nan_to_num (nanmean (column vi)) <$> cells !! vi).
  { intros cells Hc. rewrite lookup_zip_with, list_lookup_fmap.
    rewrite lookup_seq_lt by (cbn; lia). cbn.
    by destruct (cells !! vi). }
  destruct (nanmean (column vi)) as [m|] eqn:Hmean.
  - left. rewrite Forall_map.
    eapply Forall_impl; [exact Hlen|]. intros plane Hplane. cbn beta.
    rewrite Forall_map.
    eapply Forall_impl; [exact Hplane|]. intros cells Hc. cbn beta.
    pose proof (Hcell cells Hc) as Hcell'. unfold column in Hcell'.
    cbn beta in Hcell' |- *. rewrite Hcell'.
    destruct (lookup_lt_is_Some_2 cells vi) as [c Hcv]; [rewrite Hc; cbn; lia|].
    rewrite Hcv. destruct c as [x|]; cbn; eauto.
  - right. apply nanmean_None in Hmean.
    rewrite Forall_map. apply Forall_forall. intros plane Hplane_in.
    rewrite Forall_map. apply Forall_forall. intros cells Hcells_in.
    rewrite Forall_forall in Hlen.
    pose proof (Hlen plane Hplane_in) as Hp. rewrite Forall_forall in Hp.
    pose proof (Hp cells Hcells_in) as Hc.
    pose proof (Hcell cells Hc) as Hcell'. unfold column in Hcell'.
    cbn beta in Hcell' |- *. rewrite Hcell'.
    destruct (lookup_lt_is_Some_2 cells vi) as [c Hcv]; [rewrite Hc; cbn; lia|].
    rewrite Hcv. cbn. f_equal.
    assert (Hin : c ∈ column vi).
    { subst column. cbn beta. apply list_elem_of_join.
      exists (map (fun cells : list (option R) => mjoin (cells !! vi)) plane).
      split; [|by apply list_elem_of_fmap_2].
      apply list_elem_of_fmap. exists cells. by rewrite Hcv. }
    rewrite Forall_forall in Hmean. by rewrite (Hmean c Hin).
Qed.

End AlignmentExtras.

(** ** The driver: [fetch_multi_year_data] and [predict] *)

Section DriverExtras.
Import Np Xr WeatherPredictor.
Local Open Scope R_scope.

Context (eigh : matrix -> vector * matrix).
Context {rng_state : Type} (seed_state : Z -> rng_state)
        (gauss : rng_state -> R * rng_state).
Context (fetch_power_point : R -> R -> date -> nat -> option hourly).

Lemma datetime_Ok (y m d : Z) (dt : date) :
  datetime y m d = Ok dt -> dt = Date y m d.
Proof. unfold datetime. case_match; congruence. Qed.

(** The requests [fetch_multi_year_data] submits, when every date exists. *)
Lemma fetch_tasks (lat lon : R) (m d : Z) (W : nat) (l : list Z)
    (tasks : list (Z * option hourly)) :
  mapM (fun year =>
          base_date ← datetime year m d;
          start_dt ← add_days base_date (- Z.of_nat W);
          end_dt ← add_days base_date (Z.of_nat W);
          Ok (year, fetch_power_point lat lon base_date W)) l = Ok tasks ->
  tasks = map (fun y => (y, fetch_power_point lat lon (Date y m d) W)) l /\
  Forall (fun y => window_ok y m d W) l.
Proof.
  intros H. apply mapM_Ok_Forall2 in H.
  induction H as [|y t l tasks Hy _ IH]; [done|].
  destruct (datetime y m d) as [dt|e] eqn:Hdt;
    cbn [mbind outcome_bind] in Hy; [|discriminate].
  apply datetime_Ok in Hdt as Hdt'. subst dt. unfold add_days in Hy.
  destruct (decide (in_calendar (Date y m d) (- Z.of_nat W))) as [Hlo|];
    cbn [mbind outcome_bind] in Hy; [|discriminate].
  destruct (decide (in_calendar (Date y m d) (Z.of_nat W))) as [Hhi|];
    cbn [mbind outcome_bind] in Hy; [|discriminate].
  injection Hy as <-.
  destruct IH as [-> IH]. split; [done|]. by constructor.
Qed.

Lemma window_ok_datetime (m d : Z) (W : nat) (l : list Z) :
  Forall (fun y => window_ok y m d W) l ->
  Forall (fun y => datetime y m d = Ok (Date y m d)) l.
Proof. intros H. eapply Forall_impl; [exact H|]. by intros y [? _]. Qed.

Lemma answered_years (f : Z -> option hourly) (l : list Z) :
  map fst (omap (fun '(year, ds) => (fun h => (year, h)) <$> ds)
                (map (fun y => (y, f y)) l))
  = filter (fun y => is_Some (f y)) l.
Proof.
  induction l as [|y l IH]; [done|].
  rewrite filter_cons, <- IH. simpl.
  destruct (f y) as [h|]; simpl.
  - reflexivity.
  - reflexivity.
Qed.

Lemma concat_years (names : list string) (years_ds : list (Z * hourly))
    (ds : dataset) :
  concat names years_ds = Ok ds -> ds_year ds = map fst years_ds.
Proof.
  unfold concat. case_decide; [discriminate|]. by intros [= <-].
Qed.

Lemma concat_returns (names : list string) (years_ds : list (Z * hourly)) :
  years_ds <> [] -> exists ds, concat names years_ds = Ok ds.
Proof. intros Hne. unfold concat. case_decide; [done|]. eauto. Qed.

Lemma year_range_elem (end_year years_back y : Z) :
  (end_year - years_back < y <= end_year)%Z -> y ∈ year_range end_year years_back.
Proof.
  intros Hy. unfold year_range. apply list_elem_of_fmap.
  exists (Z.to_nat (y - (end_year - years_back + 1))). split; [lia|].
  apply elem_of_seq. lia.
Qed.

Lemma leap_year_pred (y : Z) : is_leap y = true -> is_leap (y - 1) = false.
Proof.
  unfold is_leap.
  destruct (Z.eqb_spec (y mod 4) 0), (Z.eqb_spec (y mod 100) 0),
    (Z.eqb_spec (y mod 400) 0), (Z.eqb_spec ((y - 1) mod 4) 0),
    (Z.eqb_spec ((y - 1) mod 100) 0), (Z.eqb_spec ((y - 1) mod 400) 0);
    cbn; try done; intros _; exfalso; Z.div_mod_to_equations; lia.
Qed.

Lemma datetime_leap_day (y : Z) :
  is_leap y = false -> datetime y 2 29 = Raise ValueError.
Proof.
  intros H. unfold datetime, days_in_month. rewrite H. cbn.
  by rewrite !andb_false_r.
Qed.


(** What a returning [predict] has gone through. *)
Lemma predict_inv (lat lon : R) (target : date) (years_back : Z)
    (days_window N_mc : nat) (random_seed : Z) (include_current_year : bool)
    (global : rng_state) (res : results) :
  (predict eigh rng_state seed_state gauss fetch_power_point
     lat lon target years_back days_window N_mc random_seed
     include_current_year global).1 = Ok res ->
  let end_year := if include_current_year then year target
                  else (year target - 1)%Z in
  (0 <= random_seed < 2 ^ 32)%Z /\
  exists ds X_raw common_doys years X_state X_all eigvals_k eigvecs_k mu k samples,
    (fetch_multi_year_data fetch_power_point lat lon (month target) (day target)
       end_year years_back days_window = Ok (Some ds)) /\
    (prepare_daily_data ds days_window = Ok (X_raw, common_doys, years)) /\
    (build_state_vectors (Some 0) X_raw days_window = Ok X_state) /\
    (all_finite (mjoin (data X_state)) = Some X_all) /\
    (weighted_pca eigh X_all
       (ravel (outer (decay_weights alpha_year_default years (year target))
                     (decay_weights alpha_day_default
                        (valid_slice days_window common_doys) (tm_yday target))))
       var_threshold_default = Ok (eigvals_k, eigvecs_k, mu, k)) /\
    ((generate_ensemble rng_state gauss eigvals_k eigvecs_k mu
        (length parameters) days_window N_mc (seed_state random_seed)).1
     = Ok samples) /\
    samples <> [] /\
    res = summarize lat lon target N_mc k samples.
Proof.
  intros Hres end_year. revert Hres. unfold predict, predict_ensemble.
  destruct (decide (0 <= random_seed < 2 ^ 32)%Z) as [Hseed|]; [|discriminate].
  fold end_year.
  destruct (fetch_multi_year_data _ _ _ _ _ _ _ _) as [[ds|]|e] eqn:Hfetch;
    cbn [mbind outcome_bind]; [|discriminate..].
  destruct (prepare_daily_data ds days_window)
    as [[[X_raw common_doys] years]|e] eqn:Hprep;
    cbn [mbind outcome_bind]; [|discriminate].
  destruct (build_state_vectors (Some 0) X_raw days_window) as [X_state|e]
    eqn:Hbuild; cbn [mbind outcome_bind]; [|discriminate].
  unfold compute_weights.
  destruct (all_finite (mjoin (data X_state))) as [X_all|] eqn:Hfinite.
  - destruct (weighted_pca eigh X_all _ _) as [[[[eigvals_k eigvecs_k] mu] k]|e]
      eqn:Hpca; [|discriminate].
    destruct (generate_ensemble _ _ _ _ _ _ _ _ _) as [[samples|e] st] eqn:Hgen;
      cbn [mbind outcome_bind fst]; [|discriminate].
    destruct samples as [|row samples]; [discriminate|].
    intros [= <-]. split; [done|].
    exists ds, X_raw, common_doys, years, X_state, X_all, eigvals_k, eigvecs_k,
      mu, k, (row :: samples).
    rewrite Hgen. done.
  - destruct (average_axis0 _ _ _); cbn [mbind outcome_bind]; discriminate.
Qed.


Lemma mapM_Raise_Exists {A B : Type} (f : A -> outcome B) (l : list A) (e : exn) :
  mapM f l = Raise e -> Exists (fun x => f x = Raise e) l.
Proof.
  induction l as [|x l IH]; cbn [mapM]; [discriminate|].
  destruct (f x) as [y|e'] eqn:Hx; cbn [mbind outcome_bind].
  - destruct (mapM f l) as [ys|e'']; cbn [mbind outcome_bind]; [discriminate|].
    intros [= ->]. apply Exists_cons_tl. by apply IH.
  - intros [= ->]. by apply Exists_cons_hd.
Qed.

(** The outcomes of [fetch_multi_year_data]. *)
Lemma fetch_multi_year_data_cases (lat lon : R)
    (month day end_year years_back : Z) (days_window : nat) :
  let requested := year_range end_year years_back in
  let answered :=
    filter (fun y => is_Some (fetch_power_point lat lon (Date y month day)
                                days_window)) requested in
  match fetch_multi_year_data fetch_power_point lat lon month day end_year
          years_back days_window with
  | Ok (Some ds) =>
      ds_year ds = answered /\ answered <> [] /\
      Forall (fun y => window_ok y month day days_window) requested
  | Ok None =>
      answered = [] /\
      Forall (fun y => window_ok y month day days_window) requested
  | Raise e =>
      (e = ValueError /\
       Exists (fun y => datetime y month day = Raise ValueError) requested) \/
      (e = OverflowError /\
       Exists (fun y => datetime y month day = Ok (Date y month day) /\
                        ~ (in_calendar (Date y month day) (- Z.of_nat days_window) /\
                           in_calendar (Date y month day) (Z.of_nat days_window)))
              requested)
  end.
Proof.
  intros requested answered. unfold fetch_multi_year_data. fold requested.
  destruct (mapM _ requested) as [tasks|e] eqn:Htasks; cbn [mbind outcome_bind].
  - apply fetch_tasks in Htasks as [-> Hvalid].
    pose proof (answered_years
                  (fun y => fetch_power_point lat lon (Date y month day) days_window)
                  requested) as Hans.
    fold answered in Hans.
    destruct (omap _ _) as [|yh yds] eqn:Hall.
    { split; [|exact Hvalid]. unfold answered. by rewrite <- Hans. }
    assert (Hne : answered <> []) by (unfold answered; by rewrite <- Hans).
    destruct (concat_returns parameters (yh :: yds)) as [ds Hcat]; [done|].
    rewrite Hcat. cbn [mbind outcome_bind].
    apply concat_years in Hcat. split; [|by split]. rewrite Hcat. exact Hans.
  - apply mapM_Raise_Exists in Htasks.
    apply Exists_exists in Htasks as (y & Hin & Hy). cbn beta in Hy.
    destruct (datetime y month day) as [dt|e'] eqn:Hdt;
      cbn [mbind outcome_bind] in Hy.
    + right. apply datetime_Ok in Hdt as Hdt'. subst dt. unfold add_days in Hy.
      assert (e = OverflowError /\
              ~ (in_calendar (Date y month day) (- Z.of_nat days_window) /\
                 in_calendar (Date y month day) (Z.of_nat days_window)))
        as [-> Hout].
      { destruct (decide (in_calendar (Date y month day) (- Z.of_nat days_window)));
          cbn [mbind outcome_bind] in Hy;
          [|split; [congruence|tauto]].
        destruct (decide (in_calendar (Date y month day) (Z.of_nat days_window)));
          cbn [mbind outcome_bind] in Hy; [discriminate|].
        split; [congruence|tauto]. }
      split; [done|]. apply Exists_exists. exists y. by repeat split.
    + left. injection Hy as ->.
      assert (e = ValueError) as ->
        by (unfold datetime in Hdt; case_match; congruence).
      split; [done|]. apply Exists_exists. by exists y.
Qed.

(** X14: [fetch_multi_year_data] on every input.  When the date exists in
    every requested year and every window lies within the calendar, the
    function returns: [None] when no request was answered, and otherwise a
    dataset whose [year] coordinate lists exactly the answered years, in
    ascending order of request.  Otherwise it raises: [ValueError] for a date
    that does not exist, [OverflowError] for a window that leaves the
    calendar. *)
Theorem fetch_multi_year_data_years (lat lon : R)
    (month day end_year years_back : Z) (days_window : nat) :
  let requested := year_range end_year years_back in
  let answered :=
    filter (fun y => is_Some (fetch_power_point lat lon (Date y month day)
                                days_window)) requested in
  match fetch_multi_year_data fetch_power_point lat lon month day end_year
          years_back days_window with
  | Ok (Some ds) =>
      ds_year ds = answered /\ answered <> [] /\
      Forall (fun y => window_ok y month day days_window) requested
  | Ok None =>
      answered = [] /\
      Forall (fun y => window_ok y month day days_window) requested
  | Raise e =>
      (e = ValueError /\
       Exists (fun y => datetime y month day = Raise ValueError) requested) \/
      (e = OverflowError /\
       Exists (fun y => datetime y month day = Ok (Date y month day) /\
                        ~ (in_calendar (Date y month day) (- Z.of_nat days_window) /\
                           in_calendar (Date y month day) (Z.of_nat days_window)))
              requested)
  end.
Proof.
  exact (fetch_multi_year_data_cases lat lon month day end_year years_back
           days_window).
Qed.

(** X15: a forecast for 29 February never returns.  The requests are made
    for the same month and day in each of the previous years, the year
    before a leap year is not one, and [datetime] refuses the date. *)
Theorem predict_leap_day_target (lat lon : R) (target : date) (years_back : Z)
    (days_window N_mc : nat) (random_seed : Z) (include_current_year : bool)
    (global : rng_state) :
  month target = 2%Z -> day target = 29%Z -> is_leap (year target) = true ->
  ((if include_current_year then 2 else 1) <= years_back)%Z ->
  exists e,
    (predict eigh rng_state seed_state gauss fetch_power_point
       lat lon target years_back days_window N_mc random_seed
       include_current_year global).1 = Raise e.
Proof.
  intros Hmonth Hday Hleap Hback.
  destruct (predict _ _ _ _ _ _ _ _ _ _ _ _ _ _).1 as [res|e] eqn:Hres; [|eauto].
  exfalso. apply predict_inv in Hres as (_ & ds & ? & ? & ? & ? & ? & ? & ? & ? & ?
                                           & ? & Hfetch & _).
  unfold fetch_multi_year_data in Hfetch.
  destruct (mapM _ _) as [tasks|e] eqn:Htasks; [|discriminate].
  apply fetch_tasks in Htasks as [_ Hvalid].
  apply window_ok_datetime in Hvalid.
  rewrite Forall_forall in Hvalid.
  assert (Hin : (year target - 1)%Z
                ∈ year_range (if include_current_year then year target
                              else (year target - 1)%Z) years_back).
  { apply year_range_elem. destruct include_current_year; lia. }
  specialize (Hvalid _ Hin). rewrite Hmonth, Hday in Hvalid.
  rewrite datetime_leap_day in Hvalid by (by apply leap_year_pred).
  discriminate.
Qed.

Lemma ravel_outer_nil (u : vector) : ravel (outer u []) = [].
Proof. unfold ravel, outer. induction u as [|x u IH]; [done|]. exact IH. Qed.

(** X16: with [days_window = 0] the slice [common_doys[0:-0]] is empty, so
    there are no weights, and [predict] never returns: [np.average] refuses
    them. *)
Theorem predict_zero_window (lat lon : R) (target : date) (years_back : Z)
    (N_mc : nat) (random_seed : Z) (include_current_year : bool)
    (global : rng_state) :
  exists e,
    (predict eigh rng_state seed_state gauss fetch_power_point
       lat lon target years_back 0 N_mc random_seed
       include_current_year global).1 = Raise e.
Proof.
  destruct (predict _ _ _ _ _ _ _ _ _ _ _ _ _ _).1 as [res|e] eqn:Hres; [|eauto].
  exfalso. apply predict_inv in Hres as (_ & ds & ? & ? & ? & ? & ? & ? & ? & ? & ?
                                           & ? & _ & _ & _ & _ & Hpca & _).
  apply weighted_pca_inv in Hpca as (_ & Hsum & _).
  apply Hsum. cbn [valid_slice].
  unfold decay_weights at 2. cbn [map]. unfold div_scalar at 1. cbn [map].
  by rewrite ravel_outer_nil.
Qed.


Lemma all_finite_Some (X : list (list (option R))) :
  Forall (Forall is_Some) X ->
  all_finite X = Some (map (map (default 0)) X).
Proof.
  unfold all_finite.
  assert (Hrow : forall row : list (option R), Forall is_Some row ->
            mapM (fun x : option R => x) row = Some (map (default 0) row)).
  { induction 1 as [|x row [v ->] _ IH]; [done|].
    cbn [mapM map]. rewrite IH. reflexivity. }
  induction 1 as [|row X Hr _ IH]; [done|].
  cbn [mapM map]. rewrite (Hrow row Hr), IH. reflexivity.
Qed.

Lemma length_join_uniform {A : Type} (m : nat) (l : list (list A)) :
  Forall (fun row => length row = m) l -> length (mjoin l) = (length l * m)%nat.
Proof.
  induction 1 as [|row l Hrow _ IH]; [done|].
  change (mjoin (row :: l)) with (row ++ mjoin l).
  rewrite length_app, Hrow, IH. simpl. lia.
Qed.

Lemma valid_slice_length (days_window : nat) (common_doys : list Z) :
  (1 <= days_window)%nat ->
  length (valid_slice days_window common_doys)
  = (length common_doys - 2 * days_window)%nat.
Proof.
  intros HW. unfold valid_slice. destruct days_window as [|W]; [lia|].
  rewrite length_take, length_drop. lia.
Qed.

Lemma hd_width (X : list (list (option R))) (d : nat) :
  X <> [] -> Forall (fun row => length row = d) X ->
  length (hd [] (map (map (default 0)) X)) = d.
Proof.
  intros Hne HX. destruct HX as [|row X Hrow _]; [done|].
  cbn [map hd]. by rewrite length_map.
Qed.

Lemma pca_covariance_length (X : matrix) (weights : vector) :
  length (pca_covariance X weights) = length (hd [] X).
Proof.
  unfold pca_covariance. cbv zeta. rewrite pca_sigma_entries.
  by rewrite length_map, length_seq.
Qed.

Lemma pca_sorted_rows (S : matrix) :
  length (pca_sorted eigh S).2 = length (eigh S).2.
Proof.
  unfold pca_sorted. destruct (eigh S) as [vals vecs]. cbn [snd].
  by rewrite length_map.
Qed.

(** The stages of [predict] on a history that is long enough and in which
    every variable has a value, for an eigen-solver that returns one row
    of eigenvector entries per row of its argument. *)
Lemma predict_run (lat lon : R) (target : date) (years_back : Z)
    (days_window N_mc : nat) (random_seed : Z) (include_current_year : bool)
    (global : rng_state) (ds : dataset) (X_raw : ndarray3 (option R))
    (common_doys years : list Z) :
  (forall S : matrix, length (eigh S).2 = length S) ->
  (0 <= random_seed < 2 ^ 32)%Z ->
  fetch_multi_year_data fetch_power_point lat lon (month target) (day target)
    (if include_current_year then year target else (year target - 1)%Z)
    years_back days_window = Ok (Some ds) ->
  prepare_daily_data ds days_window = Ok (X_raw, common_doys, years) ->
  Forall (Forall (Forall is_Some)) (data X_raw) ->
  (1 <= days_window)%nat -> (2 * days_window < length common_doys)%nat ->
  (1 <= N_mc)%nat ->
  exists samples k,
    (predict eigh rng_state seed_state gauss fetch_power_point
       lat lon target years_back days_window N_mc random_seed
       include_current_year global).1
    = Ok (summarize lat lon target N_mc k samples) /\
    is_matrix N_mc 7 samples /\ (1 <= k)%nat.
Proof.
  intros Heigh Hseed Hfetch Hprep Hnum HW Hdays Hmc.
  destruct (prepare_daily_data_inv _ _ _ _ _ Hprep)
    as (_ & Htwo & _ & Hshape & Hwf).
  pose proof (build_state_vectors_eq (Some 0) X_raw _ _ _ days_window Hwf Hshape
                ltac:(lia)) as Hbuild.
  unfold well_shaped in Hwf. rewrite Hshape in Hwf. destruct Hwf as [Hplanes Hrows].
  set (n_valid := (length common_doys - 2 * days_window)%nat) in *.
  set (d := ((2 * days_window + 1) * length parameters)%nat) in *.
  set (X_nan := mjoin (map (fun plane => map (window_at days_window plane)
                                           (seq 0 n_valid)) (data X_raw))).
  assert (Hfin : Forall (Forall is_Some) X_nan).
  { subst X_nan. apply Forall_join. rewrite Forall_map.
    eapply Forall_impl; [exact Hnum|]. intros plane Hplane. cbn beta.
    rewrite Forall_map. apply Forall_true. intros j. cbn beta.
    unfold window_at. apply Forall_concat. by apply Forall_take, Forall_drop. }
  assert (Hwidth : Forall (fun row => length row = d) X_nan).
  { subst X_nan. apply Forall_join. rewrite Forall_map.
    eapply Forall_impl; [exact Hrows|]. intros plane [Hlen Hplane]. cbn beta.
    rewrite Forall_forall. intros row Hrow.
    apply list_elem_of_fmap in Hrow as (j & -> & Hj). apply elem_of_seq in Hj.
    unfold window_at.
    rewrite (length_concat_uniform (length parameters))
      by (by apply Forall_take, Forall_drop).
    rewrite length_take, length_drop, Hlen. subst d n_valid.
    f_equal. lia. }
  assert (Hcount : length X_nan = (length years * n_valid)%nat).
  { subst X_nan. rewrite (length_join_uniform n_valid).
    - by rewrite length_map, Hplanes.
    - rewrite Forall_map. apply Forall_true. intros plane. cbn beta.
      by rewrite length_map, length_seq. }
  set (X_all := map (map (default 0)) X_nan).
  set (valid_doys := valid_slice days_window common_doys).
  set (w_all := ravel (outer (decay_weights alpha_year_default years (year target))
                             (decay_weights alpha_day_default valid_doys
                                (tm_yday target)))).
  assert (Hvalid : length valid_doys = n_valid) by (by apply valid_slice_length).
  assert (Hlen : length w_all = length X_all).
  { subst w_all X_all. unfold ravel, outer.
    rewrite (length_concat_uniform n_valid).
    - rewrite !length_map, decay_weights_length. lia.
    - rewrite Forall_map. apply Forall_true. intros x. cbn beta.
      by rewrite length_map, decay_weights_length. }
  assert (Hsum : sum w_all <> 0).
  { subst w_all. rewrite sum_ravel_outer.
    destruct (decay_weights_positive alpha_year_default years (year target))
      as [_ ->]; [intros ->; simpl in Htwo; lia|].
    destruct (decay_weights_positive alpha_day_default valid_doys (tm_yday target))
      as [_ ->];
      [intros Hnil; rewrite Hnil in Hvalid; simpl in Hvalid; subst n_valid; lia|].
    lra. }
  pose proof (weighted_pca_run eigh X_all w_all var_threshold_default Hlen Hsum)
    as Hpca.
  cbv zeta in Hpca.
  assert (Hd : length (hd [] X_all) = d).
  { subst X_all. apply hd_width; [|exact Hwidth].
    intros Hnil. rewrite Hnil in Hcount. simpl in Hcount.
    subst n_valid. nia. }
  set (k := pca_k _ _ _) in Hpca.
  set (mu := weighted_mean _ _ _) in Hpca.
  assert (Hmu : length mu = d).
  { subst mu. unfold weighted_mean. by rewrite length_map, length_seq. }
  set (eigvals_k := maximum _ _) in Hpca.
  set (eigvecs_k := map (take k) _) in Hpca.
  destruct (normal_rows rng_state gauss N_mc (map sqrt eigvals_k)
              (seed_state random_seed)) as [pc st'] eqn:Hpc.
  set (samples :=
         map (imap clip_value)
            (map (fun row => take (days_window * length parameters + length parameters
                                    - days_window * length parameters)
                               (drop (days_window * length parameters) row))
               (map (fun row => vadd row mu)
                  (matmul (length eigvecs_k) pc
                     (transpose (length eigvals_k) eigvecs_k))))).
  assert (Hsamples : length samples = N_mc).
  { subst samples. rewrite !length_map. unfold matmul. rewrite length_map.
    pose proof (normal_rows_length gauss N_mc (map sqrt eigvals_k)
                  (seed_state random_seed)) as Hn.
    by rewrite Hpc in Hn. }
  exists samples, k.
  split; [|split].
  - unfold predict, predict_ensemble.
    destruct (decide (0 <= random_seed < 2 ^ 32)%Z); [|done].
    rewrite Hfetch. cbn [mbind outcome_bind]. rewrite Hprep.
    cbn [mbind outcome_bind]. rewrite Hbuild. cbn [mbind outcome_bind data].
    unfold compute_weights. fold valid_doys. fold X_nan.
    rewrite (all_finite_Some _ Hfin). fold X_all. fold w_all. rewrite Hpca.
    unfold generate_ensemble. rewrite Hpc. rewrite apply_constraints_spec.
    rewrite length_take, length_drop, Hmu.
    replace (7 <=? _)%nat with true
      by (symmetry; apply Nat.leb_le; subst d; cbn [parameters length]; lia).
    fold samples. cbn [mbind outcome_bind fst].
    destruct samples as [|row rows]; [simpl in Hsamples; lia|reflexivity].
  - split; [exact Hsamples|].
    + assert (Hvecs : length eigvecs_k = d).
      { subst eigvecs_k. rewrite length_map, pca_sorted_rows, Heigh.
        by rewrite pca_covariance_length. }
      subst samples. rewrite !Forall_map. unfold matmul. rewrite Forall_map.
      apply Forall_true. intros z. cbn beta.
      rewrite length_imap, length_take, length_drop.
      unfold vadd. rewrite length_zip_with, length_map, length_seq, Hvecs, Hmu.
      subst d. cbn [parameters length]. lia.
  - subst k. unfold pca_k. lia.
Qed.



(** X18: what a returning [predict] required: a seed in [0, 2^32), every
    requested date a date of the calendar, and answers for at least two of
    the requested years. *)
Theorem predict_requirements (lat lon : R) (target : date) (years_back : Z)
    (days_window N_mc : nat) (random_seed : Z) (include_current_year : bool)
    (global : rng_state) (res : results) :
  (predict eigh rng_state seed_state gauss fetch_power_point
     lat lon target years_back days_window N_mc random_seed
     include_current_year global).1 = Ok res ->
  let requested :=
    year_range (if include_current_year then year target
                else (year target - 1)%Z) years_back in
  let answered :=
    filter (fun y => is_Some (fetch_power_point lat lon
                                (Date y (month target) (day target))
                                days_window)) requested in
  (0 <= random_seed < 2 ^ 32)%Z /\
  Forall (fun y => datetime y (month target) (day target)
                   = Ok (Date y (month target) (day target))) requested /\
  (2 <= length answered)%nat.
Proof.
  intros Hres requested answered.
  apply predict_inv in Hres as (Hseed & ds & X_raw & common_doys & years & ? & ?
                                  & ? & ? & ? & ? & ? & Hfetch & Hprep & _).
  pose proof (fetch_multi_year_data_cases lat lon (month target) (day target)
                (if include_current_year then year target
                 else (year target - 1)%Z) years_back days_window) as Hcases.
  cbv zeta in Hcases. rewrite Hfetch in Hcases.
  destruct Hcases as (Hyears & _ & Hvalid).
  apply window_ok_datetime in Hvalid.
  apply prepare_daily_data_inv in Hprep as (-> & Htwo & _).
  split; [done|]. split; [done|].
  unfold answered, requested. by rewrite <- Hyears.
Qed.

Lemma generate_ensemble_inv (eigvals_k : vector) (eigvecs_k : matrix)
    (mu : vector) (n_vars days_window N_mc : nat) (st : rng_state)
    (samples : matrix) :
  (generate_ensemble rng_state gauss eigvals_k eigvecs_k mu n_vars days_window
     N_mc st).1 = Ok samples ->
  length samples = N_mc /\ Forall physical_bounds samples.
Proof.
  unfold generate_ensemble.
  destruct (normal_rows _ _ _ _ _) as [pc st'] eqn:Hpc. cbn [fst].
  rewrite apply_constraints_spec. destruct (7 <=? _)%nat; [|discriminate].
  intros [= <-]. split.
  - rewrite !length_map. unfold matmul. rewrite length_map.
    pose proof (normal_rows_length gauss N_mc (map sqrt eigvals_k) st) as Hn.
    by rewrite Hpc in Hn.
  - rewrite Forall_map. apply Forall_true. intros row. apply clip_value_bounds.
Qed.

(** The samples behind the statistics of a returning [predict]. *)
Lemma predict_samples (lat lon : R) (target : date) (years_back : Z)
    (days_window N_mc : nat) (random_seed : Z) (include_current_year : bool)
    (global : rng_state) (res : results) :
  (predict eigh rng_state seed_state gauss fetch_power_point
     lat lon target years_back days_window N_mc random_seed
     include_current_year global).1 = Ok res ->
  exists k samples,
    res = summarize lat lon target N_mc k samples /\
    (1 <= k)%nat /\ length samples = N_mc /\ Forall physical_bounds samples.
Proof.
  intros Hres.
  apply predict_inv in Hres as (_ & ds & X_raw & common_doys & years & ? & X_all
                                  & ? & ? & ? & k & samples & _ & _ & _ & _
                                  & Hpca & Hgen & _ & ->).
  exists k, samples. split; [done|].
  apply weighted_pca_inv in Hpca as (_ & _ & Heq). injection Heq as _ _ _ ->.
  split; [unfold pca_k; lia|]. by apply generate_ensemble_inv in Hgen.
Qed.

End DriverExtras.

(** ** Too few samples *)

Section SampleCountFacts.
Import Np Xr WeatherPredictor Examples.
Local Open Scope R_scope.

Lemma single_sample_covariance : pca_covariance [[5]] [1] = [[0]].
Proof.
  unfold pca_covariance. cbn [hd length]. rewrite pca_sigma_entries.
  unfold pca_w, div_scalar, weighted_mean, pca_center, sigma_entry,
    weighted_rows, col, dot, vsub, sum.
  cbn [seq map zip_with foldr nth]. repeat f_equal. lra.
Qed.

Lemma single_weight_ok : sum [1] <> 0.
Proof. unfold sum. cbn [foldr]. lra. Qed.

(** [weighted_pca] makes no sample-count check: on a sample matrix with a
    single row it returns the degenerate basis (mean = the row, covariance
    0, one component with the floored eigenvalue). *)
Example weighted_pca_single_sample :
  weighted_pca eigh_1x1 [[5]] [1] 0.95 = Ok ([1e-8], [[1]], [5], 1%nat).
Proof.
  rewrite (weighted_pca_run eigh_1x1 [[5]] [1] 0.95 eq_refl single_weight_ok).
  rewrite single_sample_covariance.
  assert (Heig : (pca_sorted eigh_1x1 [[0]]).1 = [0]) by reflexivity.
  assert (Hvec : (pca_sorted eigh_1x1 [[0]]).2 = [[1]]) by reflexivity.
  rewrite Heig, Hvec. cbn [hd length].
  assert (Hk : pca_k 1 (pca_cumvar [0]) 0.95 = 1%nat).
  { unfold pca_k. lia. }
  rewrite Hk. cbn [take map].
  unfold maximum, pca_eps_reg, sum. cbn [map foldr].
  destruct (decide (0 < 0 + 0)) as [?|_]; [lra|].
  rewrite Rmax_right by lra.
  unfold weighted_mean, pca_w, div_scalar, col, dot, sum.
  cbn [seq map zip_with foldr nth].
  do 3 f_equal. f_equal. f_equal. lra.
Qed.

Lemma join_no_rows {A B : Type} (l : list A) :
  mjoin (map (fun _ => @nil B) l) = [].
Proof. induction l as [|x l IH]; [done|]. exact IH. Qed.

Lemma valid_slice_short (days_window : nat) (common_doys : list Z) :
  (length common_doys <= 2 * days_window)%nat ->
  valid_slice days_window common_doys = [].
Proof.
  intros Hshort. unfold valid_slice. destruct days_window as [|W]; [done|].
  by replace (length common_doys - S W - S W)%nat with 0%nat by lia.
Qed.

Lemma weighted_pca_no_rows (eigh : matrix -> vector * matrix) (thr : R) :
  weighted_pca eigh [] [] thr = Raise ZeroDivisionError.
Proof.
  unfold weighted_pca, average_axis0. cbn [pca_w div_scalar map length].
  destruct (decide (0%nat = 0%nat)); [|done].
  destruct (decide (sum [] = 0)) as [|Hne]; [reflexivity|].
  exfalso. apply Hne. reflexivity.
Qed.

Section WithServices.

Context (eigh : matrix -> vector * matrix).
Context {rng_state : Type} (seed_state : Z -> rng_state)
        (gauss : rng_state -> R * rng_state).
Context (fetch_power_point : R -> R -> date -> nat -> option hourly).

(** A history without a day that has a full window: [np.zeros] refuses
    the negative dimension, or [np.average] the empty weights. *)
Lemma predict_short_history (lat lon : R) (target : date) (years_back : Z)
    (days_window N_mc : nat) (random_seed : Z) (include_current_year : bool)
    (global : rng_state) (ds : dataset) (X_raw : ndarray3 (option R))
    (common_doys years : list Z) :
  (0 <= random_seed < 2 ^ 32)%Z ->
  fetch_multi_year_data fetch_power_point lat lon (month target) (day target)
    (if include_current_year then year target else (year target - 1)%Z)
    years_back days_window = Ok (Some ds) ->
  prepare_daily_data ds days_window = Ok (X_raw, common_doys, years) ->
  (length common_doys <= 2 * days_window)%nat ->
  (predict eigh rng_state seed_state gauss fetch_power_point lat lon target
     years_back days_window N_mc random_seed include_current_year global).1
  = Raise (if (length common_doys <? 2 * days_window)%nat then ValueError
           else ZeroDivisionError).
Proof.
  intros Hseed Hfetch Hprep Hshort.
  destruct (prepare_daily_data_inv _ _ _ _ _ Hprep) as (_ & _ & _ & Hshape & Hwf).
  unfold predict, predict_ensemble.
  destruct (decide (0 <= random_seed < 2 ^ 32)%Z); [|done].
  rewrite Hfetch. cbn [mbind outcome_bind]. rewrite Hprep.
  cbn [mbind outcome_bind].
  destruct (Nat.ltb_spec (length common_doys) (2 * days_window)) as [Hlt|Hge].
  - unfold build_state_vectors. rewrite Hshape.
    destruct (Nat.ltb_spec (length common_doys) (2 * days_window)); [|lia].
    reflexivity.
  - rewrite (build_state_vectors_eq (Some 0) X_raw _ _ _ days_window Hwf Hshape)
      by lia.
    cbn [mbind outcome_bind data].
    replace (length common_doys - 2 * days_window)%nat with 0%nat by lia.
    cbn [seq map]. rewrite join_no_rows.
    unfold compute_weights. rewrite valid_slice_short by done.
    unfold decay_weights at 2. cbn [map]. unfold div_scalar at 1. cbn [map].
    rewrite ravel_outer_nil.
    change (all_finite []) with (Some (@nil vector)). cbv iota beta.
    by rewrite weighted_pca_no_rows.
Qed.

(** C2, as the code has it.  No stage of [predict] counts the samples; a
    history with fewer than two of them still never yields a result,
    because some library call fails on it first.  A result is returned
    only from at least two years with more than [2 * days_window] common
    days each, that is from at least two rows of the flattened sample
    matrix.  Otherwise [predict] raises: [RuntimeError] when no request was
    answered (the one explicit check); [KeyError] for the [year] coordinate
    (or [AttributeError], when the [time] coordinate has one entry as
    well) when one year was answered, the squeeze having dropped it;
    [ValueError] from [np.zeros] when fewer than [2 * days_window] days are
    common; and [ZeroDivisionError] from [np.average] when exactly
    [2 * days_window] are. *)
Theorem predict_sample_count (lat lon : R) (target : date) (years_back : Z)
    (days_window N_mc : nat) (random_seed : Z) (include_current_year : bool)
    (global : rng_state) :
  let run :=
    (predict eigh rng_state seed_state gauss fetch_power_point lat lon target
       years_back days_window N_mc random_seed include_current_year global).1 in
  let fetched :=
    fetch_multi_year_data fetch_power_point lat lon (month target) (day target)
      (if include_current_year then year target else (year target - 1)%Z)
      years_back days_window in
  (0 <= random_seed < 2 ^ 32)%Z ->
  (forall res, run = Ok res ->
     exists ds X_raw common_doys years X_state,
       fetched = Ok (Some ds) /\
       prepare_daily_data ds days_window = Ok (X_raw, common_doys, years) /\
       build_state_vectors (Some 0) X_raw days_window = Ok X_state /\
       (2 <= length years)%nat /\
       (2 * days_window < length common_doys)%nat /\
       length (mjoin (data X_state))
       = (length years * (length common_doys - 2 * days_window))%nat /\
       (2 <= length (mjoin (data X_state)))%nat) /\
  (fetched = Ok None -> run = Raise (RuntimeError "Failed to fetch data")) /\
  (forall ds, fetched = Ok (Some ds) -> length (ds_year ds) = 1%nat ->
     run = Raise (if decide (length (ds_time ds) = 1%nat) then AttributeError
                  else KeyError "year")) /\
  (forall ds X_raw common_doys years,
     fetched = Ok (Some ds) ->
     prepare_daily_data ds days_window = Ok (X_raw, common_doys, years) ->
     (length common_doys <= 2 * days_window)%nat ->
     run = Raise (if (length common_doys <? 2 * days_window)%nat then ValueError
                  else ZeroDivisionError)).
Proof.
  intros run fetched Hseed. split; [|split; [|split]].
  - intros res Hres.
    pose proof Hres as Hinv.
    apply predict_inv in Hinv as (_ & ds & X_raw & common_doys & years & X_state
                                    & _ & _ & _ & _ & _ & _ & Hfetch & Hprep
                                    & Hbuild & _).
    exists ds, X_raw, common_doys, years, X_state.
    destruct (prepare_daily_data_inv _ _ _ _ _ Hprep)
      as (_ & Htwo & _ & Hshape & Hwf).
    assert (Hdays : (2 * days_window < length common_doys)%nat).
    { destruct (decide (2 * days_window < length common_doys)%nat) as [|Hn];
        [done|].
      subst run.
      rewrite (predict_short_history lat lon target years_back days_window N_mc
                 random_seed include_current_year global ds X_raw common_doys
                 years Hseed Hfetch Hprep ltac:(lia)) in Hres.
      discriminate. }
    assert (Hcount : length (mjoin (data X_state))
                     = (length years * (length common_doys - 2 * days_window))%nat).
    { rewrite (build_state_vectors_eq (Some 0) X_raw _ _ _ days_window Hwf Hshape)
        in Hbuild by lia.
      injection Hbuild as <-. cbn [data].
      unfold well_shaped in Hwf. rewrite Hshape in Hwf. destruct Hwf as [Hplanes _].
      rewrite (length_join_uniform (length common_doys - 2 * days_window)).
      - by rewrite length_map, Hplanes.
      - rewrite Forall_map. apply Forall_true. intros plane. cbn beta.
        by rewrite length_map, length_seq. }
    repeat (split; [done|]). rewrite Hcount. nia.
  - intros Hfetch. subst run. unfold predict, predict_ensemble.
    destruct (decide (0 <= random_seed < 2 ^ 32)%Z); [|done].
    fold fetched. rewrite Hfetch. reflexivity.
  - intros ds Hfetch Hone. subst run. unfold predict, predict_ensemble.
    destruct (decide (0 <= random_seed < 2 ^ 32)%Z); [|done].
    fold fetched. rewrite Hfetch. cbn [mbind outcome_bind].
    unfold prepare_daily_data.
    destruct (decide (length (ds_time ds) = 1%nat)); [reflexivity|].
    destruct (decide (length (ds_year ds) = 1%nat)); [reflexivity|done].
  - intros ds X_raw common_doys years Hfetch Hprep Hshort.
    exact (predict_short_history lat lon target years_back days_window N_mc
             random_seed include_current_year global ds X_raw common_doys years
             Hseed Hfetch Hprep Hshort).
Qed.

End WithServices.

Lemma predict_sample_count_witness :
  let run :=
    (predict eigh_diagonal nat seed_counter counting_gauss power_service
       50 2 (Date 2025 1 11) 2 1 5 42 false 0%nat).1 in
  let fetched := fetch_multi_year_data power_service 50 2 1 11 2024 2 1 in
  (forall res, run = Ok res ->
     exists ds X_raw common_doys years X_state,
       fetched = Ok (Some ds) /\
       prepare_daily_data ds 1 = Ok (X_raw, common_doys, years) /\
       build_state_vectors (Some 0) X_raw 1 = Ok X_state /\
       (2 <= length years)%nat /\
       (2 * 1 < length common_doys)%nat /\
       length (mjoin (data X_state))
       = (length years * (length common_doys - 2 * 1))%nat /\
       (2 <= length (mjoin (data X_state)))%nat) /\
  (fetched = Ok None -> run = Raise (RuntimeError "Failed to fetch data")) /\
  (forall ds, fetched = Ok (Some ds) -> length (ds_year ds) = 1%nat ->
     run = Raise (if decide (length (ds_time ds) = 1%nat) then AttributeError
                  else KeyError "year")) /\
  (forall ds X_raw common_doys years,
     fetched = Ok (Some ds) ->
     prepare_daily_data ds 1 = Ok (X_raw, common_doys, years) ->
     (length common_doys <= 2 * 1)%nat ->
     run = Raise (if (length common_doys <? 2 * 1)%nat then ValueError
                  else ZeroDivisionError)).
Proof.
  apply (predict_sample_count eigh_diagonal seed_counter counting_gauss
           power_service 50 2 (Date 2025 1 11) 2 1 5 42 false 0%nat).
  lia.
Defined.

(** Two years that share exactly two days, with a window of one day. *)
Lemma two_day_stages :
  exists ds X_raw years,
    fetch_multi_year_data two_day_service 50 2 1 11 2024 2 1 = Ok (Some ds) /\
    prepare_daily_data ds 1 = Ok (X_raw, [10; 11]%Z, years).
Proof.
  match eval vm_compute in (fetch_multi_year_data two_day_service 50 2 1 11 2024 2 1) with
  | Ok (Some ?ds) =>
      match eval vm_compute in (prepare_daily_data ds 1) with
      | Ok (?X, _, ?y) => exists ds, X, y
      end
  end.
  split; vm_compute; reflexivity.
Qed.

(** C2 as stated fails: the failures are not data-insufficient errors.
    With one answered year (2024 alone) [predict] fails with a [KeyError]
    for the coordinate the squeeze has dropped; with two years that leave no
    day with a full window it fails with the [ZeroDivisionError] of
    [np.average]; and [weighted_pca], which the claim has checking the
    count, returns for a single sample. *)
Lemma predict_single_year_counterexample :
  (predict eigh_diagonal nat seed_counter counting_gauss single_year_service
     50 2 (Date 2025 1 11) 2 1 5 42 false 0%nat).1 = Raise (KeyError "year") /\
  (predict eigh_diagonal nat seed_counter counting_gauss two_day_service
     50 2 (Date 2025 1 11) 2 1 5 42 false 0%nat).1 = Raise ZeroDivisionError /\
  weighted_pca eigh_1x1 [[5]] [1] 0.95 = Ok ([1e-8], [[1]], [5], 1%nat).
Proof.
  split; [vm_compute; reflexivity|]. split; [|exact weighted_pca_single_sample].
  destruct two_day_stages as (ds & X_raw & years & Hfetch & Hprep).
  exact (predict_short_history eigh_diagonal seed_counter counting_gauss
           two_day_service 50 2 (Date 2025 1 11) 2 1 5 42 false 0%nat ds X_raw
           [10; 11]%Z years ltac:(lia) Hfetch Hprep ltac:(simpl; lia)).
Qed.

End SampleCountFacts.

(** ** The statistics [predict] reports *)

Section ResultExtras.
Import Np Xr WeatherPredictor.
Local Open Scope R_scope.

(** The block [predict] stores for the variable in column [vi]. *)
Lemma summarize_entry (lat lon : R) (target : date) (N_mc k : nat)
    (samples : matrix) (vi : nat) (var_name : string) :
  parameters !! vi = Some var_name ->
  predictions (summarize lat lon target N_mc k samples)
    !! Py.get var_mapping var_name var_name
  = Some (let column := col vi samples in
          let block : gmap string pyvalue :=
            {[ "mean" := PNum (mean column);
               "median" := PNum (Stats.median column);
               "std" := PNum (Stats.std column);
               "p5" := PNum (Stats.percentile column 5);
               "p95" := PNum (Stats.percentile column 95);
               "unit" := PStr (get_unit var_name) ]}%string in
          if decide (vi = 0%nat)
          then <["probability"%string := PNum (rain_probability samples)]> block
          else block).
Proof.
  intros Hvar. unfold summarize.
  cbn [predictions parameters length seq zip zip_with foldl].
  change (Py.get var_mapping "PRECTOTCORR" "PRECTOTCORR")%string with "precipitation"%string.
  change (Py.get var_mapping "T2M" "T2M")%string with "temperature"%string.
  change (Py.get var_mapping "RH2M" "RH2M")%string with "humidity"%string.
  change (Py.get var_mapping "CLOUD_AMT" "CLOUD_AMT")%string with "cloud_cover"%string.
  change (Py.get var_mapping "WS10M" "WS10M")%string with "wind_speed"%string.
  change (Py.get var_mapping "ALLSKY_SFC_SW_DWN" "ALLSKY_SFC_SW_DWN")%string
    with "solar_radiation"%string.
  change (Py.get var_mapping "T2MDEW" "T2MDEW")%string with "dew_point"%string.
  do 7 (destruct vi as [|vi];
        [injection Hvar as <-;
         first [ change (Py.get var_mapping "PRECTOTCORR" "PRECTOTCORR")%string with "precipitation"%string
               | change (Py.get var_mapping "T2M" "T2M")%string with "temperature"%string
               | change (Py.get var_mapping "RH2M" "RH2M")%string with "humidity"%string
               | change (Py.get var_mapping "CLOUD_AMT" "CLOUD_AMT")%string with "cloud_cover"%string
               | change (Py.get var_mapping "WS10M" "WS10M")%string with "wind_speed"%string
               | change (Py.get var_mapping "ALLSKY_SFC_SW_DWN" "ALLSKY_SFC_SW_DWN")%string with "solar_radiation"%string
               | change (Py.get var_mapping "T2MDEW" "T2MDEW")%string with "dew_point"%string ];
         first [ rewrite lookup_alter_eq | rewrite lookup_alter_ne by done ];
         rewrite ?lookup_insert_ne by done; rewrite lookup_insert_eq;
         reflexivity|]).
  discriminate.
Qed.


Lemma ratio_unit (a b : R) : 0 <= a <= b -> 0 < b -> 0 <= a / b <= 1.
Proof.
  intros Ha Hb. unfold Rdiv. split.
  - apply Rmult_le_pos; [lra|]. apply Rlt_le, Rinv_0_lt_compat. lra.
  - apply Rmult_le_reg_r with b; [lra|].
    rewrite Rmult_assoc, Rinv_l by lra. lra.
Qed.

(** Statistics of a column stay inside any convex set that holds the
    column: they are elements of it or interpolate between two of them. *)
Section Convex.

Variable P : R -> Prop.
Hypothesis P_convex :
  forall x y t, P x -> P y -> 0 <= t <= 1 -> P (x + t * (y - x)).

Lemma mean_convex (l : vector) :
  l <> [] -> Forall P l -> exists m, mean l = Some m /\ P m.
Proof.
  intros Hne Hl. induction Hl as [|x l Hx Hl IH]; [done|].
  destruct l as [|y l'].
  - exists (sum [x] / INR 1). split; [reflexivity|].
    replace (sum [x] / INR 1) with x by (unfold sum; simpl; field). exact Hx.
  - destruct IH as (m & Hm & HPm); [done|].
    change (mean (y :: l'))
      with (Some (sum (y :: l') / INR (length (y :: l')))) in Hm.
    assert (Hm' : sum (y :: l') / INR (length (y :: l')) = m) by congruence.
    clear Hm.
    set (n := length (y :: l')) in *.
    exists (sum (x :: y :: l') / INR (S n)). split; [reflexivity|].
    assert (Hn : 0 < INR n) by (apply lt_0_INR; subst n; simpl; lia).
    rewrite (sum_cons x). set (total := sum (y :: l')) in *.
    clearbody n total.
    replace ((x + total) / INR (S n))
      with (x + INR n / INR (S n) * (m - x)).
    + apply P_convex; [done..|]. rewrite S_INR. apply ratio_unit; lra.
    + rewrite <- Hm', S_INR. field. lra.
Qed.

Lemma sorted_length (l : vector) : length (Stats.sorted l) = length l.
Proof. unfold Stats.sorted. by rewrite merge_sort_Permutation. Qed.

Lemma sorted_nth (l : vector) (i : nat) :
  Forall P l -> (i < length l)%nat -> P (nth i (Stats.sorted l) 0).
Proof.
  intros Hl Hi. apply List.Forall_nth; [|by rewrite sorted_length].
  apply Forall_forall. intros x Hx.
  unfold Stats.sorted in Hx. rewrite merge_sort_Permutation in Hx.
  by apply (proj1 (Forall_forall _ _) Hl).
Qed.

Lemma median_convex (l : vector) :
  l <> [] -> Forall P l -> exists m, Stats.median l = Some m /\ P m.
Proof.
  intros Hne Hl. unfold Stats.median.
  assert (Hpos : (0 < length l)%nat) by (destruct l; [done|simpl; lia]).
  pose proof (sorted_length l) as Hlen.
  assert (Hhalf : (length l / 2 < length l)%nat)
    by (apply Nat.div_lt; lia).
  cbv zeta.
  destruct (Stats.sorted l) as [|a s] eqn:Hs; [simpl in Hlen; lia|].
  rewrite <- Hs in Hlen |- *. rewrite Hlen.
  destruct (Nat.odd (length l)).
  - eexists. split; [reflexivity|]. by apply sorted_nth.
  - eexists. split; [reflexivity|].
    set (u := nth (length l / 2 - 1) (Stats.sorted l) 0).
    set (v := nth (length l / 2) (Stats.sorted l) 0).
    replace ((u + v) / 2) with (u + 1 / 2 * (v - u)) by field.
    apply P_convex; [apply sorted_nth; [done|lia]|by apply sorted_nth|lra].
Qed.

Lemma percentile_convex (l : vector) (q : nat) :
  l <> [] -> (q <= 100)%nat -> Forall P l ->
  exists p, Stats.percentile l q = Some p /\ P p.
Proof.
  intros Hne Hq Hl. unfold Stats.percentile.
  assert (Hpos : (0 < length l)%nat) by (destruct l; [done|simpl; lia]).
  pose proof (sorted_length l) as Hlen.
  cbv zeta.
  destruct (Stats.sorted l) as [|a s] eqn:Hs; [simpl in Hlen; lia|].
  rewrite <- Hs in Hlen |- *. rewrite Hlen.
  eexists. split; [reflexivity|].
  assert (Hlo : ((length l - 1) * q / 100 <= length l - 1)%nat).
  { apply Nat.Div0.div_le_upper_bound. nia. }
  apply P_convex.
  - apply sorted_nth; [done|lia].
  - apply sorted_nth; [done|lia].
  - pose proof (Nat.mod_upper_bound ((length l - 1) * q) 100 ltac:(lia)) as Hmod.
    apply Nat.lt_le_incl, le_INR in Hmod.
    pose proof (pos_INR ((length l - 1) * q mod 100)) as Hge.
    assert (H100 : INR 100 = 100) by (rewrite INR_IZR_INZ; reflexivity).
    rewrite H100 in Hmod.
    apply ratio_unit; lra.
Qed.

End Convex.

Lemma std_nonneg (l : vector) :
  l <> [] -> exists sd, Stats.std l = Some sd /\ 0 <= sd.
Proof.
  intros Hne. unfold Stats.std. destruct l as [|x l]; [done|].
  cbn [mean map option_map]. eexists. split; [reflexivity|]. apply sqrt_pos.
Qed.

Lemma within_bounds_convex (vi : nat) (x y t : R) :
  within_bounds vi x -> within_bounds vi y -> 0 <= t <= 1 ->
  within_bounds vi (x + t * (y - x)).
Proof.
  unfold within_bounds.
  destruct (List.find _ clip_dict) as [[? [[lo|] [hi|]]]|];
    intros [Hx1 Hx2] [Hy1 Hy2] Ht || intros _ _ _; try done; split; try done; nra.
Qed.


Lemma physical_bounds_within (s : vector) (vi : nat) :
  (vi < 7)%nat -> physical_bounds s -> within_bounds vi (nth vi s 0).
Proof.
  intros Hvi (H0 & H1 & H2 & H3 & H4 & H5 & H6).
  do 7 (destruct vi as [|vi]; [unfold within_bounds; cbn; lra|]). lia.
Qed.

(** The keys of one block, with or without the probability. *)
Lemma entry_lookups {Q : Prop} (D : Decision Q) (p a1 a2 a3 a4 a5 a6 : pyvalue) :
  let block : gmap string pyvalue :=
    {[ "mean" := a1; "median" := a2; "std" := a3; "p5" := a4; "p95" := a5;
       "unit" := a6 ]}%string in
  let entry := if D then <["probability"%string := p]> block else block in
  entry !! "mean"%string = Some a1 /\ entry !! "median"%string = Some a2 /\
  entry !! "std"%string = Some a3 /\ entry !! "p5"%string = Some a4 /\
  entry !! "p95"%string = Some a5 /\ entry !! "unit"%string = Some a6 /\
  entry !! "probability"%string = (if D then Some p else None).
Proof.
  intros block entry. subst entry block. destruct D; repeat split; reflexivity.
Qed.


Section WithServices.

Context (eigh : matrix -> vector * matrix).
Context {rng_state : Type} (seed_state : Z -> rng_state)
        (gauss : rng_state -> R * rng_state).
Context (fetch_power_point : R -> R -> date -> nat -> option hourly).

(** X19: the dictionary a returning [predict] hands back.  The metadata
    repeat the location, the target date and [N_mc], with at least one
    component; under each of the seven readable names there is a block with
    the numbers [mean], [median], [std], [p5], [p95] and the string [unit]
    of the variable, and [probability] is a key of the precipitation block
    only. *)
Theorem predict_result_layout (lat lon : R) (target : date) (years_back : Z)
    (days_window N_mc : nat) (random_seed : Z) (include_current_year : bool)
    (global : rng_state) (res : results) :
  (predict eigh rng_state seed_state gauss fetch_power_point
     lat lon target years_back days_window N_mc random_seed
     include_current_year global).1 = Ok res ->
  location (meta res) = (lat, lon) /\ target_date (meta res) = target /\
  n_ensemble (meta res) = N_mc /\ (1 <= n_components (meta res))%nat /\
  Forall (fun '(var_name, name) =>
            exists entry,
              predictions res !! name = Some entry /\
              Forall (fun key => exists x, entry !! key = Some (PNum x))
                     ["mean"; "median"; "std"; "p5"; "p95"]%string /\
              entry !! "unit"%string = Some (PStr (get_unit var_name)) /\
              (is_Some (entry !! "probability"%string)
               <-> name = "precipitation"%string))
         [ ("PRECTOTCORR", "precipitation"); ("T2M", "temperature");
           ("RH2M", "humidity"); ("CLOUD_AMT", "cloud_cover");
           ("WS10M", "wind_speed"); ("ALLSKY_SFC_SW_DWN", "solar_radiation");
           ("T2MDEW", "dew_point") ]%string.
Proof.
  intros Hres.
  apply predict_samples in Hres as (k & samples & -> & Hk & _ & _).
  do 4 (split; [done|]).
  assert (Hblock : forall vi var_name name,
            parameters !! vi = Some var_name ->
            Py.get var_mapping var_name var_name = name ->
            (vi = 0%nat <-> name = "precipitation"%string) ->
            exists entry,
              predictions (summarize lat lon target N_mc k samples) !! name
              = Some entry /\
              Forall (fun key => exists x, entry !! key = Some (PNum x))
                     ["mean"; "median"; "std"; "p5"; "p95"]%string /\
              entry !! "unit"%string = Some (PStr (get_unit var_name)) /\
              (is_Some (entry !! "probability"%string)
               <-> name = "precipitation"%string)).
  { intros vi var_name name Hvar <- Hrain.
    eexists. split; [exact (summarize_entry _ _ _ _ _ _ _ _ Hvar)|].
    cbv zeta.
    match goal with
    | |- context [if ?D then <[_ := ?p]> _ else _] =>
        pose proof (entry_lookups D p
                      (PNum (mean (col vi samples)))
                      (PNum (Stats.median (col vi samples)))
                      (PNum (Stats.std (col vi samples)))
                      (PNum (Stats.percentile (col vi samples) 5))
                      (PNum (Stats.percentile (col vi samples) 95))
                      (PStr (get_unit var_name)))
          as (E1 & E2 & E3 & E4 & E5 & E6 & E7)
    end.
    split; [repeat constructor; eauto|]. split; [exact E6|].
    rewrite E7. destruct (decide (vi = 0%nat)) as [Hzero|Hzero]; split.
    - intros _. by apply Hrain.
    - eauto.
    - intros [? ?]. discriminate.
    - intros Hname. by apply Hrain in Hname. }
  repeat constructor.
  - by apply (Hblock 0%nat).
  - apply (Hblock 1%nat); done.
  - apply (Hblock 2%nat); done.
  - apply (Hblock 3%nat); done.
  - apply (Hblock 4%nat); done.
  - apply (Hblock 5%nat); done.
  - apply (Hblock 6%nat); done.
Qed.

(** X20: with at least one sample, every statistic [predict] reports for
    a variable is a number inside the physical range of that variable:
    mean, median and the 5th and 95th percentiles of the clipped samples
    cannot leave the range the samples were clipped to (no negative mean
    precipitation, no humidity above 100), and the spread is not negative. *)
Theorem reported_statistics_within_bounds (lat lon : R) (target : date)
    (years_back : Z) (days_window N_mc : nat) (random_seed : Z)
    (include_current_year : bool) (global : rng_state) (res : results)
    (vi : nat) (var_name : string) :
  (predict eigh rng_state seed_state gauss fetch_power_point
     lat lon target years_back days_window N_mc random_seed
     include_current_year global).1 = Ok res ->
  (1 <= N_mc)%nat ->
  parameters !! vi = Some var_name ->
  exists entry m med sd p5 p95,
    predictions res !! Py.get var_mapping var_name var_name = Some entry /\
    entry !! "mean"%string = Some (PNum (Some m)) /\
    entry !! "median"%string = Some (PNum (Some med)) /\
    entry !! "std"%string = Some (PNum (Some sd)) /\
    entry !! "p5"%string = Some (PNum (Some p5)) /\
    entry !! "p95"%string = Some (PNum (Some p95)) /\
    within_bounds vi m /\ within_bounds vi med /\
    within_bounds vi p5 /\ within_bounds vi p95 /\ 0 <= sd.
Proof.
  intros Hres HN Hvar.
  apply predict_samples in Hres as (k & samples & -> & _ & Hlen & Hphys).
  assert (Hvi : (vi < 7)%nat) by (by apply lookup_lt_Some in Hvar).
  set (column := col vi samples).
  assert (Hne : column <> []).
  { intros Hnil. apply (f_equal length) in Hnil.
    subst column. rewrite col_length in Hnil. simpl in Hnil. lia. }
  assert (Hcol : Forall (within_bounds vi) column).
  { subst column. unfold col. rewrite Forall_map.
    eapply Forall_impl; [exact Hphys|]. intros s Hs. cbn beta.
    by apply physical_bounds_within. }
  destruct (mean_convex _ (within_bounds_convex vi) column Hne Hcol)
    as (m & Hm & HPm).
  destruct (median_convex _ (within_bounds_convex vi) column Hne Hcol)
    as (med & Hmed & HPmed).
  destruct (percentile_convex _ (within_bounds_convex vi) column 5 Hne
              ltac:(lia) Hcol) as (p5 & Hp5 & HPp5).
  destruct (percentile_convex _ (within_bounds_convex vi) column 95 Hne
              ltac:(lia) Hcol) as (p95 & Hp95 & HPp95).
  destruct (std_nonneg column Hne) as (sd & Hsd & Hsd0).
  eexists _, m, med, sd, p5, p95.
  split; [exact (summarize_entry _ _ _ _ _ _ _ _ Hvar)|].
  cbv zeta. fold column. rewrite Hm, Hmed, Hsd, Hp5, Hp95.
  match goal with
  | |- context [if ?D then <[_ := ?p]> _ else _] =>
      pose proof (entry_lookups D p (PNum (Some m)) (PNum (Some med))
                    (PNum (Some sd)) (PNum (Some p5)) (PNum (Some p95))
                    (PStr (get_unit var_name)))
        as (E1 & E2 & E3 & E4 & E5 & _)
  end.
  done.
Qed.

End WithServices.

End ResultExtras.

(** ** What is shown for a classification *)

Section FloatOrder.
Import PrimFloat SpecFloat FloatOps FloatAxioms.

(** [<] on binary64 is transitive and irreflexive, NaN included. *)
Lemma SFltb_trans (a b c : spec_float) :
  SFltb a b = true -> SFltb b c = true -> SFltb a c = true.
Proof.
  unfold SFltb, SFcompare.
  destruct a as [sa|sa| |sa ma ea], b as [sb|sb| |sb mb eb],
    c as [sc|sc| |sc mc ec];
    repeat match goal with s : bool |- _ => destruct s end;
    try discriminate; try reflexivity;
    repeat match goal with
           | |- context [(?x ?= ?y)%Z] => destruct (Z.compare_spec x y)
           end;
    try discriminate; try reflexivity; try lia;
    subst;
    repeat match goal with
           | |- context [PosDef.Pos.compare_cont Eq ?x ?y] =>
               change (PosDef.Pos.compare_cont Eq x y) with (Pos.compare x y);
               destruct (Pos.compare_spec x y)
           end;
    cbn [CompOpp];
    try discriminate; try reflexivity; try lia.
Qed.

Lemma ltb_trans (a b c : float) :
  ltb a b = true -> ltb b c = true -> ltb a c = true.
Proof. rewrite !ltb_spec. apply SFltb_trans. Qed.

Lemma ltb_irrefl (a : float) : ltb a a = false.
Proof.
  rewrite ltb_spec. unfold SFltb, SFcompare.
  destruct (Prim2SF a) as [s|s| |s m e]; try destruct s; try reflexivity;
    rewrite Z.compare_refl;
    change (PosDef.Pos.compare_cont Eq m m) with (Pos.compare m m);
    rewrite Pos.compare_refl; reflexivity.
Qed.

End FloatOrder.

Section AdviceExtras.
Import PrimFloat Classifier Advice.
Local Open Scope string_scope.
Local Set Warnings "-inexact-float".

Ltac read_means H :=
  destruct H as ((?d & ?Hd & ?Hm) & (?d & ?Hd & ?Hm & ?Hp) &
                 (?d & ?Hd & ?Hm) & (?d & ?Hd & ?Hm) & (?d & ?Hd & ?Hm)).

Ltac run_lookups :=
  unfold getitem, get;
  repeat (match goal with
          | H : _ !! _ = _ |- _ => rewrite !H
          end;
          cbn [mbind outcome_bind as_num]).

Ltac split_branches :=
  repeat (match goal with
          | |- context [mbind _ (if ?b then _ else _)] => destruct b
          end;
          cbn [mbind outcome_bind as_num]).

(** The classification of a dict with the five means, by cases on its
    wind: one of eighteen words. *)
Lemma classification_cases (p : predictions)
    (temp precip clouds wind humidity : float) (prob : option float)
    (cls desc : string) :
  has_means p temp precip clouds wind humidity prob ->
  classify_weather p = Ok (cls, desc) ->
  exists base,
    base ∈ base_classes /\
    cls = (if gt wind 15 then "windy_" +:+ base else base).
Proof.
  intros H Hrun.
  destruct (classify_weather_vocabulary_aux p _ _ _ _ _ _ H)
    as (base & desc' & Hrun' & Hbase).
  rewrite Hrun' in Hrun. injection Hrun as <- _. by exists base.
Qed.

Ltac each_base H :=
  apply list_elem_of_In in H; simpl in H;
  repeat (destruct H as [<-|H]); [..|destruct H].

(** X21: on every classification [classify_weather] can return,
    [get_weather_emoji] finds a key and never falls back to its default.
    Because the keys are tried in the order of the dict, a windy day gets
    the emoji of the weather underneath; the wind emoji is shown for
    [windy_hot] only, where [windy] comes before [hot]. *)
Theorem emoji_of_classification (p : predictions)
    (temp precip clouds wind humidity : float) (prob : option float)
    (cls desc : string) :
  has_means p temp precip clouds wind humidity prob ->
  classify_weather p = Ok (cls, desc) ->
  get_weather_emoji cls <> default_emoji /\
  (get_weather_emoji cls = "💨" <-> cls = "windy_hot") /\
  forall base, cls = "windy_" +:+ base -> base <> "hot" ->
    get_weather_emoji cls = get_weather_emoji base.
Proof.
  intros H Hrun.
  destruct (classification_cases _ _ _ _ _ _ _ _ _ H Hrun) as (base & Hbase & ->).
  destruct (gt wind 15); each_base Hbase;
    (split; [vm_compute; discriminate|]);
    (split; [split; intros Heq; vm_compute in Heq; first [discriminate|reflexivity]|]);
    intros base' Heq Hhot; vm_compute in Heq;
    first [ discriminate Heq
          | injection Heq as Heq; subst base';
            first [reflexivity | by destruct Hhot] ].
Qed.

(** X22: [app.py] looks the icon up under the whole classification, so it
    shows its default icon exactly on the windy days; on the others the
    icon is the emoji of [get_weather_emoji]. *)
Theorem icon_of_classification (p : predictions)
    (temp precip clouds wind humidity : float) (prob : option float)
    (cls desc : string) :
  has_means p temp precip clouds wind humidity prob ->
  classify_weather p = Ok (cls, desc) ->
  (get_weather_icon cls = default_emoji <-> gt wind 15 = true) /\
  (gt wind 15 = false -> get_weather_icon cls = get_weather_emoji cls).
Proof.
  intros H Hrun.
  destruct (classification_cases _ _ _ _ _ _ _ _ _ H Hrun) as (base & Hbase & ->).
  destruct (gt wind 15); each_base Hbase;
    (split; [split; intros Heq; first [reflexivity|vm_compute in Heq; discriminate]|]);
    intros Heq; first [discriminate Heq|reflexivity].
Qed.


(** The base classification as a function of the values read. *)
Lemma classify_weather_base (p : predictions)
    (temp precip clouds wind humidity : float) (prob : option float) :
  has_means p temp precip clouds wind humidity prob ->
  let pp := match prob with Some x => x | None => 0%float end in
  let base :=
    if gt precip 5 && gt pp 0.5 then
      if lt temp 0 then "snowy"
      else if gt precip 20 then "heavy_rain" else "rainy"
    else if gt precip 0.5 && gt pp 0.3 then "light_rain"
    else if gt clouds 80 then "overcast"
    else if gt clouds 50 then "cloudy"
    else if gt clouds 20 then "partly_cloudy"
    else if gt temp 30 then "hot" else "clear" in
  exists desc,
    classify_weather p
    = Ok (if gt wind 15 then "windy_" +:+ base else base, desc).
Proof.
  intros H pp base. subst pp base. read_means H.
  unfold classify_weather. run_lookups. unfold and_then.
  destruct prob as [pr|];
    cbn [fmap option_fmap option_map mbind outcome_bind as_num];
    destruct (gt precip 5); cbn [andb mbind outcome_bind as_num];
    split_branches;
    destruct (gt wind 15); eexists; reflexivity.
Qed.

Lemma above_not_below (x a b : float) :
  gt x a = true -> lt a b = false -> lt x b = false.
Proof.
  unfold gt, lt. intros Hax Hab. destruct (ltb x b) eqn:Hxb; [|done].
  by rewrite (ltb_trans a x b Hax Hxb) in Hab.
Qed.

Lemma above_above (x a b : float) :
  gt x a = true -> lt b a = true -> gt x b = true.
Proof. unfold gt, lt. intros Hax Hba. exact (ltb_trans b a x Hba Hax). Qed.

(** The rain and snow classes are given above 5 mm only. *)
Lemma classification_heavy (p : predictions)
    (temp precip clouds wind humidity : float) (prob : option float)
    (cls desc : string) :
  has_means p temp precip clouds wind humidity prob ->
  classify_weather p = Ok (cls, desc) ->
  cls ∈ ["snowy"; "heavy_rain"; "rainy";
         "windy_snowy"; "windy_heavy_rain"; "windy_rainy"] ->
  gt precip 5 = true.
Proof.
  intros H Hrun Hcls.
  destruct (classify_weather_base p _ _ _ _ _ _ H) as (desc' & Hbase).
  rewrite Hbase in Hrun. injection Hrun as <- _. clear Hbase.
  destruct (gt precip 5); [reflexivity|]. exfalso.
  cbn [andb] in Hcls.
  repeat match type of Hcls with
         | context [if ?b then _ else _] => destruct b
         end;
    apply list_elem_of_In in Hcls; vm_compute in Hcls;
    intuition discriminate.
Qed.


Ltac split_ifs :=
  repeat (match goal with
          | |- context [if ?b then _ else _] =>
              match type of b with bool => destruct b end
          end;
          cbn [mbind outcome_bind as_num andb orb]).

(** X23: [get_activity_suggestions] never hands back an empty list: it
    has 3 or 4 entries, or the single indoor fallback.  On the rain and
    snow classes of [classify_weather], given above 5 mm only, the three
    fair-weather branches are closed and the list is the rain or the snow
    list. *)
Theorem activities_for_classification (p : predictions)
    (temp precip clouds wind humidity : float) (prob : option float) :
  has_means p temp precip clouds wind humidity prob ->
  (forall classification, exists acts,
     get_activity_suggestions p classification = Ok acts /\
     (length acts = 1 \/ length acts = 3 \/ length acts = 4)%nat) /\
  (forall cls desc, classify_weather p = Ok (cls, desc) ->
     (cls ∈ ["rainy"; "heavy_rain"; "windy_rainy"; "windy_heavy_rain"] ->
      get_activity_suggestions p cls = Ok rain_activities) /\
     (cls ∈ ["snowy"; "windy_snowy"] ->
      get_activity_suggestions p cls = Ok snow_activities)).
Proof.
  intros H. split.
  - intros classification. read_means H.
    unfold get_activity_suggestions. run_lookups. unfold and_then.
    destruct (lt precip 1); cbn [mbind outcome_bind as_num];
      split_ifs; eexists; (split; [reflexivity|]); vm_compute; lia.
  - intros cls desc Hrun.
    assert (Hdry : cls ∈ ["snowy"; "heavy_rain"; "rainy"; "windy_snowy";
                          "windy_heavy_rain"; "windy_rainy"] ->
                   lt precip 1 = false).
    { intros Hcls.
      apply (above_not_below precip 5 1);
        [exact (classification_heavy _ _ _ _ _ _ _ _ _ H Hrun Hcls)|reflexivity]. }
    read_means H.
    split; intros Hcls;
      (assert (Hlt : lt precip 1 = false)
         by (apply Hdry; apply list_elem_of_In in Hcls; apply list_elem_of_In;
             simpl in *; tauto));
      unfold get_activity_suggestions; run_lookups; unfold and_then;
      rewrite Hlt; cbn [mbind outcome_bind as_num];
      apply list_elem_of_In in Hcls; simpl in Hcls;
      repeat (destruct Hcls as [<-|Hcls]); try destruct Hcls; reflexivity.
Qed.

Ltac elem_yes :=
  apply list_elem_of_In; vm_compute;
  solve [repeat (first [left; reflexivity | right])].

Ltac elem_no H :=
  apply list_elem_of_In in H; vm_compute in H; exfalso;
  solve [intuition discriminate].

Ltac elem_implies :=
  let Hin := fresh in
  intros Hin; first [elem_yes | elem_no Hin].

(** X24: [get_clothing_recommendations] returns between one and seven
    entries; waterproof footwear comes only with the umbrella.  For a
    classification of [classify_weather]: sunglasses are recommended on
    [clear] and [windy_clear] only (not under [hot], which is a clear sky
    above 30 degrees), a windy class always brings the windbreaker, and the
    rain and snow classes always bring the umbrella. *)
Theorem clothing_for_classification (p : predictions)
    (temp precip clouds wind humidity : float) (prob : option float) :
  has_means p temp precip clouds wind humidity prob ->
  (forall classification, exists recs,
     get_clothing_recommendations p classification = Ok recs /\
     (1 <= length recs <= 7)%nat /\
     (footwear ∈ recs -> umbrella ∈ recs)) /\
  (forall cls desc recs,
     classify_weather p = Ok (cls, desc) ->
     get_clothing_recommendations p cls = Ok recs ->
     (sunglasses ∈ recs <-> cls = "clear" \/ cls = "windy_clear") /\
     (gt wind 15 = true -> windbreaker ∈ recs) /\
     (cls ∈ ["snowy"; "heavy_rain"; "rainy";
             "windy_snowy"; "windy_heavy_rain"; "windy_rainy"] ->
      umbrella ∈ recs)).
Proof.
  intros H. split.
  - intros classification. read_means H.
    unfold get_clothing_recommendations. run_lookups.
    split_ifs; eexists; (split; [reflexivity|]);
      (split; [vm_compute; lia|]); elem_implies.
  - intros cls desc recs Hrun Hrecs.
    assert (Hwet : cls ∈ ["snowy"; "heavy_rain"; "rainy"; "windy_snowy";
                          "windy_heavy_rain"; "windy_rainy"] ->
                   gt precip 1 = true).
    { intros Hcls.
      apply (above_above precip 5 1);
        [exact (classification_heavy _ _ _ _ _ _ _ _ _ H Hrun Hcls)|reflexivity]. }
    assert (Hgust : gt wind 15 = true -> gt wind 10 = true).
    { intros Hw. by apply (above_above wind 15 10). }
    destruct (classification_cases _ _ _ _ _ _ _ _ _ H Hrun) as (base & Hbase & ->).
    clear Hrun. read_means H. revert Hrecs.
    unfold get_clothing_recommendations. run_lookups.
    destruct (gt wind 15) eqn:Hwind;
      [rewrite (Hgust eq_refl)|]; clear Hgust;
      each_base Hbase;
      try (rewrite Hwet by elem_yes); clear Hwet;
      repeat match goal with
             | |- context [contains ?k ?c] =>
                 let v := eval vm_compute in (contains k c) in
                 change (contains k c) with v
             end;
      cbn [orb];
      split_ifs; intros [= <-];
      (split;
       [split;
        [ let Hin := fresh in
          intros Hin;
          first [ solve [left; reflexivity] | solve [right; reflexivity]
                | elem_no Hin ]
        | intros [Heq|Heq];
          first [ elem_yes | (vm_compute in Heq; discriminate Heq) ] ]|]);
      (split; [first [discriminate | intros _; elem_yes]|]);
      elem_implies.
Qed.

(** X25: a precipitation block without the [probability] key is read
    with probability 0, which passes neither rain test: whatever the
    amount, the classification is then one of the dry classes. *)
Theorem classify_weather_without_probability (p : predictions)
    (temp precip clouds wind humidity : float) (cls desc : string) :
  has_means p temp precip clouds wind humidity None ->
  classify_weather p = Ok (cls, desc) ->
  cls ∈ ["overcast"; "cloudy"; "partly_cloudy"; "hot"; "clear";
         "windy_overcast"; "windy_cloudy"; "windy_partly_cloudy";
         "windy_hot"; "windy_clear"].
Proof.
  intros H Hrun.
  destruct (classify_weather_base p _ _ _ _ _ _ H) as (desc' & Hbase).
  rewrite Hbase in Hrun. injection Hrun as <- _. clear Hbase.
  repeat match goal with
         | |- context [gt 0%float ?c] =>
             let v := eval vm_compute in (gt 0%float c) in
             change (gt 0%float c) with v
         end.
  rewrite !andb_false_r.
  split_ifs; elem_yes.
Qed.

(** X26: every comparison with NaN is false, so a dict whose five means
    are all NaN falls through every test and is classified as clear
    skies, with no wind prefix and no humidity remark. *)
Theorem classify_weather_nan (p : predictions) (prob : option float) :
  has_means p nan nan nan nan nan prob ->
  classify_weather p = Ok ("clear", "Clear skies").
Proof.
  intros H. read_means H. unfold classify_weather. run_lookups.
  destruct prob; reflexivity.
Qed.

End AdviceExtras.

(** ** The order of the reported percentiles *)

Section OrderExtras.
Import Np Xr WeatherPredictor.
Local Open Scope R_scope.

Lemma sorted_nondecreasing (l : vector) : nondecreasing (Stats.sorted l).
Proof.
  unfold nondecreasing, Stats.sorted. apply StronglySorted_merge_sort.
  - intros x y z. apply Rle_trans.
  - intros x y. destruct (Rle_or_lt x y); [by left|right; lra].
Qed.

Lemma percentile_eq (l : vector) (q : nat) :
  l <> [] ->
  Stats.percentile l q
  = Some (let s := Stats.sorted l in
          let h := ((length l - 1) * q)%nat in
          nth (h / 100) s 0
          + INR (h mod 100) / 100
            * (nth (Nat.min (h / 100 + 1) (length l - 1)) s 0
               - nth (h / 100) s 0)).
Proof.
  intros Hne. unfold Stats.percentile. cbv zeta.
  pose proof (sorted_length l) as Hlen.
  destruct (Stats.sorted l) as [|a s] eqn:Hs.
  - destruct l; [done|discriminate].
  - rewrite <- Hs in Hlen |- *. by rewrite Hlen.
Qed.

Lemma hundred_INR : INR 100 = 100.
Proof. rewrite INR_IZR_INZ. reflexivity. Qed.

Lemma percentile_monotone (l : vector) (q q' : nat) :
  l <> [] -> (q <= q')%nat -> (q' <= 100)%nat ->
  exists a b,
    Stats.percentile l q = Some a /\ Stats.percentile l q' = Some b /\ a <= b.
Proof.
  intros Hne Hq Hq'. rewrite !percentile_eq by done. cbv zeta.
  eexists _, _. split; [reflexivity|]. split; [reflexivity|].
  assert (Hpos : (0 < length l)%nat) by (destruct l; [done|simpl; lia]).
  set (n := length l) in *.
  set (h := ((n - 1) * q)%nat). set (h' := ((n - 1) * q')%nat).
  assert (Hh : (h <= h')%nat) by (subst h h'; nia).
  pose proof (Nat.div_mod_eq h 100) as Eh.
  pose proof (Nat.div_mod_eq h' 100) as Eh'.
  pose proof (Nat.mod_upper_bound h 100 ltac:(lia)) as Rh.
  pose proof (Nat.mod_upper_bound h' 100 ltac:(lia)) as Rh'.
  assert (Hbound : (h' <= 100 * (n - 1))%nat) by (subst h'; nia).
  set (lo := (h / 100)%nat) in *. set (lo' := (h' / 100)%nat) in *.
  set (r := (h mod 100)%nat) in *. set (r' := (h' mod 100)%nat) in *.
  pose proof (sorted_nondecreasing l) as Hsorted.
  pose proof (sorted_length l) as Hlen. fold n in Hlen.
  assert (Hstep : forall i j, (i <= j)%nat -> (j < n)%nat ->
            nth i (Stats.sorted l) 0 <= nth j (Stats.sorted l) 0).
  { intros i j Hij Hj. apply nondecreasing_nth; [done|done|]. by rewrite Hlen. }
  assert (Hg : 0 <= INR r / 100 <= 1).
  { apply ratio_unit; [|lra]. split; [apply pos_INR|].
    rewrite <- hundred_INR. apply le_INR. lia. }
  assert (Hg' : 0 <= INR r' / 100 <= 1).
  { apply ratio_unit; [|lra]. split; [apply pos_INR|].
    rewrite <- hundred_INR. apply le_INR. lia. }
  pose proof (Hstep lo (Nat.min (lo + 1) (n - 1)) ltac:(lia) ltac:(lia)) as H1.
  pose proof (Hstep lo' (Nat.min (lo' + 1) (n - 1)) ltac:(lia) ltac:(lia)) as H2.
  destruct (decide (lo = lo')) as [Heq|Hneq].
  - rewrite <- Heq in *.
    assert (Hr : INR r / 100 <= INR r' / 100).
    { apply Rmult_le_compat_r; [lra|]. apply le_INR. lia. }
    nra.
  - pose proof (Hstep (Nat.min (lo + 1) (n - 1)) lo' ltac:(lia) ltac:(lia)) as H3.
    nra.
Qed.

Lemma median_percentile (l : vector) :
  l <> [] -> Stats.median l = Stats.percentile l 50.
Proof.
  intros Hne. rewrite percentile_eq by done. unfold Stats.median. cbv zeta.
  assert (Hpos : (0 < length l)%nat) by (destruct l; [done|simpl; lia]).
  pose proof (sorted_length l) as Hlen.
  destruct (Stats.sorted l) as [|a s] eqn:Hs; [simpl in Hlen; lia|].
  rewrite <- Hs in Hlen |- *. rewrite Hlen. clear Hs a s.
  set (n := length l) in *. set (h := ((n - 1) * 50)%nat).
  pose proof (Nat.div_mod_eq h 100) as Eh.
  pose proof (Nat.mod_upper_bound h 100 ltac:(lia)) as Rh.
  pose proof (Nat.div_mod_eq n 2) as En.
  pose proof (Nat.mod_upper_bound n 2 ltac:(lia)) as Rn.
  destruct (Nat.odd n) eqn:Hodd.
  - apply Nat.odd_spec in Hodd as [k Hk].
    assert (Hlo : (h / 100 = n / 2)%nat) by (subst h; lia).
    assert (Hr : (h mod 100 = 0)%nat) by (subst h; lia).
    rewrite Hlo, Hr. f_equal. simpl INR. lra.
  - assert (Heven : Nat.even n = true) by (by rewrite <- Nat.negb_odd, Hodd).
    apply Nat.even_spec in Heven as [k Hk].
    assert (Hlo : (h / 100 = n / 2 - 1)%nat) by (subst h; lia).
    assert (Hr : (h mod 100 = 50)%nat) by (subst h; lia).
    assert (Hhi : Nat.min (n / 2 - 1 + 1) (n - 1) = (n / 2)%nat) by lia.
    rewrite Hlo, Hr, Hhi. f_equal.
    assert (H50 : INR 50 = 50) by (rewrite INR_IZR_INZ; reflexivity).
    rewrite H50. field.
Qed.

Section WithServices.

Context (eigh : matrix -> vector * matrix).
Context {rng_state : Type} (seed_state : Z -> rng_state)
        (gauss : rng_state -> R * rng_state).
Context (fetch_power_point : R -> R -> date -> nat -> option hourly).

(** X27: with at least one sample the reported percentiles are in order:
    [p5 <= median <= p95] for every variable (the median is the 50th
    percentile), so the range shown as minimum and maximum is never
    inverted and always holds the median. *)
Theorem reported_percentiles_ordered (lat lon : R) (target : date)
    (years_back : Z) (days_window N_mc : nat) (random_seed : Z)
    (include_current_year : bool) (global : rng_state) (res : results)
    (vi : nat) (var_name : string) :
  (predict eigh rng_state seed_state gauss fetch_power_point
     lat lon target years_back days_window N_mc random_seed
     include_current_year global).1 = Ok res ->
  (1 <= N_mc)%nat ->
  parameters !! vi = Some var_name ->
  exists entry p5 med p95,
    predictions res !! Py.get var_mapping var_name var_name = Some entry /\
    entry !! "p5"%string = Some (PNum (Some p5)) /\
    entry !! "median"%string = Some (PNum (Some med)) /\
    entry !! "p95"%string = Some (PNum (Some p95)) /\
    p5 <= med <= p95.
Proof.
  intros Hres HN Hvar.
  apply predict_samples in Hres as (k & samples & -> & _ & Hlen & _).
  set (column := col vi samples).
  assert (Hne : column <> []).
  { intros Hnil. apply (f_equal length) in Hnil.
    subst column. rewrite col_length in Hnil. simpl in Hnil. lia. }
  destruct (percentile_monotone column 5 50 Hne ltac:(lia) ltac:(lia))
    as (p5 & med & Hp5 & Hmed & Hlow).
  destruct (percentile_monotone column 50 95 Hne ltac:(lia) ltac:(lia))
    as (med' & p95 & Hmed' & Hp95 & Hhigh).
  rewrite Hmed in Hmed'. injection Hmed' as <-.
  rewrite <- (median_percentile column Hne) in Hmed.
  eexists _, p5, med, p95.
  split; [exact (summarize_entry _ _ _ _ _ _ _ _ Hvar)|].
  cbv zeta. fold column. rewrite Hmed, Hp5, Hp95.
  match goal with
  | |- context [if ?D then <[_ := ?p]> ?b else _] =>
      match b with
      | context [insert "mean"%string ?a1 _] =>
        match b with
        | context [insert "std"%string ?a3 _] =>
            pose proof (entry_lookups D p a1 (PNum (Some med)) a3
                          (PNum (Some p5)) (PNum (Some p95))
                          (PStr (get_unit var_name)))
              as (_ & E2 & _ & E4 & E5 & _)
        end
      end
  end.
  done.
Qed.

End WithServices.

End OrderExtras.

(** ** Samples and their weights *)

Section SampleWeightExtras.
Import Np Xr WeatherPredictor.
Local Open Scope R_scope.
Context {A : Type}.

Lemma lookup_join_uniform {B : Type} (m i j : nat) (l : list (list B))
    (row : list B) (x : B) :
  Forall (fun row => length row = m) l ->
  l !! i = Some row -> row !! j = Some x ->
  mjoin l !! (i * m + j)%nat = Some x.
Proof.
  intros Hl. revert i. induction Hl as [|r l Hr _ IH]; intros i Hi Hj; [done|].
  change (mjoin (r :: l)) with (r ++ mjoin l).
  destruct i as [|i].
  - injection Hi as ->. cbn [Nat.mul Nat.add]. by apply lookup_app_l_Some.
  - cbn in Hi. rewrite lookup_app_r by (rewrite Hr; lia).
    rewrite Hr. replace (S i * m + j - m)%nat with (i * m + j)%nat by lia.
    by apply IH.
Qed.

Lemma valid_slice_lookup (days_window j : nat) (common_doys : list Z) :
  (1 <= days_window)%nat ->
  (j < length common_doys - 2 * days_window)%nat ->
  valid_slice days_window common_doys !! j = common_doys !! (j + days_window)%nat.
Proof.
  intros HW Hj. unfold valid_slice. destruct days_window as [|W]; [lia|].
  rewrite lookup_take_lt by lia. rewrite lookup_drop. f_equal. lia.
Qed.

(** X28: the rows of the flattened sample matrix and the flattened weights
    [predict] hands to [weighted_pca] line up.  Row [i * n_valid + j] is
    the state vector of year [i] whose window starts at day [j]; its centre
    is day [j + W], the [j]-th entry of [common_doys[W:-W]]; and entry
    [i * n_valid + j] of the weights is the weight of year [i] times the
    weight of that day. *)
Theorem sample_rows_match_weights (zero : A) (X_raw X_state : ndarray3 A)
    (n_years n_days n_vars days_window i j : nat)
    (common_doys years : list Z) (target_year target_doy : Z)
    (alpha_year alpha_day : R) (W_year W_day : vector) (W_combined : matrix)
    (plane : list (list A)) :
  well_shaped X_raw ->
  shape X_raw = (n_years, n_days, n_vars) ->
  length years = n_years -> length common_doys = n_days ->
  (1 <= days_window)%nat ->
  build_state_vectors zero X_raw days_window = Ok X_state ->
  compute_weights years target_year (valid_slice days_window common_doys)
    target_doy alpha_year alpha_day = (W_year, W_day, W_combined) ->
  data X_raw !! i = Some plane ->
  (j < n_days - 2 * days_window)%nat ->
  let row := (i * (n_days - 2 * days_window) + j)%nat in
  mjoin (data X_state) !! row = Some (window_at days_window plane j) /\
  exists year doy wy wd,
    years !! i = Some year /\
    common_doys !! (j + days_window)%nat = Some doy /\
    valid_slice days_window common_doys !! j = Some doy /\
    W_year !! i = Some wy /\ W_day !! j = Some wd /\
    ravel W_combined !! row = Some (wy * wd).
Proof.
  intros Hwf Hshape Hyears Hcommon HW Hrun Hweights Hplane Hj row.
  rewrite (build_state_vectors_eq zero X_raw _ _ _ _ Hwf Hshape) in Hrun by lia.
  injection Hrun as <-. cbn [data].
  unfold well_shaped in Hwf. rewrite Hshape in Hwf. destruct Hwf as [Hlen _].
  set (n_valid := (n_days - 2 * days_window)%nat) in *.
  split.
  - subst row. apply (lookup_join_uniform n_valid _ _ _
                        (map (window_at days_window plane) (seq 0 n_valid))).
    + rewrite Forall_map. apply Forall_true. intros pl. cbn beta.
      by rewrite length_map, length_seq.
    + by rewrite list_lookup_fmap, Hplane.
    + by rewrite list_lookup_fmap, lookup_seq_lt.
  - injection Hweights as <- <- <-.
    assert (Hi : (i < length years)%nat).
    { apply lookup_lt_Some in Hplane. lia. }
    destruct (lookup_lt_is_Some_2 years i Hi) as [year Hyear].
    destruct (lookup_lt_is_Some_2 common_doys (j + days_window))
      as [doy Hdoy]; [subst n_valid; lia|].
    assert (Hvalid : valid_slice days_window common_doys !! j = Some doy).
    { rewrite valid_slice_lookup; [done|done|subst n_valid; lia]. }
    set (Wy := decay_weights alpha_year years target_year).
    set (Wd := decay_weights alpha_day (valid_slice days_window common_doys)
                 target_doy).
    destruct (lookup_lt_is_Some_2 Wy i) as [wy Hwy];
      [subst Wy; by rewrite decay_weights_length|].
    assert (Hdays : length Wd = n_valid).
    { subst Wd. rewrite decay_weights_length, valid_slice_length by done.
      subst n_valid. lia. }
    destruct (lookup_lt_is_Some_2 Wd j) as [wd Hwd]; [lia|].
    exists year, doy, wy, wd. repeat (split; [done|]).
    subst row. unfold ravel.
    apply (lookup_concat_uniform n_valid _ _ _ (map (Rmult wy) Wd)).
    + unfold outer. rewrite Forall_map. apply Forall_true. intros x. cbn beta.
      by rewrite length_map.
    + unfold outer. by rewrite list_lookup_fmap, Hwy.
    + by rewrite list_lookup_fmap, Hwd.
Qed.

End SampleWeightExtras.

(** ** Instances of the further properties *)

Section ExtraInstances.
Import Np Xr WeatherPredictor Examples.
Local Open Scope R_scope.

(** A forecast for 11 January 2025 from the years 2023 and 2024. *)
Lemma predict_example_stages :
  exists ds X_raw common_doys years,
    fetch_multi_year_data power_service 50 2 1 11 2024 2 1 = Ok (Some ds) /\
    prepare_daily_data ds 1 = Ok (X_raw, common_doys, years) /\
    Forall (Forall (Forall is_Some)) (data X_raw) /\
    (2 * 1 < length common_doys)%nat.
Proof.
  match eval vm_compute in (fetch_multi_year_data power_service 50 2 1 11 2024 2 1) with
  | Ok (Some ?ds) =>
      match eval vm_compute in (prepare_daily_data ds 1) with
      | Ok (?X, ?c, ?y) => exists ds, X, c, y
      end
  end.
  split; [vm_compute; reflexivity|]. split; [vm_compute; reflexivity|].
  split; [repeat constructor; eexists; reflexivity|]. simpl. lia.
Qed.

Lemma eigh_diagonal_rows (S : matrix) : length (eigh_diagonal S).2 = length S.
Proof. unfold eigh_diagonal. cbn [snd]. by rewrite length_map, length_seq. Qed.

Lemma predict_example_run :
  exists res,
    (predict eigh_diagonal nat seed_counter counting_gauss power_service
       50 2 (Date 2025 1 11) 2 1 5 42 false 0%nat).1 = Ok res.
Proof.
  destruct predict_example_stages
    as (ds & X_raw & common_doys & years & Hfetch & Hprep & Hnum & Hdays).
  destruct (predict_run eigh_diagonal seed_counter counting_gauss power_service
              50 2 (Date 2025 1 11) 2 1 5 42 false 0%nat ds X_raw common_doys
              years eigh_diagonal_rows ltac:(lia) Hfetch Hprep Hnum ltac:(lia)
              Hdays ltac:(lia))
    as (samples & k & Hrun & _).
  eauto.
Qed.


Example prepare_2023_2024 :
  exists X_raw,
    prepare_daily_data combined_2023_2024 2
    = Ok (X_raw, [1; 2]%Z, [2023; 2024]%Z).
Proof.
  match eval vm_compute in (prepare_daily_data combined_2023_2024 2) with
  | Ok (?X, _, _) => exists X
  end.
  vm_compute. reflexivity.
Qed.

Example clip_one_sample :
  apply_constraints 7 [[-1; 70; 120; 50; 3; 100; 5]]
  = Ok (map (imap clip_value) [[-1; 70; 120; 50; 3; 100; 5]]).
Proof. by rewrite apply_constraints_spec. Qed.

Lemma half_nonneg : 0 <= 0.5.
Proof. lra. Qed.

Lemma fifth_nonneg : 0 <= 0.2.
Proof. lra. Qed.


Lemma center_slice_of_state_vector_witness :
  exists state,
    [ [[1; 2; 3; 4; 5; 6]; [3; 4; 5; 6; 7; 8]];
      [[11; 12; 13; 14; 15; 16]; [13; 14; 15; 16; 17; 18]] ]%Z
      !! 0%nat ≫= (.!! 0%nat) = Some state /\
    [[1; 2]; [3; 4]; [5; 6]; [7; 8]]%Z !! (0 + 1)%nat
      = Some (take 2 (drop (1 * 2) state)).
Proof.
  apply (center_slice_of_state_vector 0%Z tensor_2_4_2 _ 2 4 2 1 0 0
           [[1; 2]; [3; 4]; [5; 6]; [7; 8]]%Z
           tensor_2_4_2_well_shaped eq_refl build_state_vectors_2_4_2 eq_refl).
  simpl. lia.
Defined.

Lemma build_state_vectors_short_history_witness :
  match build_state_vectors 0%Z tensor_2_4_2 2 with
  | Ok X_state =>
      4%nat = (2 * 2)%nat /\
      shape X_state = (2, 0, (2 * 2 + 1) * 2)%nat /\
      data X_state = replicate 2 []
  | Raise e => (4 < 2 * 2)%nat /\ e = ValueError
  end.
Proof.
  apply (build_state_vectors_short_history 0%Z tensor_2_4_2 2 4 2 2
           tensor_2_4_2_well_shaped eq_refl).
  simpl. lia.
Defined.

Lemma state_vectors_overlap_witness :
  exists state next,
    [ [[1; 2; 3; 4; 5; 6]; [3; 4; 5; 6; 7; 8]];
      [[11; 12; 13; 14; 15; 16]; [13; 14; 15; 16; 17; 18]] ]%Z
      !! 0%nat ≫= (.!! 0%nat) = Some state /\
    [ [[1; 2; 3; 4; 5; 6]; [3; 4; 5; 6; 7; 8]];
      [[11; 12; 13; 14; 15; 16]; [13; 14; 15; 16; 17; 18]] ]%Z
      !! 0%nat ≫= (.!! (0 + 1)%nat) = Some next /\
    drop 2 state = take (2 * 1 * 2) next.
Proof.
  apply (state_vectors_overlap 0%Z tensor_2_4_2 _ 2 4 2 1 0 0
           [[1; 2]; [3; 4]; [5; 6]; [7; 8]]%Z
           tensor_2_4_2_well_shaped eq_refl build_state_vectors_2_4_2 eq_refl).
  simpl. lia.
Defined.

Lemma two_years_near :
  Forall (fun y => 0.5 * IZR (Z.abs (y - 2025)) <= 700) [2023; 2024]%Z.
Proof. near_target. Qed.

Lemma three_days_near :
  Forall (fun d => 0.2 * IZR (Z.abs (d - 11)) <= 700) [10; 11; 12]%Z.
Proof. near_target. Qed.

Lemma weights_decay_with_distance_witness :
  let W_year := decay_weights 0.5 [2023; 2024]%Z 2025 in
  let W_day := decay_weights 0.2 [10; 11; 12]%Z 11 in
  (forall i j yi yj,
     [2023; 2024]%Z !! i = Some yi -> [2023; 2024]%Z !! j = Some yj ->
     (Z.abs (yi - 2025) <= Z.abs (yj - 2025))%Z ->
     exists wi wj, W_year !! i = Some wi /\ W_year !! j = Some wj /\ wj <= wi) /\
  (forall i j di dj,
     [10; 11; 12]%Z !! i = Some di -> [10; 11; 12]%Z !! j = Some dj ->
     (Z.abs (di - 11) <= Z.abs (dj - 11))%Z ->
     exists wi wj, W_day !! i = Some wi /\ W_day !! j = Some wj /\ wj <= wi).
Proof.
  exact (weights_decay_with_distance [2023; 2024]%Z 2025 [10; 11; 12]%Z 11
           0.5 0.2 _ _ _ half_nonneg fifth_nonneg two_years_near
           three_days_near eq_refl).
Defined.

Lemma combined_weights_flat_order_witness :
  let W_year := decay_weights 0.5 [2023; 2024]%Z 2025 in
  let W_day := decay_weights 0.2 [10; 11; 12]%Z 11 in
  length (ravel (outer W_year W_day)) = (2 * 3)%nat /\
  forall i j wi wj,
    W_year !! i = Some wi -> W_day !! j = Some wj ->
    ravel (outer W_year W_day) !! (i * 3 + j)%nat = Some (wi * wj).
Proof.
  exact (combined_weights_flat_order [2023; 2024]%Z 2025 [10; 11; 12]%Z 11
           0.5 0.2 _ _ _ eq_refl).
Defined.




Lemma apply_constraints_idempotent_witness :
  apply_constraints 7 (map (imap clip_value) [[-1; 70; 120; 50; 3; 100; 5]])
  = Ok (map (imap clip_value) [[-1; 70; 120; 50; 3; 100; 5]]).
Proof.
  exact (apply_constraints_idempotent 7 _ _ clip_one_sample).
Defined.

Lemma prepare_daily_data_rectangular_witness :
  exists X_raw : ndarray3 (option R),
    prepare_daily_data combined_2023_2024 2
    = Ok (X_raw, [1; 2]%Z, [2023; 2024]%Z) /\
    [2023; 2024]%Z = ds_year combined_2023_2024 /\
    (2 <= length [2023; 2024]%Z)%nat /\
    StronglySorted Z.lt [1; 2]%Z /\
    shape X_raw = (length [2023; 2024]%Z, length [1; 2]%Z, 7%nat) /\
    length (data X_raw) = length [2023; 2024]%Z /\
    Forall (fun plane => length plane = length [1; 2]%Z /\
                         Forall (fun row => length row = 7%nat) plane)
           (data X_raw).
Proof.
  destruct prepare_2023_2024 as [X_raw Hrun]. exists X_raw.
  split; [exact Hrun|].
  exact (prepare_daily_data_rectangular combined_2023_2024 2 X_raw _ _ Hrun).
Defined.

Lemma imputation_all_or_nothing_witness :
  exists X_raw : ndarray3 (option R),
    prepare_daily_data combined_2023_2024 2
    = Ok (X_raw, [1; 2]%Z, [2023; 2024]%Z) /\
    (Forall (Forall (fun row => exists x, row !! 0%nat = Some (Some x)))
            (data X_raw) \/
     Forall (Forall (fun row => row !! 0%nat = Some None)) (data X_raw)).
Proof.
  destruct prepare_2023_2024 as [X_raw Hrun]. exists X_raw.
  split; [exact Hrun|].
  apply (imputation_all_or_nothing combined_2023_2024 2 X_raw _ _ 0 Hrun).
  lia.
Defined.

Lemma predict_leap_day_target_witness :
  exists e,
    (predict eigh_diagonal nat seed_counter counting_gauss power_service
       50 2 (Date 2024 2 29) 2 1 5 42 false 0%nat).1 = Raise e.
Proof.
  apply (predict_leap_day_target eigh_diagonal seed_counter counting_gauss
           power_service 50 2 (Date 2024 2 29) 2 1 5 42 false 0%nat);
    [reflexivity|reflexivity|reflexivity|simpl; lia].
Defined.


Lemma predict_requirements_witness :
  let requested := year_range (2025 - 1) 2 in
  let answered :=
    filter (fun y => is_Some (power_service 50 2 (Date y 1 11) 1)) requested in
  exists res,
    (predict eigh_diagonal nat seed_counter counting_gauss power_service
       50 2 (Date 2025 1 11) 2 1 5 42 false 0%nat).1 = Ok res /\
    (0 <= 42 < 2 ^ 32)%Z /\
    Forall (fun y => datetime y 1 11 = Ok (Date y 1 11)) requested /\
    (2 <= length answered)%nat.
Proof.
  intros requested answered.
  destruct predict_example_run as [res Hrun]. exists res. split; [exact Hrun|].
  exact (predict_requirements eigh_diagonal seed_counter counting_gauss
           power_service 50 2 (Date 2025 1 11) 2 1 5 42 false 0%nat res Hrun).
Defined.

Lemma predict_result_layout_witness :
  exists res,
    (predict eigh_diagonal nat seed_counter counting_gauss power_service
       50 2 (Date 2025 1 11) 2 1 5 42 false 0%nat).1 = Ok res /\
    location (meta res) = (50, 2) /\ target_date (meta res) = Date 2025 1 11 /\
    n_ensemble (meta res) = 5%nat /\ (1 <= n_components (meta res))%nat /\
    Forall (fun '(var_name, name) =>
              exists entry,
                predictions res !! name = Some entry /\
                Forall (fun key => exists x, entry !! key = Some (PNum x))
                       ["mean"; "median"; "std"; "p5"; "p95"]%string /\
                entry !! "unit"%string = Some (PStr (get_unit var_name)) /\
                (is_Some (entry !! "probability"%string)
                 <-> name = "precipitation"%string))
           [ ("PRECTOTCORR", "precipitation"); ("T2M", "temperature");
             ("RH2M", "humidity"); ("CLOUD_AMT", "cloud_cover");
             ("WS10M", "wind_speed"); ("ALLSKY_SFC_SW_DWN", "solar_radiation");
             ("T2MDEW", "dew_point") ]%string.
Proof.
  destruct predict_example_run as [res Hrun]. exists res.
  split; [exact Hrun|].
  exact (predict_result_layout eigh_diagonal seed_counter counting_gauss
           power_service 50 2 (Date 2025 1 11) 2 1 5 42 false 0%nat res Hrun).
Defined.

Lemma reported_statistics_within_bounds_witness :
  exists res,
    (predict eigh_diagonal nat seed_counter counting_gauss power_service
       50 2 (Date 2025 1 11) 2 1 5 42 false 0%nat).1 = Ok res /\
  exists entry m med sd p5 p95,
    predictions res !! "precipitation"%string = Some entry /\
    entry !! "mean"%string = Some (PNum (Some m)) /\
    entry !! "median"%string = Some (PNum (Some med)) /\
    entry !! "std"%string = Some (PNum (Some sd)) /\
    entry !! "p5"%string = Some (PNum (Some p5)) /\
    entry !! "p95"%string = Some (PNum (Some p95)) /\
    within_bounds 0 m /\ within_bounds 0 med /\
    within_bounds 0 p5 /\ within_bounds 0 p95 /\ 0 <= sd.
Proof.
  destruct predict_example_run as [res Hrun]. exists res.
  split; [exact Hrun|].
  apply (reported_statistics_within_bounds eigh_diagonal seed_counter
           counting_gauss power_service 50 2 (Date 2025 1 11) 2 1 5 42 false
           0%nat res 0 "PRECTOTCORR"%string Hrun); [lia|reflexivity].
Defined.

Lemma reported_percentiles_ordered_witness :
  exists res,
    (predict eigh_diagonal nat seed_counter counting_gauss power_service
       50 2 (Date 2025 1 11) 2 1 5 42 false 0%nat).1 = Ok res /\
  exists entry p5 med p95,
    predictions res !! "temperature"%string = Some entry /\
    entry !! "p5"%string = Some (PNum (Some p5)) /\
    entry !! "median"%string = Some (PNum (Some med)) /\
    entry !! "p95"%string = Some (PNum (Some p95)) /\
    p5 <= med <= p95.
Proof.
  destruct predict_example_run as [res Hrun]. exists res.
  split; [exact Hrun|].
  apply (reported_percentiles_ordered eigh_diagonal seed_counter
           counting_gauss power_service 50 2 (Date 2025 1 11) 2 1 5 42 false
           0%nat res 1 "T2M"%string Hrun); [lia|reflexivity].
Defined.

Lemma sample_rows_match_weights_witness :
  let W_year := decay_weights 0.5 [2023; 2024]%Z 2025 in
  let W_day := decay_weights 0.2 (valid_slice 1 [10; 11; 12; 13]%Z) 11 in
  let row := (0 * (4 - 2 * 1) + 0)%nat in
  mjoin [ [[1; 2; 3; 4; 5; 6]; [3; 4; 5; 6; 7; 8]];
          [[11; 12; 13; 14; 15; 16]; [13; 14; 15; 16; 17; 18]] ]%Z !! row
  = Some (window_at 1 [[1; 2]; [3; 4]; [5; 6]; [7; 8]]%Z 0) /\
  exists year doy wy wd,
    [2023; 2024]%Z !! 0%nat = Some year /\
    [10; 11; 12; 13]%Z !! (0 + 1)%nat = Some doy /\
    valid_slice 1 [10; 11; 12; 13]%Z !! 0%nat = Some doy /\
    W_year !! 0%nat = Some wy /\ W_day !! 0%nat = Some wd /\
    ravel (outer W_year W_day) !! row = Some (wy * wd).
Proof.
  apply (sample_rows_match_weights 0%Z tensor_2_4_2 _ 2 4 2 1 0 0
           [10; 11; 12; 13]%Z [2023; 2024]%Z 2025 11 0.5 0.2 _ _ _
           [[1; 2]; [3; 4]; [5; 6]; [7; 8]]%Z
           tensor_2_4_2_well_shaped eq_refl eq_refl eq_refl (le_n 1)
           build_state_vectors_2_4_2 eq_refl eq_refl).
  simpl. lia.
Defined.

End ExtraInstances.

Section AdviceInstances.
Import PrimFloat Classifier Advice Samples.
Local Open Scope string_scope.
Local Set Warnings "-inexact-float".

Lemma sample_has_means :
  has_means sample_predictions 25.5 2.5 60 8.5 70 (Some 0.6%float).
Proof.
  unfold has_means, sample_predictions.
  repeat split; eexists; repeat split; vm_compute; reflexivity.
Qed.

Lemma storm_has_means :
  has_means storm_predictions 2 30 90 20 70 (Some 0.9%float).
Proof.
  unfold has_means, storm_predictions.
  repeat split; eexists; repeat split; vm_compute; reflexivity.
Qed.

Example classify_weather_storm :
  classify_weather storm_predictions
  = Ok ("windy_heavy_rain", "Windy with heavy rainfall expected").
Proof. vm_compute. reflexivity. Qed.

Lemma without_probability_has_means :
  has_means predictions_without_probability 12 30 90 20 70 None.
Proof.
  unfold has_means, predictions_without_probability.
  repeat split; eexists; repeat split; vm_compute; reflexivity.
Qed.

Example classify_weather_missing_probability :
  classify_weather predictions_without_probability
  = Ok ("windy_overcast", "Windy with overcast skies").
Proof. vm_compute. reflexivity. Qed.

Lemma nan_has_means :
  has_means nan_predictions nan nan nan nan nan (Some nan).
Proof.
  unfold has_means, nan_predictions.
  repeat split; eexists; repeat split; vm_compute; reflexivity.
Qed.


Lemma emoji_of_classification_witness :
  get_weather_emoji "windy_heavy_rain" <> default_emoji /\
  (get_weather_emoji "windy_heavy_rain" = "💨"
   <-> "windy_heavy_rain" = "windy_hot") /\
  forall base, "windy_heavy_rain" = "windy_" +:+ base -> base <> "hot" ->
    get_weather_emoji "windy_heavy_rain" = get_weather_emoji base.
Proof.
  exact (emoji_of_classification storm_predictions 2 30 90 20 70
           (Some 0.9%float) _ _ storm_has_means classify_weather_storm).
Defined.

Lemma icon_of_classification_witness :
  (get_weather_icon "windy_heavy_rain" = default_emoji <-> gt 20 15 = true) /\
  (gt 20 15 = false ->
   get_weather_icon "windy_heavy_rain" = get_weather_emoji "windy_heavy_rain").
Proof.
  exact (icon_of_classification storm_predictions 2 30 90 20 70
           (Some 0.9%float) _ _ storm_has_means classify_weather_storm).
Defined.

Lemma activities_for_classification_witness :
  (forall classification, exists acts,
     get_activity_suggestions storm_predictions classification = Ok acts /\
     (length acts = 1 \/ length acts = 3 \/ length acts = 4)%nat) /\
  (forall cls desc, classify_weather storm_predictions = Ok (cls, desc) ->
     (cls ∈ ["rainy"; "heavy_rain"; "windy_rainy"; "windy_heavy_rain"] ->
      get_activity_suggestions storm_predictions cls = Ok rain_activities) /\
     (cls ∈ ["snowy"; "windy_snowy"] ->
      get_activity_suggestions storm_predictions cls = Ok snow_activities)).
Proof.
  exact (activities_for_classification storm_predictions 2 30 90 20 70
           (Some 0.9%float) storm_has_means).
Defined.

Lemma clothing_for_classification_witness :
  (forall classification, exists recs,
     get_clothing_recommendations storm_predictions classification = Ok recs /\
     (1 <= length recs <= 7)%nat /\
     (footwear ∈ recs -> umbrella ∈ recs)) /\
  (forall cls desc recs,
     classify_weather storm_predictions = Ok (cls, desc) ->
     get_clothing_recommendations storm_predictions cls = Ok recs ->
     (sunglasses ∈ recs <-> cls = "clear" \/ cls = "windy_clear") /\
     (gt 20 15 = true -> windbreaker ∈ recs) /\
     (cls ∈ ["snowy"; "heavy_rain"; "rainy";
             "windy_snowy"; "windy_heavy_rain"; "windy_rainy"] ->
      umbrella ∈ recs)).
Proof.
  exact (clothing_for_classification storm_predictions 2 30 90 20 70
           (Some 0.9%float) storm_has_means).
Defined.

Lemma classify_weather_without_probability_witness :
  "windy_overcast"
  ∈ ["overcast"; "cloudy"; "partly_cloudy"; "hot"; "clear";
     "windy_overcast"; "windy_cloudy"; "windy_partly_cloudy";
     "windy_hot"; "windy_clear"].
Proof.
  exact (classify_weather_without_probability predictions_without_probability
           12 30 90 20 70 _ _ without_probability_has_means
           classify_weather_missing_probability).
Defined.

Lemma classify_weather_nan_witness :
  classify_weather nan_predictions = Ok ("clear", "Clear skies").
Proof.
  exact (classify_weather_nan nan_predictions (Some nan) nan_has_means).
Defined.

End AdviceInstances.
